(** * Orders dashboards: the data preparation and aggregation pipeline

    A shallow embedding of the three dashboard scripts [main.py],
    [sample1.py] and [Sample02.py]: the loader [load_data] of each script,
    the sidebar filter, the grouped aggregations and the age binning,
    followed by the properties of the specification stated on them.

    pandas objects are modelled as follows.
    - A cell is a [Cell]: the missing value ([NaN], which stands for NaN,
      NaT and None alike), a string, an integer, a float64 (held as the
      rational number that is its value), a timestamp, a period or a
      time difference.
    - A [Series] is a list of cells, each with its index label.
    - A [DataFrame] is the list of its column names and the list of its
      rows, each row an index label and a finite map from column name to
      cell.
    - The world outside the process (the files, the clock, the messages
      shown with [st.error], the cache of [st.cache_data]) is a [World]
      passed through the loaders. *)

From Stdlib Require Import ZArith QArith Qround Qpower String Ascii List Lia Bool.
From stdpp Require Import gmap strings list fin_maps sorting.

Local Open Scope Z_scope.

(** ** Timestamps and the calendar *)

(** Every date format of the scripts is a calendar date and
    [calculate_age] reads only [year], [month] and [day], so a timestamp
    is its calendar date (proleptic Gregorian, as in Python's
    [datetime]). *)
Record Timestamp := mkTimestamp { year : Z; month : Z; day : Z }.

Definition is_leap (y : Z) : bool :=
  (y mod 4 =? 0) && (negb (y mod 100 =? 0) || (y mod 400 =? 0)).

Definition days_in_month (y m : Z) : Z :=
  if m =? 2 then (if is_leap y then 29 else 28)
  else if (m =? 4) || (m =? 6) || (m =? 9) || (m =? 11) then 30
  else 31.

(** A date of the calendar, as [datetime] has them. *)
Definition calendar_date (d : Timestamp) : bool :=
  (1 <=? year d) && (year d <=? 9999) &&
  (1 <=? month d) && (month d <=? 12) &&
  (1 <=? day d) && (day d <=? days_in_month (year d) (month d)).

(** [(a.year, a.month, a.day) <= (b.year, b.month, b.day)] *)
Definition date_leb (a b : Timestamp) : bool :=
  (year a <? year b)
  || ((year a =? year b)
      && ((month a <? month b)
          || ((month a =? month b) && (day a <=? day b)))).

(** The days that a timestamp of pandas holds. It counts the
    nanoseconds since 1970 in 64 bits, from 1677-09-21 00:12:43.145224193
    ([pd.Timestamp.min]) to 2262-04-11 23:47:16.854775807
    ([pd.Timestamp.max]); midnight of a day is among them from 22
    September 1677 to 11 April 2262. *)
Definition in_bounds (d : Timestamp) : bool :=
  date_leb (mkTimestamp 1677 9 22) d && date_leb d (mkTimestamp 2262 4 11).

(** The dates that [pd.to_datetime] gives: calendar dates that a
    timestamp holds. With [errors='coerce'] anything else becomes NaT. *)
Definition valid_date (d : Timestamp) : bool :=
  calendar_date d && in_bounds d.

(** [datetime._days_before_year], [_days_before_month] and [toordinal]. *)
Definition days_before_year (y : Z) : Z :=
  let y' := y - 1 in y' * 365 + y' / 4 - y' / 100 + y' / 400.

Fixpoint days_before_month_aux (y : Z) (n : nat) : Z :=
  match n with
  | O => 0
  | S n' => days_before_month_aux y n' + days_in_month y (Z.of_nat n)
  end.

Definition days_before_month (y m : Z) : Z :=
  days_before_month_aux y (Z.to_nat (m - 1)).

Definition toordinal (d : Timestamp) : Z :=
  days_before_year (year d) + days_before_month (year d) (month d) + day d.

(** ** Cells *)

Inductive Cell :=
  | NaN
  | Str (s : string)
  | Int (z : Z)
  | Float (q : Q)
  | Date (d : Timestamp)
  | Period (y m : Z)
  | Timedelta (days : Z).

#[global] Instance Timestamp_eq_dec : EqDecision Timestamp.
Proof. solve_decision. Defined.

#[global] Instance Q_eq_dec : EqDecision Q.
Proof. solve_decision. Defined.

#[global] Instance Cell_eq_dec : EqDecision Cell.
Proof. solve_decision. Defined.

(** [pd.isnull]. *)
Definition isnull (c : Cell) : bool :=
  match c with NaN => true | _ => false end.

(** ** Parsing dates: [pd.to_datetime(..., format=..., errors='coerce')] *)

Definition is_digit (a : ascii) : bool :=
  let n := Z.of_nat (nat_of_ascii a) in (48 <=? n) && (n <=? 57).

Definition digit_val (a : ascii) : Z := Z.of_nat (nat_of_ascii a) - 48.

(** The value of a non-empty string of decimal digits. *)
Fixpoint digits_acc (acc : Z) (s : string) : option Z :=
  match s with
  | EmptyString => Some acc
  | String a s' =>
      if is_digit a then digits_acc (acc * 10 + digit_val a) s' else None
  end.

Definition digits (s : string) : option Z :=
  match s with
  | EmptyString => None
  | _ => digits_acc 0 s
  end.

(** The fields of a string between the occurrences of ["-"]. *)
Fixpoint split_dash (s : string) : list string :=
  match s with
  | EmptyString => [EmptyString]
  | String a s' =>
      if Ascii.eqb a "-"%char then EmptyString :: split_dash s'
      else match split_dash s' with
           | f :: fs => String a f :: fs
           | [] => [String a EmptyString]
           end
  end.

(** The directives: [%d] and [%m] take one or two digits, [%Y] exactly
    four. *)
Definition directive_dm (s : string) : option Z :=
  if (String.length s <=? 2)%nat then digits s else None.

Definition directive_Y (s : string) : option Z :=
  if (String.length s =? 4)%nat then digits s else None.

Definition checked (y m d : Z) : option Timestamp :=
  let t := mkTimestamp y m d in
  if valid_date t then Some t else None.

(** What a format makes of a calendar date written its way: the date
    when a timestamp holds it, and nothing otherwise. *)
Definition read_back (d : Timestamp) : option Timestamp :=
  if in_bounds d then Some d else None.

(** [format='%d-%m-%Y'] *)
Definition strptime_dmy (s : string) : option Timestamp :=
  match split_dash s with
  | [fd; fm; fy] =>
      match directive_dm fd, directive_dm fm, directive_Y fy with
      | Some d, Some m, Some y => checked y m d
      | _, _, _ => None
      end
  | _ => None
  end.

(** [format='%Y-%m-%d'] *)
Definition strptime_ymd (s : string) : option Timestamp :=
  match split_dash s with
  | [fy; fm; fd] =>
      match directive_Y fy, directive_dm fm, directive_dm fd with
      | Some y, Some m, Some d => checked y m d
      | _, _, _ => None
      end
  | _ => None
  end.

(** One cell of [pd.to_datetime(column, format=..., errors='coerce')]: a
    string is parsed, a value that is a timestamp already is kept, and
    whatever does not parse becomes NaT. *)
Definition to_datetime (parse : string -> option Timestamp) (c : Cell) : Cell :=
  match c with
  | Str s => match parse s with Some d => Date d | None => NaN end
  | Date d => Date d
  | _ => NaN
  end.

(** Writing a date the way each format reads it. *)
Definition digit_char (n : Z) : ascii := ascii_of_nat (Z.to_nat (48 + n)).

Definition two_digits (n : Z) : string :=
  String (digit_char (n / 10)) (String (digit_char (n mod 10)) EmptyString).

Definition four_digits (n : Z) : string :=
  String (digit_char (n / 1000))
    (String (digit_char (n / 100 mod 10))
       (String (digit_char (n / 10 mod 10))
          (String (digit_char (n mod 10)) EmptyString))).

Definition strftime_ymd (d : Timestamp) : string :=
  (four_digits (year d) ++ "-" ++ two_digits (month d) ++ "-" ++ two_digits (day d))%string.

Definition strftime_dmy (d : Timestamp) : string :=
  (two_digits (day d) ++ "-" ++ two_digits (month d) ++ "-" ++ four_digits (year d))%string.

(** [Series.dt.to_period('M').astype(str)] on one cell: ["YYYY-MM"], and
    the string ["NaT"] for a missing date. *)
Definition year_month (d : Timestamp) : string :=
  (four_digits (year d) ++ "-" ++ two_digits (month d))%string.

(** ** Exceptions and results *)

Inductive Exn :=
  | FileNotFoundError (path : string)
  | ParserError (path : string)
  | KeyError (column : string)
  | AttributeError
  | TypeError.

Inductive result (A : Type) :=
  | Ok (a : A)
  | Raise (e : Exn).
Arguments Ok {A} a.
Arguments Raise {A} e.

#[global] Instance result_ret : MRet result := fun A a => Ok a.

#[global] Instance result_bind : MBind result := fun A B k m =>
  match m with
  | Ok a => k a
  | Raise e => Raise e
  end.

(** ** Series and data frames *)

(** A series: values with their index labels. *)
Definition Series (A : Type) := list (nat * A).

(** The value at a label ([s.loc[i]]), [dflt] where the label is absent
    (what aligning on the label gives there). *)
Fixpoint loc {A} (dflt : A) (s : Series A) (i : nat) : A :=
  match s with
  | [] => dflt
  | (j, v) :: s' => if decide (i = j) then v else loc dflt s' i
  end.

(** An operation applied to each value ([Series.apply], [Series.dt], a
    comparison with a scalar, [Series.fillna]). *)
Definition smap {A B} (f : A -> B) (s : Series A) : Series B :=
  map (fun iv => (iv.1, f iv.2)) s.

(** A binary operation between two series, the right one aligned on the
    labels of the left one ([a - b], [a & b]). *)
Definition szip {A B C} (f : A -> B -> C) (dflt : B)
    (a : Series A) (b : Series B) : Series C :=
  map (fun iv => (iv.1, f iv.2 (loc dflt b iv.1))) a.

Record DataFrame := mkDataFrame {
  columns : list string;
  rows : list (nat * gmap string Cell)
}.

#[global] Instance DataFrame_eq_dec : EqDecision DataFrame.
Proof. solve_decision. Defined.

(** The cell of a row in a column; a row has a cell for each column of
    its frame. *)
Definition cell (r : gmap string Cell) (c : string) : Cell :=
  default NaN (r !! c).

Definition index (df : DataFrame) : list nat := map fst (rows df).

(** [df[c]]: a [KeyError] when the frame has no such column. *)
Definition getitem (df : DataFrame) (c : string) : result (Series Cell) :=
  if bool_decide (c ∈ columns df)
  then Ok (map (fun ir => (ir.1, cell ir.2 c)) (rows df))
  else Raise (KeyError c).

(** [df[c] = s]: the series is aligned on the index of the frame; a new
    column is added at the end. *)
Definition setitem (df : DataFrame) (c : string) (s : Series Cell) : DataFrame :=
  {| columns := if bool_decide (c ∈ columns df) then columns df
                else columns df ++ [c];
     rows := map (fun ir => (ir.1, <[c := loc NaN s ir.1]> ir.2)) (rows df) |}.

(** [df[mask]] with a series of booleans. *)
Definition getitem_mask (df : DataFrame) (mask : Series bool) : DataFrame :=
  {| columns := columns df;
     rows := List.filter (fun ir => loc false mask ir.1) (rows df) |}.

(** [fillna(v)] on one cell. *)
Definition fillna (v : Cell) (c : Cell) : Cell :=
  if isnull c then v else c.

(** [df.fillna({c: v, ...}, inplace=True)]: the keys that are not
    columns of the frame are skipped. *)
Definition fillna_dict (fills : list (string * Cell)) (df : DataFrame) : DataFrame :=
  fold_left
    (fun df cv =>
       match getitem df cv.1 with
       | Ok s => setitem df cv.1 (smap (fillna cv.2) s)
       | Raise _ => df
       end)
    fills df.

(** [Series.isin(values)]. *)
Definition isin (values : list Cell) (c : Cell) : bool :=
  bool_decide (c ∈ values).

(** ** The world outside the process *)

(** What [pd.read_csv] finds at a path: a table (its header and its
    records, one map from column name to parsed cell per line) or
    something it cannot read. *)
Inductive File :=
  | Csv (header : list string) (records : list (gmap string Cell))
  | Unreadable.

Record World := mkWorld {
  fs : gmap string File;
  now : Timestamp;
  st_errors : list Exn;
  cache : option (option DataFrame * list Exn)
}.

(** [pd.read_csv(path)]: the frame gets the index 0, 1, 2, ... *)
Definition read_csv (path : string) (w : World) : result DataFrame :=
  match fs w !! path with
  | None => Raise (FileNotFoundError path)
  | Some Unreadable => Raise (ParserError path)
  | Some (Csv header records) =>
      Ok {| columns := header; rows := imap (fun i r => (i, r)) records |}
  end.

(** [st.error(e)] *)
Definition st_error (e : Exn) (w : World) : World :=
  {| fs := fs w; now := now w; st_errors := st_errors w ++ [e]; cache := cache w |}.

(** ** Operations on cells shared by the three scripts *)

(** [.dt.to_period('M').astype(str)] *)
Definition to_period_M_str (c : Cell) : Cell :=
  match c with
  | Date d => Str (year_month d)
  | _ => Str "NaT"
  end.

(** [deliveryDate - orderDate] on one row. *)
Definition sub_datetime (a b : Cell) : Cell :=
  match a, b with
  | Date x, Date y => Timedelta (toordinal x - toordinal y)
  | _, _ => NaN
  end.

(** [.dt.days] *)
Definition dt_days (c : Cell) : Cell :=
  match c with
  | Timedelta n => Int n
  | _ => NaN
  end.

(** [.dt.month] *)
Definition dt_month (c : Cell) : Cell :=
  match c with
  | Date d => Int (month d)
  | _ => NaN
  end.

(** Python's [(a, b) < (c, d)] on pairs of integers. *)
Definition tuple_ltb (p q : Z * Z) : bool :=
  (p.1 <? q.1) || ((p.1 =? q.1) && (p.2 <? q.2)).

(** [calculate_age] of [main.py] and [sample1.py]; [today] is
    [datetime.now()]. A value without [year] raises inside the [try] and
    gives [None]. *)
Definition calculate_age (today : Timestamp) (born : Cell) : Cell :=
  if isnull born then NaN
  else match born with
       | Date b =>
           Int (year today - year b -
                (if tuple_ltb (month today, day today) (month b, day b)
                 then 1 else 0))
       | _ => NaN
       end.

(** ** Floating point numbers

    A [Float] holds the value of a float64, a rational number.
    [float64 q] is the float64 nearest to [q], with ties to the even
    mantissa: a mantissa of 53 bits, and the exponent not below that of
    the subnormal numbers. The infinities beyond the largest float64 are
    not modelled. *)

(** The nearest integer, ties to the even one. *)
Definition round_half_even (q : Q) : Z :=
  let f := Qfloor q in
  match (q - inject_Z f ?= 1 # 2)%Q with
  | Lt => f
  | Gt => f + 1
  | Eq => if Z.even f then f else f + 1
  end.

(** The exponent of a positive number [a]: the [e] with
    [2^52 <= a / 2^e < 2^53], and -1074 where that is smaller. *)
Definition exponent (a : Q) : Z :=
  let e0 := Z.log2 (Qnum a) - Z.log2 (Zpos (Qden a)) - 52 in
  Z.max (if Qle_bool (2 ^ (e0 + 52)) a then e0 else e0 - 1) (-1074).

(** The float64 nearest to a number that is not negative. *)
Definition nearest (a : Q) : Q :=
  let e := exponent a in
  Qred (inject_Z (round_half_even (a / 2 ^ e)) * 2 ^ e).

Definition float64 (q : Q) : Q :=
  let r := Qred q in
  if Qle_bool 0 r then nearest r else (- nearest (- r))%Q.

(** ** Grouped aggregation *)

(** The order of group keys: numbers by value, strings by code point,
    dates by day; values of different kinds by kind. *)
Definition kind (c : Cell) : Z :=
  match c with
  | NaN => 0 | Int _ => 1 | Float _ => 2 | Str _ => 3
  | Date _ => 4 | Period _ _ => 5 | Timedelta _ => 6
  end.

Definition cell_leb (a b : Cell) : bool :=
  match a, b with
  | Int x, Int y => x <=? y
  | Float x, Float y => Qle_bool x y
  | Str x, Str y => String.leb x y
  | Date x, Date y => toordinal x <=? toordinal y
  | Period y1 m1, Period y2 m2 => (y1 * 12 + m1) <=? (y2 * 12 + m2)
  | Timedelta x, Timedelta y => x <=? y
  | _, _ => kind a <=? kind b
  end.

Definition cell_le (a b : Cell) : Prop := Is_true (cell_leb a b).

#[global] Instance cell_le_dec : RelDecision cell_le.
Proof. intros a b. unfold cell_le. apply _. Defined.

(** The group keys of [groupby(key)]: the distinct keys that are not
    null, sorted. *)
Definition group_keys (keys : list Cell) : list Cell :=
  merge_sort cell_le
    (remove_dups (List.filter (fun k => negb (isnull k)) keys)).

(** [df.groupby(key)[c]]: each group key with the values of column [c] in
    the rows of the frame whose key it is. The keys are aligned on the
    index of the frame. *)
Definition groupby (df : DataFrame) (key : Series Cell) (c : string)
    : result (list (Cell * list Cell)) :=
  vals ← getitem df c;
  let keyed := map (fun iv => (loc NaN key iv.1, iv.2)) vals in
  mret (map (fun k =>
               (k, map snd (List.filter (fun kv => bool_decide (kv.1 = k)) keyed)))
            (group_keys (map fst keyed))).

(** The numbers of a group; nulls are skipped and any other value is a
    [TypeError]. *)
Fixpoint numbers (vals : list Cell) : result (list Q) :=
  match vals with
  | [] => mret []
  | v :: vals' =>
      match v with
      | NaN => numbers vals'
      | Int z => qs ← numbers vals'; mret (inject_Z z :: qs)
      | Float q => qs ← numbers vals'; mret (q :: qs)
      | _ => Raise TypeError
      end
  end.

Definition Qsum (qs : list Q) : Q := fold_right Qplus 0%Q qs.

(** [mean] of one group: NaN when the group has no number, and else the
    float64 nearest to the sum over the count. The sum itself is taken
    without rounding, as float64 adds the whole numbers that the scripts
    average (return flags, days) as long as it stays below 2^53. *)
Definition mean (vals : list Cell) : result Cell :=
  qs ← numbers vals;
  mret (match qs with
        | [] => NaN
        | _ => Float (float64 (Qsum qs / inject_Z (Z.of_nat (length qs))))
        end).

(** A reduction such as [.mean()] of a grouped column: each group key
    with what the reduction makes of the values of its group. *)
Fixpoint agg (f : list Cell -> result Cell) (groups : list (Cell * list Cell))
    : result (list (Cell * Cell)) :=
  match groups with
  | [] => mret []
  | (k, vals) :: groups' =>
      v ← f vals; rest ← agg f groups'; mret ((k, v) :: rest)
  end.

(** [series * 100] on one value: the product of a float is rounded. *)
Definition times (n : Z) (c : Cell) : Cell :=
  match c with
  | Int z => Int (z * n)
  | Float q => Float (float64 (q * inject_Z n))
  | _ => NaN
  end.

(** [series > 0] on one value. *)
Definition gt0 (c : Cell) : bool :=
  match c with
  | Int z => 0 <? z
  | Float q => negb (Qle_bool q 0)
  | Timedelta n => 0 <? n
  | _ => false
  end.

(** The integers among cells, and their sum. *)
Fixpoint ints (vals : list Cell) : list Z :=
  match vals with
  | [] => []
  | Int z :: vals' => z :: ints vals'
  | _ :: vals' => ints vals'
  end.

Definition Zsum (zs : list Z) : Z := fold_right Z.add 0 zs.

(** The whole number of 64 bits that an exact result wraps to. *)
Definition wrap64 (z : Z) : Z := (z + 2 ^ 63) mod 2 ^ 64 - 2 ^ 63.

Definition whole (c : Cell) : bool :=
  match c with
  | Int _ => true
  | _ => false
  end.

Section WithSummation.
(** The float64 that pandas gets by adding the numbers of a group, in
    the order of the rows: in which order it rounds the partial sums is
    its own matter (its later versions compensate the rounding errors)
    and is left open. So is what it makes of a group in a column that
    holds a value that is no number. *)
Variable fsum : list Q -> Q.
Variable text_sum : list Cell -> result Cell.

(** [.sum()] of one group with the values [vals], in a column with the
    values [column]. A column of whole numbers has whole sums, of 64
    bits. In a column of numbers and nulls the nulls are skipped and the
    sum is a float; a group without a number is summed like any other,
    to the sum of no number. *)
Definition sum (column vals : list Cell) : result Cell :=
  if forallb whole column then mret (Int (wrap64 (Zsum (ints vals))))
  else match numbers column with
       | Ok _ => qs ← numbers vals; mret (Float (fsum qs))
       | Raise _ => text_sum vals
       end.
End WithSummation.

(** [sort_values(ascending=False)]: the entries by falling value, a null
    last. Entries of equal value are kept in the order they had, as a
    stable sort does; pandas does not promise that order on long series,
    and nothing below depends on it. *)
Definition falling (a b : Cell * Cell) : Prop := cell_le b.2 a.2.

#[global] Instance falling_dec : RelDecision falling.
Proof. intros a b. unfold falling. apply _. Defined.

Definition sort_values_descending (s : list (Cell * Cell)) : list (Cell * Cell) :=
  merge_sort falling s.

(** ** Binning: [pd.cut(x, bins, labels, right=False)] *)

(** The label of the first interval [[lo, hi)] of consecutive bin edges
    that holds [x]; no label when there is none. *)
Fixpoint cut_left_closed (bins : list Z) (labels : list string) (x : Q) : Cell :=
  match bins, labels with
  | lo :: ((hi :: _) as bins'), label :: labels' =>
      if Qle_bool (inject_Z lo) x && negb (Qle_bool (inject_Z hi) x)
      then Str label
      else cut_left_closed bins' labels' x
  | _, _ => NaN
  end.

Definition pd_cut (bins : list Z) (labels : list string) (c : Cell) : Cell :=
  match c with
  | Int z => cut_left_closed bins labels (inject_Z z)
  | Float q => cut_left_closed bins labels q
  | _ => NaN
  end.

(** [value_counts()] of a categorical series: the number of rows of each
    category, the most frequent first; rows without a category are not
    counted. *)
Definition count_label (s : Series Cell) (label : string) : nat :=
  length (List.filter (fun iv => bool_decide (iv.2 = Str label)) s).

Definition more_frequent (a b : string * nat) : Prop := (b.2 <= a.2)%nat.

#[global] Instance more_frequent_dec : RelDecision more_frequent.
Proof. intros a b. unfold more_frequent. apply _. Defined.

Definition value_counts (categories : list string) (s : Series Cell)
    : list (string * nat) :=
  merge_sort more_frequent
    (map (fun label => (label, count_label s label)) categories).

(** [st.cache_data] keeps what the function returned, with the messages
    that it showed while it ran, and shows these again when it returns
    the kept value. *)
Definition set_cache (r : option DataFrame) (shown : list Exn) (w : World)
    : World :=
  {| fs := fs w; now := now w; st_errors := st_errors w;
     cache := Some (r, shown) |}.

Definition replay (shown : list Exn) (w : World) : World :=
  fold_left (fun w e => st_error e w) shown w.

(** [pd.to_datetime(column, errors='coerce')] without a format: how
    pandas guesses the date of a value is left open. *)
Definition to_datetime_infer (infer_datetime : Cell -> option Timestamp)
    (c : Cell) : Cell :=
  match infer_datetime c with
  | Some d => Date d
  | None => NaN
  end.

(** ** More operations on series *)

(** [Series.unique()]: the values in the order of their first
    occurrence, a null among them when the series has one. *)
Fixpoint unique_from (seen : list Cell) (vals : list Cell) : list Cell :=
  match vals with
  | [] => []
  | v :: vals' =>
      if bool_decide (v ∈ seen) then unique_from seen vals'
      else v :: unique_from (v :: seen) vals'
  end.

Definition unique (s : Series Cell) : list Cell := unique_from [] (map snd s).

(** [Series.dropna()] *)
Definition dropna (s : Series Cell) : Series Cell :=
  List.filter (fun iv => negb (isnull iv.2)) s.

(** [Series.max()]: nulls are skipped, and the maximum of no value is
    null. The columns it is used on hold values of one kind. *)
Definition larger (acc v : Cell) : Cell :=
  if isnull v then acc
  else if isnull acc then v
  else if cell_leb acc v then v else acc.

Definition smax (s : Series Cell) : Cell := fold_left larger (map snd s) NaN.

(** [Series.value_counts()] of a column of values: the number of rows of
    each value that is not null, the most frequent first. *)
Definition count_value (s : Series Cell) (v : Cell) : nat :=
  length (List.filter (fun iv => bool_decide (iv.2 = v)) s).

Definition more_rows (a b : Cell * nat) : Prop := (b.2 <= a.2)%nat.

#[global] Instance more_rows_dec : RelDecision more_rows.
Proof. intros a b. unfold more_rows. apply _. Defined.

Definition value_counts_of (s : Series Cell) : list (Cell * nat) :=
  merge_sort more_rows (map (fun v => (v, count_value s v)) (unique (dropna s))).

(** [df.dropna(subset=cols)]: the rows without a null in the columns
    [cols]; a [KeyError] for a column that the frame does not have. *)
Fixpoint check_columns (cols : list string) (df : DataFrame) : result unit :=
  match cols with
  | [] => mret tt
  | c :: cols' => _ ← getitem df c; check_columns cols' df
  end.

Definition dropna_subset (cols : list string) (df : DataFrame) : result DataFrame :=
  _ ← check_columns cols df;
  mret {| columns := columns df;
          rows := List.filter
                    (fun ir => forallb (fun c => negb (isnull (cell ir.2 c))) cols)
                    (rows df) |}.

(** [Series.between(left, right)] on one value: both bounds are
    included, a null is between nothing, and a value that is no number
    (a text of a column that did not parse as numbers) cannot be
    compared with the bounds, which is a [TypeError]. *)
Definition between (left right : Q) (c : Cell) : result bool :=
  match c with
  | NaN => Ok false
  | Int z => Ok (Qle_bool left (inject_Z z) && Qle_bool (inject_Z z) right)
  | Float q => Ok (Qle_bool left q && Qle_bool q right)
  | _ => Raise TypeError
  end.

(** An operation that may raise, applied to each value of a series: the
    first exception is the one of the whole operation. *)
Fixpoint try_smap {A B} (f : A -> result B) (s : Series A) : result (Series B) :=
  match s with
  | [] => mret []
  | (i, v) :: s' => v' ← f v; rest ← try_smap f s'; mret ((i, v') :: rest)
  end.

(** [series == 1] on one value. *)
Definition eq1 (c : Cell) : bool :=
  match c with
  | Int z => z =? 1
  | Float q => Qeq_bool q 1
  | _ => false
  end.

(** [.astype(str)] on a column of periods. *)
Definition period_str (c : Cell) : Cell :=
  match c with
  | Period y m => Str (four_digits y ++ "-" ++ two_digits m)%string
  | NaN => Str "NaT"
  | _ => c
  end.

(** [df.groupby(c).size()]: the number of rows of each group. *)
Definition groupby_size (df : DataFrame) (c : string) : result (list (Cell * nat)) :=
  keys ← getitem df c;
  grouped ← groupby df keys c;
  mret (map (fun g => (g.1, length g.2)) grouped).

(** ** [main.py] *)

Module Main.
Section WithInference.
Variable infer_datetime : Cell -> option Timestamp.

(** The body of the [try] of [load_data], one assignment of the script
    per line. *)
Definition load_data_try (w : World) : result DataFrame :=
  df ← read_csv "orders_dataset.csv" w;
  df ← (s ← getitem df "orderDate";
        mret (setitem df "orderDate" (smap (to_datetime strptime_dmy) s)));
  df ← (s ← getitem df "deliveryDate";
        mret (setitem df "deliveryDate" (smap (to_datetime strptime_ymd) s)));
  df ← (s ← getitem df "dateOfBirth";
        mret (setitem df "dateOfBirth"
                (smap (to_datetime_infer infer_datetime) s)));
  df ← (s ← getitem df "creationDate";
        mret (setitem df "creationDate" (smap (to_datetime strptime_dmy) s)));
  df ← (s ← getitem df "orderDate";
        mret (setitem df "order_year_month" (smap to_period_M_str s)));
  df ← (a ← getitem df "deliveryDate";
        b ← getitem df "orderDate";
        mret (setitem df "delivery_delay"
                (smap dt_days (szip sub_datetime NaN a b))));
  df ← (s ← getitem df "dateOfBirth";
        mret (setitem df "customer_age" (smap (calculate_age (now w)) s)));
  mret (fillna_dict [("color", Str "Unknown"); ("size", Str "Unknown");
                     ("state", Str "Unknown")] df).

(** [load_data] without its decorator: any exception is shown with
    [st.error] and [None] is returned. *)
Definition load_data_body (w : World) : option DataFrame * World :=
  match load_data_try w with
  | Ok df => (Some df, w)
  | Raise e => (None, st_error e w)
  end.

(** [load_data] under [@st.cache_data]: the first call runs the body
    and keeps what it returned, [None] too, with the messages that the
    body showed; a later call does not run the body. *)
Definition load_data (w : World) : option DataFrame * World :=
  match cache w with
  | Some (r, shown) => (r, replay shown w)
  | None =>
      let rw := load_data_body w in
      (rw.1,
       set_cache rw.1 (drop (length (st_errors w)) (st_errors rw.2)) rw.2)
  end.
End WithInference.

(** The filter of [main()]: the rows whose state, month, colour and size
    are all among the selected ones. *)
Definition df_filtered (df : DataFrame)
    (selected_states selected_months selected_colors selected_sizes : list Cell)
    : result DataFrame :=
  states ← getitem df "state";
  months ← getitem df "order_year_month";
  colors ← getitem df "color";
  sizes ← getitem df "size";
  let mask :=
    szip andb false
      (szip andb false
         (szip andb false
            (smap (isin selected_states) states)
            (smap (isin selected_months) months))
         (smap (isin selected_colors) colors))
      (smap (isin selected_sizes) sizes) in
  mret (getitem_mask df mask).

(** [df_filtered[df_filtered['delivery_delay'] > 0]
       .groupby(df_filtered['orderDate'].dt.month)['delivery_delay'].mean()] *)
Definition delivery_performance (df_filtered : DataFrame)
    : result (list (Cell * Cell)) :=
  delays ← getitem df_filtered "delivery_delay";
  let late := getitem_mask df_filtered (smap gt0 delays) in
  order_dates ← getitem df_filtered "orderDate";
  groups ← groupby late (smap dt_month order_dates) "delivery_delay";
  agg mean groups.

(** [df_filtered.groupby('state')['returnShipment'].mean() * 100] *)
Definition return_rate_by_state (df_filtered : DataFrame)
    : result (list (Cell * Cell)) :=
  states ← getitem df_filtered "state";
  groups ← groupby df_filtered states "returnShipment";
  means ← agg mean groups;
  mret (map (fun kv => (kv.1, times 100 kv.2)) means).

Section WithSummation.
Variable fsum : list Q -> Q.
Variable text_sum : list Cell -> result Cell.

(** [df_filtered.groupby('manufacturerID')['price'].sum()
       .sort_values(ascending=False)] *)
Definition manufacturer_revenue (df_filtered : DataFrame)
    : result (list (Cell * Cell)) :=
  manufacturers ← getitem df_filtered "manufacturerID";
  groups ← groupby df_filtered manufacturers "price";
  prices ← getitem df_filtered "price";
  sums ← agg (sum fsum text_sum (map snd prices)) groups;
  mret (sort_values_descending sums).
End WithSummation.

Definition age_bins : list Z := [0; 30; 45; 60; 100].
Definition age_labels : list string := ["18-30"; "31-45"; "46-60"; "60+"].

(** The bin of one age: [pd.cut(age.fillna(-1), bins=[-1] + age_bins,
    labels=['Unknown'] + age_labels, right=False)]. *)
Definition age_group (customer_age : Cell) : Cell :=
  pd_cut ([-1] ++ age_bins) (["Unknown"] ++ age_labels)
    (fillna (Int (-1)) customer_age).

(** The frame with its new [age_group] column and [age_distribution]. *)
Definition age_distribution (df_filtered : DataFrame)
    : result (DataFrame * list (string * nat)) :=
  ages ← getitem df_filtered "customer_age";
  let df_filtered := setitem df_filtered "age_group" (smap age_group ages) in
  groups ← getitem df_filtered "age_group";
  mret (df_filtered, value_counts (["Unknown"] ++ age_labels) groups).

(** The selections of the sidebar before the user changes them: every
    state, colour and size of the frame, and the latest month. *)
Definition default_states (df : DataFrame) : result (list Cell) :=
  s ← getitem df "state"; mret (unique s).

Definition default_months (df : DataFrame) : result (list Cell) :=
  s ← getitem df "order_year_month"; mret [smax s].

Definition default_colors (df : DataFrame) : result (list Cell) :=
  s ← getitem df "color"; mret (unique s).

Definition default_sizes (df : DataFrame) : result (list Cell) :=
  s ← getitem df "size"; mret (unique s).

(** [df_filtered] on the first run of the script. *)
Definition df_filtered_default (df : DataFrame) : result DataFrame :=
  states ← default_states df;
  months ← default_months df;
  colors ← default_colors df;
  sizes ← default_sizes df;
  df_filtered df states months colors sizes.

(** [color_orders = df_filtered['color'].value_counts()] *)
Definition color_orders (df_filtered : DataFrame) : result (list (Cell * nat)) :=
  s ← getitem df_filtered "color"; mret (value_counts_of s).

(** [size_orders = df_filtered['size'].value_counts()] *)
Definition size_orders (df_filtered : DataFrame) : result (list (Cell * nat)) :=
  s ← getitem df_filtered "size"; mret (value_counts_of s).

(** ["Total Orders"]: [len(df_filtered)] *)
Definition total_orders (df_filtered : DataFrame) : nat := length (rows df_filtered).
End Main.

(** ** [sample1.py] *)

Module Sample1.
Definition date_columns : list string :=
  ["orderDate"; "deliveryDate"; "dateOfBirth"; "creationDate"].

(** The loop over [date_columns]: every column is converted with
    [%d-%m-%Y], and [deliveryDate] then once more with [%Y-%m-%d]. *)
Fixpoint convert_dates (cols : list string) (df : DataFrame) : result DataFrame :=
  match cols with
  | [] => mret df
  | col :: cols' =>
      df ← (s ← getitem df col;
            mret (setitem df col (smap (to_datetime strptime_dmy) s)));
      df ← (if bool_decide (col = "deliveryDate")
            then s ← getitem df col;
                 mret (setitem df col (smap (to_datetime strptime_ymd) s))
            else mret df);
      convert_dates cols' df
  end.

(** [.dt.to_period('M')] *)
Definition to_period_M (c : Cell) : Cell :=
  match c with
  | Date d => Period (year d) (month d)
  | _ => NaN
  end.

(** [load_data] without its decorator; exceptions propagate. *)
Definition load_data_body (w : World) : result DataFrame :=
  df ← read_csv "orders_dataset.csv" w;
  df ← convert_dates date_columns df;
  df ← (a ← getitem df "deliveryDate";
        b ← getitem df "orderDate";
        mret (setitem df "delivery_delay"
                (smap dt_days (szip sub_datetime NaN a b))));
  df ← (s ← getitem df "delivery_delay";
        mret (setitem df "delivery_delay" (smap (fillna (Str "Unknown")) s)));
  df ← (s ← getitem df "dateOfBirth";
        mret (setitem df "customer_age" (smap (calculate_age (now w)) s)));
  s ← getitem df "orderDate";
  mret (setitem df "order_year_month" (smap to_period_M s)).

(** [load_data] under [@st.cache_data]: a returned frame is kept, an
    exception is not. *)
Definition load_data (w : World) : result DataFrame * World :=
  match cache w with
  | Some (Some df, shown) => (Ok df, replay shown w)
  | _ =>
      match load_data_body w with
      | Ok df => (Ok df, set_cache (Some df) [] w)
      | Raise e => (Raise e, w)
      end
  end.

Definition age_bins : list Z := [0; 30; 45; 60; 100].
Definition age_labels : list string := ["18-30"; "31-45"; "46-60"; "60+"].

Definition age_group (customer_age : Cell) : Cell :=
  pd_cut ([-1] ++ age_bins) (["Unknown"] ++ age_labels)
    (fillna (Int (-1)) customer_age).

Definition age_distribution (df_filtered : DataFrame)
    : result (DataFrame * list (string * nat)) :=
  ages ← getitem df_filtered "customer_age";
  let df_filtered := setitem df_filtered "age_group" (smap age_group ages) in
  groups ← getitem df_filtered "age_group";
  mret (df_filtered, value_counts (["Unknown"] ++ age_labels) groups).

(** The filter of [main()]: the state and the month, the month compared
    as a string. *)
Definition df_filtered (df : DataFrame) (selected_states selected_months : list Cell)
    : result DataFrame :=
  states ← getitem df "state";
  months ← getitem df "order_year_month";
  let mask :=
    szip andb false
      (smap (isin selected_states) states)
      (smap (isin selected_months) (smap period_str months)) in
  mret (getitem_mask df mask).

(** The states offered and selected at first:
    [df['state'].dropna().unique()]. *)
Definition default_states (df : DataFrame) : result (list Cell) :=
  s ← getitem df "state"; mret (unique (dropna s)).

(** [df_table]: the rows whose price is between the two bounds, and whose
    return flag is 1 when only returns are asked for; the flags are read
    only then, after the prices have been compared. *)
Definition df_table (df_filtered : DataFrame) (min_price max_price : Q)
    (show_returns_only : bool) : result DataFrame :=
  prices ← getitem df_filtered "price";
  in_range ← try_smap (between min_price max_price) prices;
  mask ← (if show_returns_only
          then returns ← getitem df_filtered "returnShipment";
               mret (szip andb false in_range (smap eq1 returns))
          else mret in_range);
  mret (getitem_mask df_filtered mask).
End Sample1.

(** ** [Sample02.py] *)

Module Sample02.
(** [lambda dob: datetime.now().year - dob.year if pd.notnull(dob) else None] *)
Definition customer_age (today : Timestamp) (dob : Cell) : result Cell :=
  if negb (isnull dob)
  then match dob with
       | Date b => Ok (Int (year today - year b))
       | _ => Raise AttributeError
       end
  else Ok NaN.

(** [Series.apply] with a function that may raise. *)
Fixpoint apply (f : Cell -> result Cell) (s : Series Cell) : result (Series Cell) :=
  match s with
  | [] => mret []
  | (i, v) :: s' => v' ← f v; rest ← apply f s'; mret ((i, v') :: rest)
  end.

Section WithInference.
Variable infer_datetime : Cell -> option Timestamp.

Definition load_data_body (w : World) : result DataFrame :=
  df ← read_csv "orders_dataset.csv" w;
  df ← (s ← getitem df "orderDate";
        mret (setitem df "orderDate" (smap (to_datetime strptime_dmy) s)));
  df ← (s ← getitem df "deliveryDate";
        mret (setitem df "deliveryDate" (smap (to_datetime strptime_ymd) s)));
  df ← (s ← getitem df "dateOfBirth";
        mret (setitem df "dateOfBirth"
                (smap (to_datetime_infer infer_datetime) s)));
  df ← (s ← getitem df "creationDate";
        mret (setitem df "creationDate" (smap (to_datetime strptime_dmy) s)));
  df ← (s ← getitem df "orderDate";
        mret (setitem df "order_year_month" (smap to_period_M_str s)));
  df ← (a ← getitem df "deliveryDate";
        b ← getitem df "orderDate";
        mret (setitem df "delivery_delay"
                (smap dt_days (szip sub_datetime NaN a b))));
  df ← (s ← getitem df "dateOfBirth";
        ages ← apply (customer_age (now w)) s;
        mret (setitem df "customer_age" ages));
  mret (fillna_dict [("color", Str "Unknown"); ("size", Str "Unknown");
                     ("state", Str "Unknown")] df).
End WithInference.

(** [df_delays] and [delays]; [None] when [df_delays] is empty and
    only a notice is shown. *)
Definition delays (df_filtered : DataFrame) : result (option (list (Cell * Cell))) :=
  s ← getitem df_filtered "delivery_delay";
  let df_delays := getitem_mask df_filtered (smap gt0 s) in
  if bool_decide (rows df_delays = [])
  then mret None
  else
    order_dates ← getitem df_delays "orderDate";
    groups ← groupby df_delays (smap dt_month order_dates) "delivery_delay";
    means ← agg mean groups;
    mret (Some means).

(** The filter of the script, and the selections before the user changes
    them: every state, month, colour and size of the frame. *)
Definition df_filtered (df : DataFrame) (states months colors sizes : list Cell)
    : result DataFrame :=
  s1 ← getitem df "state";
  s2 ← getitem df "order_year_month";
  s3 ← getitem df "color";
  s4 ← getitem df "size";
  let mask :=
    szip andb false
      (szip andb false
         (szip andb false
            (smap (isin states) s1)
            (smap (isin months) s2))
         (smap (isin colors) s3))
      (smap (isin sizes) s4) in
  mret (getitem_mask df mask).

Definition df_filtered_default (df : DataFrame) : result DataFrame :=
  s1 ← getitem df "state";
  s2 ← getitem df "order_year_month";
  s3 ← getitem df "color";
  s4 ← getitem df "size";
  df_filtered df (unique s1) (unique s2) (unique s3) (unique s4).

(** [df_forecast]: the number of orders of each order date. *)
Definition df_forecast (df_filtered : DataFrame) : result (list (Cell * nat)) :=
  groupby_size df_filtered "orderDate".

(** [len(df_forecast) > 30]: whether the forecast is attempted. *)
Definition enough_data (df_forecast : list (Cell * nat)) : bool :=
  (30 <? length df_forecast)%nat.

Definition features : list string := ["price"; "delivery_delay"; "customer_age"].

(** [df_model = df_filtered.dropna(subset=features + ['returnShipment'])] *)
Definition df_model (df_filtered : DataFrame) : result DataFrame :=
  dropna_subset (features ++ ["returnShipment"]) df_filtered.
End Sample02.

(** * Reading the frames row by row, and example data

    The definitions below are used to state and prove the properties:
    what each column operation does to one row, what the loaders do to
    one record, and small frames and files to run the scripts on. *)

(** The series that a function of the row gives on a frame. *)
Definition derived {A} (df : DataFrame) (g : gmap string Cell -> A) : Series A :=
  map (fun ir => (ir.1, g ir.2)) (rows df).

(** The row with the cell of column [c] computed from the row. *)
Definition set_cell (c : string) (g : gmap string Cell -> Cell)
    (r : gmap string Cell) : gmap string Cell :=
  <[c := g r]> r.

(** The frame with column [c] computed from each row. *)
Definition assign (c : string) (g : gmap string Cell -> Cell) (df : DataFrame)
    : DataFrame :=
  {| columns := if bool_decide (c ∈ columns df) then columns df
                else columns df ++ [c];
     rows := map (fun ir => (ir.1, set_cell c g ir.2)) (rows df) |}.

(** The frame with the rows that satisfy a test. *)
Definition filter_rows (p : gmap string Cell -> bool) (df : DataFrame) : DataFrame :=
  {| columns := columns df;
     rows := List.filter (fun ir => p ir.2) (rows df) |}.

(** One key of [fillna_dict] on the frame. *)
Definition fill_column (cv : string * Cell) (df : DataFrame) : DataFrame :=
  if bool_decide (cv.1 ∈ columns df)
  then assign cv.1 (fun r => fillna cv.2 (cell r cv.1)) df
  else df.

(** One key of [fillna_dict] on one row of a frame with the columns
    [header]. *)
Definition fill_row (header : list string) (cv : string * Cell)
    (r : gmap string Cell) : gmap string Cell :=
  if bool_decide (cv.1 ∈ header)
  then <[cv.1 := fillna cv.2 (cell r cv.1)]> r
  else r.

(** What [load_data] of [main.py] does to one record, assignment by
    assignment from the innermost outwards. *)
Definition main_load_row (infer_datetime : Cell -> option Timestamp)
    (today : Timestamp) (header : list string) (r : gmap string Cell)
    : gmap string Cell :=
  fill_row header ("state", Str "Unknown")
    (fill_row header ("size", Str "Unknown")
       (fill_row header ("color", Str "Unknown")
          (set_cell "customer_age"
             (fun r => calculate_age today (cell r "dateOfBirth"))
             (set_cell "delivery_delay"
                (fun r => dt_days (sub_datetime (cell r "deliveryDate")
                                                (cell r "orderDate")))
                (set_cell "order_year_month"
                   (fun r => to_period_M_str (cell r "orderDate"))
                   (set_cell "creationDate"
                      (fun r => to_datetime strptime_dmy (cell r "creationDate"))
                      (set_cell "dateOfBirth"
                         (fun r => to_datetime_infer infer_datetime
                                     (cell r "dateOfBirth"))
                         (set_cell "deliveryDate"
                            (fun r => to_datetime strptime_ymd
                                        (cell r "deliveryDate"))
                            (set_cell "orderDate"
                               (fun r => to_datetime strptime_dmy
                                           (cell r "orderDate"))
                               r))))))))).

(** The columns after an assignment to column [c]. *)
Definition add_column (c : string) (cols : list string) : list string :=
  if bool_decide (c ∈ cols) then cols else cols ++ [c].

(** The columns of the frame loaded by [main.py]: the header, then the
    derived columns that the header does not have already. *)
Definition main_columns (header : list string) : list string :=
  add_column "customer_age"
    (add_column "delivery_delay" (add_column "order_year_month" header)).

(** The columns that the loaders read. *)
Definition date_columns_present (header : list string) : Prop :=
  "orderDate" ∈ header /\ "deliveryDate" ∈ header /\
  "dateOfBirth" ∈ header /\ "creationDate" ∈ header.

#[global] Instance date_columns_present_dec header :
  Decision (date_columns_present header).
Proof. unfold date_columns_present. apply _. Defined.

(** A record whose age is 100 or more. *)
Definition centenarian (r : gmap string Cell) : bool :=
  match cell r "customer_age" with
  | Int z => 100 <=? z
  | _ => false
  end.

(** Three customers: one aged 101, one aged 25, one of unknown age. *)
Definition customers_example : DataFrame :=
  {| columns := ["customer_age"];
     rows := [(0%nat, {["customer_age" := Int 101]});
              (1%nat, {["customer_age" := Int 25]});
              (2%nat, {["customer_age" := NaN]})] |}.

(** The test that [df_filtered] makes on one row. *)
Definition selected
    (selected_states selected_months selected_colors selected_sizes : list Cell)
    (r : gmap string Cell) : bool :=
  isin selected_states (cell r "state")
  && isin selected_months (cell r "order_year_month")
  && isin selected_colors (cell r "color")
  && isin selected_sizes (cell r "size").

(** The columns that the filter reads. *)
Definition filter_columns_present (cols : list string) : Prop :=
  "state" ∈ cols /\ "order_year_month" ∈ cols /\ "color" ∈ cols /\ "size" ∈ cols.

(** An order of January 2024 with its state and return flag. *)
Definition order_example (state : string) (returned : Z) : gmap string Cell :=
  {[ "state" := Str state; "returnShipment" := Int returned;
     "order_year_month" := Str "2024-01"; "color" := Str "red";
     "size" := Str "m" ]}.

(** Three orders: two from DE, one of them returned, and one returned
    order from FR. *)
Definition orders_example : DataFrame :=
  {| columns := ["state"; "returnShipment"; "order_year_month"; "color"; "size"];
     rows := [(0%nat, order_example "DE" 1); (1%nat, order_example "DE" 0);
              (2%nat, order_example "FR" 1)] |}.

(** The groups of a list of (key, value) pairs. *)
Definition groups (keyed : list (Cell * Cell)) : list (Cell * list Cell) :=
  map (fun k =>
         (k, map snd (List.filter (fun kv => bool_decide (kv.1 = k)) keyed)))
      (group_keys (map fst keyed)).

(** The (key, value) pairs of the rows of a frame. *)
Definition keyed_rows (k : gmap string Cell -> Cell) (c : string) (df : DataFrame)
    : list (Cell * Cell) :=
  map (fun ir => (k ir.2, cell ir.2 c)) (rows df).

(** A value that [mean] accepts. *)
Definition number_or_null (c : Cell) : bool :=
  match c with
  | NaN | Int _ | Float _ => true
  | _ => false
  end.

(** The rows of a state. *)
Definition rows_of_state (df : DataFrame) (k : Cell) : list (nat * gmap string Cell) :=
  List.filter (fun ir => bool_decide (cell ir.2 "state" = k)) (rows df).

(** Every return flag of the frame is a number or null. *)
Definition returns_are_numbers (df : DataFrame) : Prop :=
  forall i r, In (i, r) (rows df) -> number_or_null (cell r "returnShipment") = true.

(** A record that was delivered after the day of its order. *)
Definition late (r : gmap string Cell) : bool := gt0 (cell r "delivery_delay").

(** The month in which a record was ordered. *)
Definition order_month (r : gmap string Cell) : Cell := dt_month (cell r "orderDate").

(** An order with its date and its delay. *)
Definition delivery_example (order_day : Timestamp) (delay : Cell)
    : gmap string Cell :=
  {[ "orderDate" := Date order_day; "delivery_delay" := delay ]}.

(** Four orders of January and February 2024: delivered after five
    days, on the day of the order, before the order, and not at all. *)
Definition deliveries_example : DataFrame :=
  {| columns := ["orderDate"; "delivery_delay"];
     rows := [(0%nat, delivery_example (mkTimestamp 2024 1 10) (Int 5));
              (1%nat, delivery_example (mkTimestamp 2024 1 11) (Int 0));
              (2%nat, delivery_example (mkTimestamp 2024 2 1) (Int (-2)));
              (3%nat, delivery_example (mkTimestamp 2024 2 2) NaN)] |}.

(** What [load_data] of [sample1.py] does to one record. *)
Definition sample1_load_row (today : Timestamp) (r : gmap string Cell)
    : gmap string Cell :=
  set_cell "order_year_month"
    (fun r => Sample1.to_period_M (cell r "orderDate"))
    (set_cell "customer_age"
       (fun r => calculate_age today (cell r "dateOfBirth"))
       (set_cell "delivery_delay"
          (fun r => fillna (Str "Unknown") (cell r "delivery_delay"))
          (set_cell "delivery_delay"
             (fun r => dt_days (sub_datetime (cell r "deliveryDate")
                                             (cell r "orderDate")))
             (set_cell "creationDate"
                (fun r => to_datetime strptime_dmy (cell r "creationDate"))
                (set_cell "dateOfBirth"
                   (fun r => to_datetime strptime_dmy (cell r "dateOfBirth"))
                   (set_cell "deliveryDate"
                      (fun r => to_datetime strptime_ymd (cell r "deliveryDate"))
                      (set_cell "deliveryDate"
                         (fun r => to_datetime strptime_dmy
                                     (cell r "deliveryDate"))
                         (set_cell "orderDate"
                            (fun r => to_datetime strptime_dmy
                                        (cell r "orderDate"))
                            r)))))))).

(** The columns of the frame loaded by [sample1.py]. *)
Definition sample1_columns (header : list string) : list string :=
  add_column "order_year_month"
    (add_column "customer_age" (add_column "delivery_delay" header)).


(** The cases in which the loaders fail: no file, a file that cannot be
    read, or a table without one of the four date columns. *)
Definition load_fatal (w : World) : Prop :=
  match fs w !! "orders_dataset.csv" with
  | None | Some Unreadable => True
  | Some (Csv header _) => ~ date_columns_present header
  end.


(** A file with the four date columns only, and one record: an order
    of 10 January 2024 delivered on 15 January, whose creation date is
    no date. *)
Definition dates_only_header : list string :=
  ["orderDate"; "deliveryDate"; "dateOfBirth"; "creationDate"].

Definition dates_only_record : gmap string Cell :=
  {[ "orderDate" := Str "10-01-2024";
     "deliveryDate" := Str "2024-01-15";
     "dateOfBirth" := Str "2000-06-15";
     "creationDate" := Str "not a date" ]}.

Definition dates_only_world : World :=
  {| fs := {[ "orders_dataset.csv" :=
                Csv dates_only_header [dates_only_record] ]};
     now := mkTimestamp 2024 6 14;
     st_errors := [];
     cache := None |}.

#[global] Instance load_fatal_dec w : Decision (load_fatal w).
Proof.
  unfold load_fatal.
  destruct (fs w !! "orders_dataset.csv") as [[header records|]|]; apply _.
Defined.



(** A cell of a date column after the load. *)
Definition date_or_null (c : Cell) : Prop := c = NaN \/ exists d, c = Date d.




(** ** More to state properties with

    Sums of counts, tests on cells, the rows of a frame that hold a
    value, what [load_data] of [Sample02.py] does to one record, and a
    small file to run the scripts on. *)

(** The sum of the counts of a list of (value, count) pairs. *)
Definition sum_counts {A} (counts : list (A * nat)) : nat :=
  fold_right (fun kv n => (kv.2 + n)%nat) 0%nat counts.

#[global] Instance more_rows_total : Total more_rows.
Proof. intros a b. unfold more_rows. lia. Qed.

(** The rows of a frame that hold [k] in column [c], and those that hold
    any value there. *)
Definition rows_where (c : string) (k : Cell) (df : DataFrame)
    : list (nat * gmap string Cell) :=
  List.filter (fun ir => bool_decide (cell ir.2 c = k)) (rows df).

Definition rows_with (c : string) (df : DataFrame) : list (nat * gmap string Cell) :=
  List.filter (fun ir => negb (isnull (cell ir.2 c))) (rows df).

#[global] Instance cell_le_total : Total cell_le.
Proof.
  intros a b. unfold cell_le. rewrite <- orb_True. apply Is_true_true.
  destruct a as [|x|x|x|x|y1 m1|x], b as [|y|y|y|y|y2 m2|y]; try reflexivity;
    cbn [cell_leb kind].
  - destruct (String.leb_total x y) as [->| ->]; [done|apply orb_true_r].
  - apply orb_true_iff. rewrite !Z.leb_le. lia.
  - unfold Qle_bool. apply orb_true_iff. rewrite !Z.leb_le. lia.
  - apply orb_true_iff. rewrite !Z.leb_le. lia.
  - apply orb_true_iff. rewrite !Z.leb_le. lia.
  - apply orb_true_iff. rewrite !Z.leb_le. lia.
Qed.

#[global] Instance falling_total : Total falling.
Proof. intros a b. unfold falling. destruct (total cell_le a.2 b.2); auto. Qed.

(** A column of numbers and nulls. *)
Definition numbers_in (c : string) (df : DataFrame) : Prop :=
  forall i r, In (i, r) (rows df) -> number_or_null (cell r c) = true.

(** The entries of an aggregation are those of the groups of a frame:
    one entry for each key that a row has and that is not null, and no
    other entry. *)
Definition lists_the_groups {A} (key : gmap string Cell -> Cell)
    (df : DataFrame) (entries : list (Cell * A)) : Prop :=
  NoDup (map fst entries) /\
  forall k, In k (map fst entries) <->
            k <> NaN /\ exists i r, In (i, r) (rows df) /\ key r = k.

(** The number of rows with the age group [label]. *)
Definition rows_of_age_group (label : string) (df : DataFrame) : nat :=
  length (List.filter
            (fun ir => bool_decide
                         (Main.age_group (cell ir.2 "customer_age") = Str label))
            (rows df)).

(** A column of strings, as [order_year_month] is after [load_data]. *)
Definition strings_in (c : string) (df : DataFrame) : Prop :=
  forall i r, In (i, r) (rows df) -> exists s, cell r c = Str s.

(** What [pd.read_csv] puts in a cell: a text, a number or a null. *)
Definition csv_value (c : Cell) : bool :=
  match c with
  | NaN | Str _ | Int _ | Float _ => true
  | _ => false
  end.

(** A file with two orders, the second of them with its order date
    written year first and without a colour. *)
Definition two_orders_header : list string :=
  ["orderDate"; "deliveryDate"; "dateOfBirth"; "creationDate";
   "state"; "color"; "size"; "price"; "returnShipment"].

Definition two_orders_records : list (gmap string Cell) :=
  [ {[ "orderDate" := Str "10-01-2024"; "deliveryDate" := Str "2024-01-15";
       "dateOfBirth" := Str "2000-06-15"; "creationDate" := Str "09-01-2024";
       "state" := Str "DE"; "color" := Str "red"; "size" := Str "m";
       "price" := Float 20; "returnShipment" := Int 0 ]};
    {[ "orderDate" := Str "2024-01-11"; "deliveryDate" := Str "2024-01-16";
       "dateOfBirth" := NaN; "creationDate" := Str "09-01-2024";
       "state" := Str "FR"; "color" := NaN; "size" := Str "l";
       "price" := Float 30; "returnShipment" := Int 1 ]} ].

Definition two_orders_world : World :=
  {| fs := {[ "orders_dataset.csv" := Csv two_orders_header two_orders_records ]};
     now := mkTimestamp 2024 6 14;
     st_errors := [];
     cache := None |}.

(** The age that [Sample02.py] gives: the difference of the years. *)
Definition year_difference (today : Timestamp) (dob : Cell) : Cell :=
  match dob with
  | Date b => Int (year today - year b)
  | _ => NaN
  end.

(** The record with its dates converted and its month and delay
    computed, as the three loaders of [main.py] and [Sample02.py] have it
    before the age is computed. *)
Definition dated_row (infer_datetime : Cell -> option Timestamp)
    (r : gmap string Cell) : gmap string Cell :=
  set_cell "delivery_delay"
    (fun r => dt_days (sub_datetime (cell r "deliveryDate") (cell r "orderDate")))
    (set_cell "order_year_month"
       (fun r => to_period_M_str (cell r "orderDate"))
       (set_cell "creationDate"
          (fun r => to_datetime strptime_dmy (cell r "creationDate"))
          (set_cell "dateOfBirth"
             (fun r => to_datetime_infer infer_datetime (cell r "dateOfBirth"))
             (set_cell "deliveryDate"
                (fun r => to_datetime strptime_ymd (cell r "deliveryDate"))
                (set_cell "orderDate"
                   (fun r => to_datetime strptime_dmy (cell r "orderDate"))
                   r))))).

Definition sample02_load_row (infer_datetime : Cell -> option Timestamp)
    (today : Timestamp) (header : list string) (r : gmap string Cell)
    : gmap string Cell :=
  fill_row header ("state", Str "Unknown")
    (fill_row header ("size", Str "Unknown")
       (fill_row header ("color", Str "Unknown")
          (set_cell "customer_age"
             (fun r => year_difference today (cell r "dateOfBirth"))
             (dated_row infer_datetime r)))).


(** The test that the filter of [sample1.py] makes on one row. *)
Definition selected1 (selected_states selected_months : list Cell)
    (r : gmap string Cell) : bool :=
  isin selected_states (cell r "state")
  && isin selected_months (period_str (cell r "order_year_month")).

(** A cell that holds an integer or nothing. *)
Definition int_or_null (c : Cell) : bool :=
  match c with
  | NaN | Int _ => true
  | _ => false
  end.

(** A return flag: 0, 1 or nothing. *)
Definition return_flag (c : Cell) : bool :=
  match c with
  | NaN => true
  | Int z => (z =? 0) || (z =? 1)
  | _ => false
  end.

(** The orders of a state whose return flag is known, and those that
    were returned. *)
Definition known_in (df : DataFrame) (k : Cell) : nat :=
  length (List.filter (fun ir => negb (isnull (cell ir.2 "returnShipment")))
            (rows_of_state df k)).

Definition returned_in (df : DataFrame) (k : Cell) : nat :=
  length (List.filter (fun ir => bool_decide (cell ir.2 "returnShipment" = Int 1))
            (rows_of_state df k)).

(** An age that is missing or from [lo] to [hi]. *)
Definition age_between (lo hi : Z) (c : Cell) : bool :=
  match c with
  | NaN => true
  | Int z => (lo <=? z) && (z <=? hi)
  | _ => false
  end.

#[global] Instance more_frequent_total : Total more_frequent.
Proof. intros a b. unfold more_frequent. lia. Qed.

(** The number that a cell holds. *)
Definition number (c : Cell) : option Q :=
  match c with
  | Int z => Some (inject_Z z)
  | Float q => Some q
  | _ => None
  end.

(** Whether a cell holds a number between two bounds, both included. *)
Definition within (lo hi : Q) (c : Cell) : bool :=
  match number c with
  | Some p => Qle_bool lo p && Qle_bool p hi
  | None => false
  end.

(** Two orders with their price and return flag. *)
Definition priced_example : DataFrame :=
  {| columns := ["price"; "returnShipment"];
     rows := [(0%nat, {[ "price" := Float 20; "returnShipment" := Int 1 ]});
              (1%nat, {[ "price" := NaN; "returnShipment" := Int 0 ]})] |}.

(** * Properties *)

(** ** Frames row by row *)

Lemma cell_insert (r : gmap string Cell) c c' v :
  cell (<[c := v]> r) c' = if decide (c = c') then v else cell r c'.
Proof.
  unfold cell. rewrite lookup_insert. by destruct (decide (c = c')).
Qed.

Lemma cell_insert_eq (r : gmap string Cell) c v : cell (<[c := v]> r) c = v.
Proof. rewrite cell_insert. by rewrite decide_True. Qed.

Lemma cell_insert_ne (r : gmap string Cell) c c' v :
  c ≠ c' -> cell (<[c := v]> r) c' = cell r c'.
Proof. intros. rewrite cell_insert. by rewrite decide_False. Qed.

Lemma getitem_column df c :
  c ∈ columns df -> getitem df c = Ok (derived df (fun r => cell r c)).
Proof. intros Hc. unfold getitem. by rewrite bool_decide_eq_true_2. Qed.

Lemma getitem_missing df c :
  c ∉ columns df -> getitem df c = Raise (KeyError c).
Proof. intros Hc. unfold getitem. by rewrite bool_decide_eq_false_2. Qed.

Lemma smap_derived {A B} (f : A -> B) df (g : gmap string Cell -> A) :
  smap f (derived df g) = derived df (fun r => f (g r)).
Proof. unfold smap, derived. rewrite List.map_map. reflexivity. Qed.

(** With distinct labels, looking a label up in a series computed from
    the rows gives the value of its row. *)
Lemma loc_rows {A} (dflt : A) (g : gmap string Cell -> A)
    (rs : list (nat * gmap string Cell)) i r :
  NoDup (map fst rs) -> In (i, r) rs ->
  loc dflt (map (fun ir => (ir.1, g ir.2)) rs) i = g r.
Proof.
  induction rs as [|[j r'] rs IH]; simpl; intros Hnd Hin; [contradiction|].
  apply NoDup_cons in Hnd as [Hj Hnd].
  destruct Hin as [Heq|Hin].
  - inversion Heq; subst. by rewrite decide_True.
  - destruct (decide (i = j)) as [->|Hne]; [|by apply IH].
    exfalso. apply Hj. apply list_elem_of_In.
    change j with (fst (j, r)). by apply in_map.
Qed.

Lemma loc_derived {A} (dflt : A) df (g : gmap string Cell -> A) i r :
  NoDup (index df) -> In (i, r) (rows df) -> loc dflt (derived df g) i = g r.
Proof. apply loc_rows. Qed.

Lemma szip_derived {A B C} (f : A -> B -> C) dflt df
    (g : gmap string Cell -> A) (h : gmap string Cell -> B) :
  NoDup (index df) ->
  szip f dflt (derived df g) (derived df h) = derived df (fun r => f (g r) (h r)).
Proof.
  intros Hnd. unfold szip, derived. rewrite List.map_map.
  apply map_ext_in. intros [i r] Hin; simpl.
  by rewrite (loc_rows dflt h (rows df) i r).
Qed.

Lemma setitem_derived df c (g : gmap string Cell -> Cell) :
  NoDup (index df) -> setitem df c (derived df g) = assign c g df.
Proof.
  intros Hnd. unfold setitem, assign. f_equal.
  apply map_ext_in. intros [i r] Hin; simpl.
  by rewrite (loc_derived NaN df g i r).
Qed.

Lemma getitem_mask_derived df (p : gmap string Cell -> bool) :
  NoDup (index df) -> getitem_mask df (derived df p) = filter_rows p df.
Proof.
  intros Hnd. unfold getitem_mask, filter_rows. f_equal.
  apply List.filter_ext_in. intros [i r] Hin; simpl.
  by rewrite (loc_derived false df p i r).
Qed.

Lemma index_assign c g df : index (assign c g df) = index df.
Proof. unfold index, assign; simpl. rewrite List.map_map. reflexivity. Qed.

Lemma columns_assign_old c g df :
  c ∈ columns df -> columns (assign c g df) = columns df.
Proof. intros Hc. unfold assign; simpl. by rewrite bool_decide_eq_true_2. Qed.

Lemma elem_of_columns_assign c c' g df :
  c' ∈ columns (assign c g df) <-> c' = c \/ c' ∈ columns df.
Proof.
  unfold assign; simpl. case_bool_decide as Hc.
  - split; [by right|]. intros [->|]; done.
  - rewrite elem_of_app, list_elem_of_singleton. tauto.
Qed.

Lemma NoDup_index_filter_rows p df : NoDup (index df) -> NoDup (index (filter_rows p df)).
Proof.
  unfold index, filter_rows; simpl. generalize (rows df). intros rs.
  induction rs as [|[i r] rs IH]; simpl; intros Hnd; [constructor|].
  apply NoDup_cons in Hnd as [Hi Hnd].
  destruct (p r); simpl; [|by apply IH].
  apply NoDup_cons. split; [|by apply IH].
  intros Hin. apply Hi.
  apply list_elem_of_In in Hin. apply list_elem_of_In.
  apply in_map_iff in Hin as [[j r'] [Hj Hin]]. simpl in Hj; subst.
  apply List.filter_In in Hin as [Hin _].
  change i with (fst (i, r')). by apply in_map.
Qed.

(** [read_csv] labels the records 0, 1, 2, ... *)
Lemma index_imap (records : list (gmap string Cell)) :
  map fst (imap (fun i r => (i, r)) records) = seq 0 (length records).
Proof.
  change (map fst ?l) with (fst <$> l).
  rewrite fmap_imap. rewrite (imap_ext _ (fun i _ => i)) by done.
  by rewrite imap_seq_0, list_fmap_id.
Qed.

Lemma NoDup_index_imap (records : list (gmap string Cell)) :
  NoDup (map fst (imap (fun i r => (i, r)) records)).
Proof. rewrite index_imap. apply NoDup_seq. Qed.

Lemma rows_assign c g df :
  rows (assign c g df) = map (fun ir => (ir.1, set_cell c g ir.2)) (rows df).
Proof. reflexivity. Qed.

Lemma columns_fill_column cv df : columns (fill_column cv df) = columns df.
Proof.
  unfold fill_column. case_bool_decide as Hc; [|done].
  by apply columns_assign_old.
Qed.

Lemma index_fill_column cv df : index (fill_column cv df) = index df.
Proof.
  unfold fill_column. case_bool_decide; [|done]. apply index_assign.
Qed.

Lemma rows_fill_column cv df :
  rows (fill_column cv df)
  = map (fun ir => (ir.1, fill_row (columns df) cv ir.2)) (rows df).
Proof.
  unfold fill_column, fill_row. case_bool_decide; [done|].
  rewrite <- (map_id (rows df)) at 1. apply map_ext. by intros [i r].
Qed.

Lemma fillna_dict_fill_columns fills df :
  NoDup (index df) ->
  fillna_dict fills df = fold_left (fun df cv => fill_column cv df) fills df.
Proof.
  unfold fillna_dict. revert df.
  induction fills as [|cv fills IH]; intros df Hnd; simpl; [done|].
  assert (Hstep : match getitem df cv.1 with
                  | Ok s => setitem df cv.1 (smap (fillna cv.2) s)
                  | Raise _ => df
                  end = fill_column cv df).
  { unfold fill_column. case_bool_decide as Hc.
    - rewrite getitem_column by done. rewrite smap_derived.
      by rewrite setitem_derived.
    - by rewrite getitem_missing. }
  rewrite Hstep. apply IH. by rewrite index_fill_column.
Qed.

(** ** What [load_data] of [main.py] does to one record *)

Ltac frame_cols :=
  repeat (rewrite columns_fill_column);
  repeat (apply elem_of_columns_assign; first [by left | right]);
  simpl; assumption.

Ltac frame_nodup :=
  repeat (rewrite index_fill_column);
  repeat (rewrite index_assign);
  first [assumption | apply NoDup_index_imap].

Ltac frame_step :=
  first
    [ rewrite smap_derived
    | rewrite szip_derived by frame_nodup
    | rewrite setitem_derived by frame_nodup
    | rewrite getitem_column by frame_cols ];
  cbn [mbind result_bind mret result_ret].

Lemma DataFrame_eq (a b : DataFrame) :
  columns a = columns b -> rows a = rows b -> a = b.
Proof. destruct a, b; simpl; congruence. Qed.

Lemma columns_assign c g df : columns (assign c g df) = add_column c (columns df).
Proof. reflexivity. Qed.

Lemma add_column_present c cols : c ∈ cols -> add_column c cols = cols.
Proof. intros Hc. unfold add_column. by rewrite bool_decide_eq_true_2. Qed.

Lemma elem_of_add_column c c' cols :
  c' ∈ add_column c cols <-> c' = c \/ c' ∈ cols.
Proof.
  unfold add_column. case_bool_decide as Hc.
  - split; [by right|]. intros [->|]; done.
  - rewrite elem_of_app, list_elem_of_singleton. tauto.
Qed.

Lemma fill_row_columns cols cols' cv r :
  (cv.1 ∈ cols <-> cv.1 ∈ cols') -> fill_row cols cv r = fill_row cols' cv r.
Proof.
  intros Hiff. unfold fill_row.
  destruct (decide (cv.1 ∈ cols)) as [Hc|Hc].
  - rewrite !bool_decide_eq_true_2; tauto.
  - rewrite !bool_decide_eq_false_2; tauto.
Qed.

Lemma assign_imap c g cols (f : gmap string Cell -> gmap string Cell)
    (records : list (gmap string Cell)) :
  assign c g {| columns := cols; rows := imap (fun i r => (i, f r)) records |}
  = {| columns := add_column c cols;
       rows := imap (fun i r => (i, set_cell c g (f r))) records |}.
Proof.
  unfold assign; cbn [columns rows]. f_equal.
  change (map ?h ?l) with (h <$> l). rewrite fmap_imap. by apply imap_ext.
Qed.

Lemma fill_column_imap cv cols (f : gmap string Cell -> gmap string Cell)
    (records : list (gmap string Cell)) :
  fill_column cv {| columns := cols; rows := imap (fun i r => (i, f r)) records |}
  = {| columns := cols;
       rows := imap (fun i r => (i, fill_row cols cv (f r))) records |}.
Proof.
  apply DataFrame_eq.
  - by rewrite columns_fill_column.
  - rewrite rows_fill_column; cbn [columns rows].
    change (map ?h ?l) with (h <$> l). rewrite fmap_imap. by apply imap_ext.
Qed.

Lemma bind_Ok {A B} (a : A) (k : A -> result B) : (Ok a ≫= k) = k a.
Proof. reflexivity. Qed.

Lemma bind_Raise {A B} e (k : A -> result B) : (Raise e ≫= k) = Raise e.
Proof. reflexivity. Qed.

(** One assignment [df[c'] = f(df[c])]. *)
Lemma update_column df c c' (f : Cell -> Cell) :
  NoDup (index df) -> c ∈ columns df ->
  (getitem df c ≫= fun s => mret (setitem df c' (smap f s)))
  = Ok (assign c' (fun r => f (cell r c)) df).
Proof.
  intros Hnd Hc. rewrite getitem_column by done. rewrite bind_Ok.
  rewrite smap_derived, setitem_derived by done. reflexivity.
Qed.

(** One assignment [df[c'] = g(f(df[a], df[b]))]. *)
Lemma update_column2 df a b c' (f : Cell -> Cell -> Cell) (g : Cell -> Cell) :
  NoDup (index df) -> a ∈ columns df -> b ∈ columns df ->
  (getitem df a ≫= fun sa =>
   getitem df b ≫= fun sb => mret (setitem df c' (smap g (szip f NaN sa sb))))
  = Ok (assign c' (fun r => g (f (cell r a) (cell r b))) df).
Proof.
  intros Hnd Ha Hb. rewrite (getitem_column df a) by done. rewrite bind_Ok.
  rewrite (getitem_column df b) by done. rewrite bind_Ok.
  rewrite szip_derived, smap_derived, setitem_derived by done. reflexivity.
Qed.

Ltac load_step :=
  first
    [ rewrite update_column by first [frame_nodup | frame_cols]
    | rewrite update_column2 by first [frame_nodup | frame_cols] ];
  rewrite bind_Ok.

Lemma main_load_data_try_ok infer_datetime w header records :
  fs w !! "orders_dataset.csv" = Some (Csv header records) ->
  date_columns_present header ->
  Main.load_data_try infer_datetime w
  = Ok {| columns := main_columns header;
          rows := imap (fun i r =>
                          (i, main_load_row infer_datetime (now w) header r))
                       records |}.
Proof.
  intros Hfile (Ho & Hd & Hb & Hc).
  unfold Main.load_data_try, read_csv. rewrite Hfile, bind_Ok.
  set (df0 := {| columns := header;
                 rows := imap (fun i r => (i, r)) records |}).
  assert (Hnd : NoDup (index df0)) by apply NoDup_index_imap.
  assert (Hcols : columns df0 = header) by reflexivity.
  do 7 load_step.
  rewrite fillna_dict_fill_columns by frame_nodup.
  unfold mret, result_ret. f_equal. cbn [fold_left]. subst df0.
  rewrite (assign_imap "orderDate" _ header (fun r => r)).
  rewrite !assign_imap, !fill_column_imap.
  rewrite (add_column_present "orderDate" header Ho).
  rewrite (add_column_present "deliveryDate" header Hd).
  rewrite (add_column_present "dateOfBirth" header Hb).
  rewrite (add_column_present "creationDate" header Hc).
  fold (main_columns header). f_equal.
  apply imap_ext. intros i r _. f_equal.
  unfold main_load_row.
  rewrite !(fill_row_columns (main_columns header) header); [reflexivity|..];
    unfold main_columns; rewrite !elem_of_add_column; cbn [fst];
    (split; [intros [?|[?|[?|?]]]; [discriminate..|done] | tauto]).
Qed.

(** The cells of a loaded record. *)
Lemma cell_set_cell_eq c g r : cell (set_cell c g r) c = g r.
Proof. apply cell_insert_eq. Qed.

Lemma cell_set_cell_ne c c' g r : c ≠ c' -> cell (set_cell c g r) c' = cell r c'.
Proof. apply cell_insert_ne. Qed.

Lemma cell_fill_row_ne header cv r c :
  cv.1 ≠ c -> cell (fill_row header cv r) c = cell r c.
Proof.
  intros Hne. unfold fill_row. case_bool_decide; [|done].
  by apply cell_insert_ne.
Qed.

Lemma cell_fill_row_eq header cv r :
  cell (fill_row header cv r) cv.1
  = if bool_decide (cv.1 ∈ header) then fillna cv.2 (cell r cv.1) else cell r cv.1.
Proof.
  unfold fill_row. case_bool_decide; [|done]. apply cell_insert_eq.
Qed.

Ltac cells :=
  unfold main_load_row;
  repeat first
    [ rewrite cell_set_cell_eq
    | rewrite cell_set_cell_ne by discriminate
    | rewrite cell_fill_row_ne by discriminate ];
  try reflexivity.

Section MainLoadRow.
Variable infer_datetime : Cell -> option Timestamp.
Variable today : Timestamp.
Variable header : list string.
Variable r : gmap string Cell.

Let r' := main_load_row infer_datetime today header r.

Lemma main_row_orderDate :
  cell r' "orderDate" = to_datetime strptime_dmy (cell r "orderDate").
Proof. subst r'. cells. Qed.

Lemma main_row_deliveryDate :
  cell r' "deliveryDate" = to_datetime strptime_ymd (cell r "deliveryDate").
Proof. subst r'. cells. Qed.

Lemma main_row_dateOfBirth :
  cell r' "dateOfBirth" = to_datetime_infer infer_datetime (cell r "dateOfBirth").
Proof. subst r'. cells. Qed.

Lemma main_row_creationDate :
  cell r' "creationDate" = to_datetime strptime_dmy (cell r "creationDate").
Proof. subst r'. cells. Qed.

Lemma main_row_order_year_month :
  cell r' "order_year_month" = to_period_M_str (cell r' "orderDate").
Proof. subst r'. cells. Qed.

Lemma main_row_delivery_delay :
  cell r' "delivery_delay"
  = dt_days (sub_datetime (cell r' "deliveryDate") (cell r' "orderDate")).
Proof. subst r'. cells. Qed.

Lemma main_row_customer_age :
  cell r' "customer_age" = calculate_age today (cell r' "dateOfBirth").
Proof. subst r'. cells. Qed.
End MainLoadRow.

(** ** Age binning *)

Lemma Qle_bool_inject_Z a b : Qle_bool (inject_Z a) (inject_Z b) = (a <=? b).
Proof. unfold Qle_bool, inject_Z; simpl. by rewrite !Z.mul_1_r. Qed.

(** The bin of an integer age, interval by interval. *)
Lemma age_group_Int z :
  Main.age_group (Int z)
  = if z <? -1 then NaN
    else if z <? 0 then Str "Unknown"
    else if z <? 30 then Str "18-30"
    else if z <? 45 then Str "31-45"
    else if z <? 60 then Str "46-60"
    else if z <? 100 then Str "60+"
    else NaN.
Proof.
  unfold Main.age_group, fillna, pd_cut; cbn [isnull app].
  unfold Main.age_bins, Main.age_labels, cut_left_closed.
  rewrite !Qle_bool_inject_Z.
  repeat match goal with
         | |- context [?a <=? ?b] => destruct (Z.leb_spec a b)
         | |- context [?a <? ?b] => destruct (Z.ltb_spec a b)
         end; cbn; try reflexivity; lia.
Qed.

Lemma age_group_NaN : Main.age_group NaN = Str "Unknown".
Proof. reflexivity. Qed.

Lemma sample1_age_group : Sample1.age_group = Main.age_group.
Proof. reflexivity. Qed.

Lemma sample1_age_distribution : Sample1.age_distribution = Main.age_distribution.
Proof. reflexivity. Qed.

(** [age_distribution] row by row: the new column holds the bin of each
    row, and the counts are those of the bins of the rows. *)
Lemma age_distribution_rows df :
  NoDup (index df) -> "customer_age" ∈ columns df ->
  Main.age_distribution df
  = Ok (assign "age_group" (fun r => Main.age_group (cell r "customer_age")) df,
        value_counts (["Unknown"] ++ Main.age_labels)
          (derived df (fun r => Main.age_group (cell r "customer_age")))).
Proof.
  intros Hnd Hc. unfold Main.age_distribution.
  repeat frame_step. do 3 f_equal.
  unfold derived, assign; cbn [rows]. rewrite List.map_map.
  apply map_ext. intros [i r]; cbn [fst snd]. f_equal.
  by rewrite cell_set_cell_eq.
Qed.

(** Rows whose bin is no category do not count. *)
Lemma count_label_filter_rows df (h : gmap string Cell -> Cell)
    (keep : gmap string Cell -> bool) label :
  (forall r, keep r = false -> h r <> Str label) ->
  count_label (derived (filter_rows keep df) h) label
  = count_label (derived df h) label.
Proof.
  intros Hkeep. unfold count_label, derived, filter_rows; cbn [rows].
  induction (rows df) as [|[i r] rs IH]; [done|].
  cbn [List.filter map fst snd].
  destruct (keep r) eqn:Hk; cbn [List.filter map fst snd].
  - case_bool_decide; cbn [length]; by rewrite IH.
  - rewrite bool_decide_eq_false_2 by (by apply Hkeep). exact IH.
Qed.

Lemma value_counts_filter_rows df (h : gmap string Cell -> Cell)
    (keep : gmap string Cell -> bool) categories :
  (forall r, keep r = false -> h r = NaN) ->
  value_counts categories (derived (filter_rows keep df) h)
  = value_counts categories (derived df h).
Proof.
  intros Hkeep. unfold value_counts. f_equal.
  apply map_ext. intros label. f_equal.
  apply count_label_filter_rows. intros r Hr. by rewrite Hkeep.
Qed.

(** C1 (the code departs from it): an age on a bin edge goes to the bin
    that starts there, not to the bin that ends there. Age 30 is labelled
    "31-45", age 45 "46-60" and age 60 "60+"; age 61 is "60+" and a
    missing age "Unknown" as the claim says. The same holds in
    [sample1.py]. *)
Theorem C1_age_edges_fall_in_upper_bin :
  Main.age_group (Int 30) = Str "31-45" /\
  Main.age_group (Int 45) = Str "46-60" /\
  Main.age_group (Int 60) = Str "60+" /\
  Main.age_group (Int 61) = Str "60+" /\
  Main.age_group NaN = Str "Unknown" /\
  Sample1.age_group (Int 30) = Str "31-45" /\
  Sample1.age_group (Int 45) = Str "46-60" /\
  Sample1.age_group (Int 60) = Str "60+".
Proof. repeat split; reflexivity. Qed.

(** C9: a record whose age is 100 or more gets no age group at all (a
    null, neither "60+" nor "Unknown"), in [main.py] and in [sample1.py],
    and the age distribution is the one of the frame without these
    records. *)
Theorem C9_age_100_or_more_has_no_group (df : DataFrame) :
  NoDup (index df) -> "customer_age" ∈ columns df ->
  (forall z, 100 <= z ->
     Main.age_group (Int z) = NaN /\ Sample1.age_group (Int z) = NaN) /\
  (forall i r, In (i, r) (rows df) -> centenarian r = true ->
     exists df' counts,
       Main.age_distribution df = Ok (df', counts) /\
       exists r', In (i, r') (rows df') /\ cell r' "age_group" = NaN) /\
  (exists df1 df2 counts,
     Main.age_distribution df = Ok (df1, counts) /\
     Sample1.age_distribution df = Ok (df1, counts) /\
     Main.age_distribution (filter_rows (fun r => negb (centenarian r)) df)
     = Ok (df2, counts)).
Proof.
  intros Hnd Hc.
  assert (Hgroup : forall z, 100 <= z -> Main.age_group (Int z) = NaN).
  { intros z Hz. rewrite age_group_Int.
    repeat match goal with
           | |- context [?a <? ?b] => destruct (Z.ltb_spec a b); try lia
           end; reflexivity. }
  assert (Hcent : forall r, centenarian r = true ->
                            Main.age_group (cell r "customer_age") = NaN).
  { intros r. unfold centenarian.
    destruct (cell r "customer_age"); try discriminate.
    intros Hz. apply Hgroup. lia. }
  split; [|split].
  - intros z Hz. rewrite sample1_age_group. split; by apply Hgroup.
  - intros i r Hin Hr. eexists _, _. split; [by apply age_distribution_rows|].
    exists (set_cell "age_group"
              (fun r => Main.age_group (cell r "customer_age")) r).
    split.
    + rewrite rows_assign. apply in_map_iff. by exists (i, r).
    + rewrite cell_set_cell_eq. by apply Hcent.
  - eexists _, _, _. rewrite sample1_age_distribution.
    split; [|split]; [by apply age_distribution_rows..|].
    rewrite age_distribution_rows;
      [|by apply NoDup_index_filter_rows|done].
    do 2 f_equal. apply value_counts_filter_rows.
    intros r Hr. apply Hcent. by destruct (centenarian r).
Qed.

Lemma C9_age_100_or_more_witness :
  exists df1 df2 counts,
    Main.age_distribution customers_example = Ok (df1, counts) /\
    Sample1.age_distribution customers_example = Ok (df1, counts) /\
    Main.age_distribution
      (filter_rows (fun r => negb (centenarian r)) customers_example)
    = Ok (df2, counts).
Proof.
  apply (C9_age_100_or_more_has_no_group customers_example).
  - apply (bool_decide_unpack _). vm_compute. exact I.
  - apply (bool_decide_unpack _). vm_compute. exact I.
Defined.

(** ** The age of a customer *)

(** [calculate_age] on a date of birth: the difference of the years,
    less one when today's (month, day) comes before the one of the
    birthday. *)
Lemma calculate_age_Date today b :
  calculate_age today (Date b)
  = Int (year today - year b -
         (if (month today <? month b)
             || ((month today =? month b) && (day today <? day b))
          then 1 else 0)).
Proof. reflexivity. Qed.

(** The age is null exactly when the date of birth is. *)
Lemma calculate_age_null today born :
  (born = NaN \/ exists b, born = Date b) ->
  (calculate_age today born = NaN <-> born = NaN).
Proof.
  intros [->|[b ->]]; [done|]. rewrite calculate_age_Date. split; discriminate.
Qed.

(** C2 (the code departs from it in [Sample02.py]): the age of
    [Sample02.py] is the difference of the years alone. For a birth on
    2000-06-15 and today 2024-06-14 it gives 24, where the birthday has
    not come yet and [calculate_age] of [main.py] gives 23. *)
Theorem C2_sample02_age_ignores_the_birthday :
  Sample02.customer_age (mkTimestamp 2024 6 14) (Date (mkTimestamp 2000 6 15))
  = Ok (Int 24) /\
  calculate_age (mkTimestamp 2024 6 14) (Date (mkTimestamp 2000 6 15)) = Int 23 /\
  calculate_age (mkTimestamp 2024 6 16) (Date (mkTimestamp 2000 6 15)) = Int 24.
Proof. repeat split; reflexivity. Qed.

(** ** The filter *)

Lemma df_filtered_rows df states months colors sizes :
  NoDup (index df) -> filter_columns_present (columns df) ->
  Main.df_filtered df states months colors sizes
  = Ok (filter_rows (selected states months colors sizes) df).
Proof.
  intros Hnd (H1 & H2 & H3 & H4). unfold Main.df_filtered.
  repeat frame_step.
  by rewrite getitem_mask_derived.
Qed.

Lemma isin_nil c : isin [] c = false.
Proof. unfold isin. apply bool_decide_eq_false_2. apply not_elem_of_nil. Qed.

Lemma isin_In values c : isin values c = true <-> In c values.
Proof. unfold isin. rewrite bool_decide_eq_true. apply list_elem_of_In. Qed.

Lemma filter_none {A} (p : A -> bool) (l : list A) :
  (forall x, p x = false) -> List.filter p l = [].
Proof.
  intros Hp. induction l as [|x l IH]; [done|].
  cbn [List.filter]. by rewrite Hp.
Qed.

(** C4: the filter keeps a record exactly when, for each of the four
    predicates, the value of its field is one of the accepted values;
    the kept records stay in their order, and an empty set of accepted
    values for any predicate gives an empty result. *)
Theorem C4_filter_keeps_members_of_every_set
    (df : DataFrame) (states months colors sizes : list Cell) :
  NoDup (index df) -> filter_columns_present (columns df) ->
  exists df',
    Main.df_filtered df states months colors sizes = Ok df' /\
    columns df' = columns df /\
    rows df' = List.filter
                 (fun ir => selected states months colors sizes ir.2) (rows df) /\
    (forall i r,
       In (i, r) (rows df') <->
       In (i, r) (rows df) /\
       In (cell r "state") states /\
       In (cell r "order_year_month") months /\
       In (cell r "color") colors /\
       In (cell r "size") sizes) /\
    (states = [] \/ months = [] \/ colors = [] \/ sizes = [] -> rows df' = []).
Proof.
  intros Hnd Hcols. eexists. split; [by apply df_filtered_rows|].
  split; [done|]. split; [done|]. split.
  - intros i r. cbn [filter_rows rows]. rewrite List.filter_In.
    cbn [snd]. unfold selected. rewrite !andb_true_iff, !isin_In. tauto.
  - intros Hempty. cbn [filter_rows rows]. apply filter_none.
    intros [i r]; cbn [snd]. unfold selected.
    destruct Hempty as [-> | [-> | [-> | ->]]]; rewrite isin_nil;
      rewrite ?andb_false_r; reflexivity.
Qed.

Lemma C4_filter_witness :
  exists df',
    Main.df_filtered orders_example [Str "DE"] [Str "2024-01"] [Str "red"] []
    = Ok df' /\ rows df' = [].
Proof.
  destruct (C4_filter_keeps_members_of_every_set orders_example
              [Str "DE"] [Str "2024-01"] [Str "red"] [])
    as (df' & Hok & _ & _ & _ & Hempty).
  - apply (bool_decide_unpack _). vm_compute. exact I.
  - unfold filter_columns_present. cbn [orders_example columns].
    repeat split; apply (bool_decide_unpack _); vm_compute; exact I.
  - exists df'. split; [exact Hok|]. apply Hempty. tauto.
Defined.

(** ** Grouping *)

Lemma In_group_keys k keys :
  In k (group_keys keys) <-> In k keys /\ k <> NaN.
Proof.
  unfold group_keys. rewrite <- !list_elem_of_In.
  rewrite merge_sort_Permutation, elem_of_remove_dups, list_elem_of_In.
  rewrite List.filter_In, list_elem_of_In. split.
  - intros [Hin Hk]. split; [done|]. by intros ->.
  - intros [Hin Hk]. split; [done|]. by destruct k.
Qed.

Lemma NoDup_group_keys keys : NoDup (group_keys keys).
Proof.
  unfold group_keys. rewrite merge_sort_Permutation. apply NoDup_remove_dups.
Qed.

Lemma group_keys_nil : group_keys [] = [].
Proof. reflexivity. Qed.

Lemma map_fst_groups keyed : map fst (groups keyed) = group_keys (map fst keyed).
Proof.
  unfold groups. rewrite List.map_map. cbn [fst]. apply map_id.
Qed.

(** Grouping the rows of a frame by a key computed on the rows of a
    frame that holds them all: the labels find each row's own key. *)
Lemma groupby_derived df key_df (k : gmap string Cell -> Cell) c :
  NoDup (index key_df) ->
  (forall ir, In ir (rows df) -> In ir (rows key_df)) ->
  c ∈ columns df ->
  groupby df (derived key_df k) c = Ok (groups (keyed_rows k c df)).
Proof.
  intros Hnd Hsub Hc. unfold groupby.
  rewrite getitem_column by done. cbn [mbind result_bind mret result_ret].
  assert (Hkeyed :
    map (fun iv => (loc NaN (derived key_df k) iv.1, iv.2))
        (derived df (fun r => cell r c))
    = keyed_rows k c df).
  { unfold derived at 2, keyed_rows. rewrite List.map_map.
    apply map_ext_in. intros [i r] Hin; cbn [fst snd].
    by rewrite (loc_derived NaN key_df k i r) by auto. }
  rewrite Hkeyed. reflexivity.
Qed.

Lemma agg_Ok f grouped res :
  agg f grouped = Ok res ->
  Forall2 (fun g kv => kv.1 = g.1 /\ f g.2 = Ok kv.2) grouped res.
Proof.
  revert res. induction grouped as [|[k vals] grouped IH]; intros res Hagg.
  - cbn in Hagg. injection Hagg as <-. constructor.
  - cbn [agg] in Hagg. destruct (f vals) as [v|e] eqn:Hf; [|discriminate].
    cbn [mbind result_bind] in Hagg.
    destruct (agg f grouped) as [rest|e] eqn:Hrest; [|discriminate].
    cbn [mbind result_bind mret result_ret] in Hagg. injection Hagg as <-.
    constructor; [by split|]. by apply IH.
Qed.

Lemma agg_total f grouped :
  (forall g, In g grouped -> exists v, f g.2 = Ok v) ->
  exists res, agg f grouped = Ok res.
Proof.
  induction grouped as [|[k vals] grouped IH]; intros Hf.
  - by exists [].
  - destruct (Hf (k, vals)) as [v Hv]; [by left|].
    destruct IH as [rest Hrest]; [intros g Hg; apply Hf; by right|].
    exists ((k, v) :: rest). cbn [agg]. cbn [snd] in Hv. rewrite Hv.
    cbn [mbind result_bind]. rewrite Hrest. reflexivity.
Qed.

Lemma numbers_total vals :
  (forall v, In v vals -> number_or_null v = true) ->
  exists qs, numbers vals = Ok qs.
Proof.
  induction vals as [|v vals IH]; intros Hv; [by exists []|].
  destruct IH as [qs Hqs]; [intros v' Hv'; apply Hv; by right|].
  assert (Hnum : number_or_null v = true) by (apply Hv; by left).
  destruct v; try discriminate; cbn [numbers]; rewrite Hqs;
    cbn [mbind result_bind mret result_ret]; eauto.
Qed.

Lemma mean_total vals :
  (forall v, In v vals -> number_or_null v = true) ->
  exists m, mean vals = Ok m.
Proof.
  intros Hv. destruct (numbers_total vals Hv) as [qs Hqs].
  unfold mean. rewrite Hqs. cbn [mbind result_bind mret result_ret]. eauto.
Qed.

Lemma Forall2_map_fst {A B C} (P : A * B -> A * C -> Prop) l l' :
  Forall2 P l l' -> (forall x y, P x y -> y.1 = x.1) -> map fst l' = map fst l.
Proof.
  intros HF HP. induction HF as [|x y l l' Hxy _ IH]; [done|].
  cbn [map]. f_equal; [by apply HP|exact IH].
Qed.

Lemma Forall2_In_r {A B} (P : A -> B -> Prop) l l' y :
  Forall2 P l l' -> In y l' -> exists x, In x l /\ P x y.
Proof.
  intros HF. induction HF as [|x y' l l' Hxy _ IH]; [done|].
  intros [<-|Hin].
  - exists x. split; [by left|done].
  - destruct (IH Hin) as (x' & Hx' & HP). exists x'. split; [by right|done].
Qed.

(** The values of one group are the values of the rows that have its
    key. *)
Lemma group_values (k : gmap string Cell -> Cell) c df key :
  map snd (List.filter (fun kv => bool_decide (kv.1 = key)) (keyed_rows k c df))
  = map (fun ir => cell ir.2 c)
        (List.filter (fun ir => bool_decide (k ir.2 = key)) (rows df)).
Proof.
  unfold keyed_rows. induction (rows df) as [|[i r] rs IH]; [done|].
  cbn [map List.filter fst snd]. case_bool_decide; cbn [map snd]; by rewrite IH.
Qed.

Lemma In_groups keyed g :
  In g (groups keyed) ->
  g.2 = map snd (List.filter (fun kv => bool_decide (kv.1 = g.1)) keyed).
Proof.
  unfold groups. rewrite in_map_iff. by intros (k & <- & _).
Qed.

Lemma return_rate_by_state_rows df :
  NoDup (index df) -> "state" ∈ columns df -> "returnShipment" ∈ columns df ->
  Main.return_rate_by_state df
  = (means ← agg mean (groups (keyed_rows (fun r => cell r "state")
                                           "returnShipment" df));
     mret (map (fun kv => (kv.1, times 100 kv.2)) means)).
Proof.
  intros Hnd Hs Hr. unfold Main.return_rate_by_state.
  rewrite getitem_column by done. cbn [mbind result_bind].
  by rewrite groupby_derived.
Qed.

(** The return rate by state has one entry for each state that the
    rows have and none for any other; the entry of a state is 100 times
    the mean of the return flags of its records, which is null and not
    an error when the group has no number; the only error is the one of
    a flag that is no number; a frame without rows gives the empty
    mapping; and three orders of DE, DE and FR with the flags 1, 0 and
    1, filtered to DE, give 50 for DE and nothing for FR. *)
Lemma return_rate_groups (df : DataFrame) :
  NoDup (index df) -> "state" ∈ columns df -> "returnShipment" ∈ columns df ->
  (returns_are_numbers df ->
   exists rates, Main.return_rate_by_state df = Ok rates) /\
  (forall rates,
     Main.return_rate_by_state df = Ok rates ->
     NoDup (map fst rates) /\
     (forall k, In k (map fst rates) <->
                k <> NaN /\ exists i r, In (i, r) (rows df) /\ cell r "state" = k) /\
     (forall k v, In (k, v) rates ->
        exists m,
          mean (map (fun ir => cell ir.2 "returnShipment") (rows_of_state df k))
          = Ok m /\ v = times 100 m)) /\
  (rows df = [] -> Main.return_rate_by_state df = Ok []) /\
  (exists df_de,
     Main.df_filtered orders_example
       [Str "DE"] [Str "2024-01"] [Str "red"] [Str "m"] = Ok df_de /\
     Main.return_rate_by_state df_de = Ok [(Str "DE", Float 50)]).
Proof.
  intros Hnd Hs Hr.
  rewrite return_rate_by_state_rows by done.
  set (keyed := keyed_rows (fun r => cell r "state") "returnShipment" df).
  split; [|split; [|split; [|by eexists]]].
  - intros Hnum. destruct (agg_total mean (groups keyed)) as [means Hmeans].
    { intros g Hg. apply mean_total. intros v Hv.
      rewrite (In_groups keyed g Hg) in Hv. subst keyed.
      rewrite group_values in Hv. apply in_map_iff in Hv as ([i r] & <- & Hin).
      apply List.filter_In in Hin as [Hin _]. by apply (Hnum i r). }
    rewrite Hmeans, bind_Ok. by eexists.
  - intros rates Hrates.
    destruct (agg mean (groups keyed)) as [means|e] eqn:Hmeans;
      [|by rewrite bind_Raise in Hrates].
    rewrite bind_Ok in Hrates. injection Hrates as <-.
    pose proof (agg_Ok _ _ _ Hmeans) as HF.
    assert (Hkeys :
      map fst (map (fun kv : Cell * Cell => (kv.1, times 100 kv.2)) means)
      = group_keys (map fst keyed)).
    { rewrite List.map_map. cbn [fst]. rewrite <- map_fst_groups.
      apply (Forall2_map_fst _ _ _ HF). by intros x y [? _]. }
    split; [|split].
    + rewrite Hkeys. apply NoDup_group_keys.
    + intros k. rewrite Hkeys, In_group_keys. subst keyed. unfold keyed_rows.
      rewrite List.map_map. cbn [fst]. rewrite in_map_iff. split.
      * intros [([i r] & <- & Hin) Hk]. split; [done|]. by exists i, r.
      * intros [Hk (i & r & Hin & <-)]. split; [|done]. by exists (i, r).
    + intros k v Hin. apply in_map_iff in Hin as ([k' m] & Heq & Hin).
      cbn [fst snd] in Heq. injection Heq as -> <-.
      destruct (Forall2_In_r _ _ _ _ HF Hin) as (g & Hg & Hk & Hm).
      cbn [fst snd] in Hk, Hm. exists m. split; [|done].
      rewrite (In_groups keyed g Hg) in Hm. subst keyed.
      rewrite group_values in Hm. by rewrite <- Hk in Hm.
  - intros Hempty. subst keyed. unfold keyed_rows. by rewrite Hempty.
Qed.

(** ** Delivery performance *)

Lemma filter_rows_idem p df : filter_rows p (filter_rows p df) = filter_rows p df.
Proof.
  unfold filter_rows; cbn [rows columns]. f_equal.
  induction (rows df) as [|[i r] rs IH]; [done|].
  cbn [List.filter snd]. destruct (p r) eqn:Hp; [|done].
  cbn [List.filter snd]. rewrite Hp. by f_equal.
Qed.

Lemma delivery_performance_rows df :
  NoDup (index df) -> "delivery_delay" ∈ columns df -> "orderDate" ∈ columns df ->
  Main.delivery_performance df
  = agg mean (groups (keyed_rows order_month "delivery_delay" (filter_rows late df))).
Proof.
  intros Hnd Hd Ho. unfold Main.delivery_performance.
  rewrite !getitem_column by done. cbn [mbind result_bind].
  rewrite !smap_derived, getitem_mask_derived by done.
  rewrite (groupby_derived (filter_rows (fun r => gt0 (cell r "delivery_delay")) df)
             df (fun r => dt_month (cell r "orderDate")) "delivery_delay");
    [reflexivity|done| |done].
  intros ir Hin. cbn [filter_rows rows] in Hin.
  by apply List.filter_In in Hin as [Hin _].
Qed.

Lemma sample02_delays_rows df :
  NoDup (index df) -> "delivery_delay" ∈ columns df -> "orderDate" ∈ columns df ->
  Sample02.delays df
  = if bool_decide (rows (filter_rows late df) = [])
    then Ok None
    else (means ← agg mean (groups (keyed_rows order_month "delivery_delay"
                                                (filter_rows late df)));
          mret (Some means)).
Proof.
  intros Hnd Hd Ho. unfold Sample02.delays.
  rewrite getitem_column by done. cbn [mbind result_bind].
  rewrite smap_derived, getitem_mask_derived by done.
  fold late. case_bool_decide; [reflexivity|].
  rewrite (getitem_column (filter_rows late df)) by done.
  cbn [mbind result_bind]. rewrite smap_derived.
  rewrite (groupby_derived (filter_rows late df) (filter_rows late df)
             (fun r => dt_month (cell r "orderDate")) "delivery_delay");
    [reflexivity|by apply NoDup_index_filter_rows|done|done].
Qed.

Lemma filter_rows_remove p df l1 l2 i r :
  rows df = l1 ++ (i, r) :: l2 -> p r = false ->
  filter_rows p {| columns := columns df; rows := l1 ++ l2 |} = filter_rows p df.
Proof.
  intros Hrows Hp. unfold filter_rows; cbn [rows columns]. f_equal.
  rewrite Hrows, !List.filter_app. cbn [List.filter snd]. by rewrite Hp.
Qed.

Lemma NoDup_index_remove df l1 l2 ir :
  rows df = l1 ++ ir :: l2 -> NoDup (index df) ->
  NoDup (index {| columns := columns df; rows := l1 ++ l2 |}).
Proof.
  unfold index; cbn [rows]. intros ->.
  rewrite !List.map_app. cbn [map].
  intros Hnd. apply NoDup_ListNoDup in Hnd. apply NoDup_ListNoDup.
  by apply List.NoDup_remove_1 in Hnd.
Qed.

(** C10: the average delay by month is computed from the records whose
    delay is greater than zero and from no other: it is the same on the
    frame without the others, each average is the mean of the positive
    delays of its month, and taking a record with a delay of zero, a
    negative delay or no delay out of the frame changes nothing. The
    same holds for [delays] of [Sample02.py]. *)
Theorem C10_only_positive_delays_are_averaged (df : DataFrame) :
  NoDup (index df) -> "delivery_delay" ∈ columns df -> "orderDate" ∈ columns df ->
  Main.delivery_performance df = Main.delivery_performance (filter_rows late df) /\
  Sample02.delays df = Sample02.delays (filter_rows late df) /\
  (forall averages k v,
     Main.delivery_performance df = Ok averages -> In (k, v) averages ->
     mean (map (fun ir => cell ir.2 "delivery_delay")
             (List.filter (fun ir => bool_decide (order_month ir.2 = k))
                (List.filter (fun ir => late ir.2) (rows df))))
     = Ok v) /\
  (forall l1 l2 i r,
     rows df = l1 ++ (i, r) :: l2 -> late r = false ->
     Main.delivery_performance {| columns := columns df; rows := l1 ++ l2 |}
     = Main.delivery_performance df /\
     Sample02.delays {| columns := columns df; rows := l1 ++ l2 |}
     = Sample02.delays df).
Proof.
  intros Hnd Hd Ho.
  assert (Hnd' : NoDup (index (filter_rows late df)))
    by (by apply NoDup_index_filter_rows).
  split; [|split; [|split]].
  - rewrite !delivery_performance_rows by done. by rewrite filter_rows_idem.
  - rewrite !sample02_delays_rows by done. by rewrite filter_rows_idem.
  - intros averages k v Hok Hin.
    rewrite delivery_performance_rows in Hok by done.
    destruct (Forall2_In_r _ _ _ _ (agg_Ok _ _ _ Hok) Hin)
      as (g & Hg & Hk & Hm).
    cbn [fst snd] in Hk, Hm.
    rewrite (In_groups _ g Hg), group_values in Hm.
    by rewrite <- Hk in Hm.
  - intros l1 l2 i r Hrows Hlate.
    pose proof (NoDup_index_remove df l1 l2 (i, r) Hrows Hnd) as Hnd2.
    rewrite !delivery_performance_rows, !sample02_delays_rows by done.
    by rewrite (filter_rows_remove late df l1 l2 i r).
Qed.

Lemma C10_only_positive_delays_witness :
  Main.delivery_performance deliveries_example
  = Main.delivery_performance (filter_rows late deliveries_example) /\
  Main.delivery_performance deliveries_example = Ok [(Int 1, Float 5)].
Proof.
  split; [|vm_compute; reflexivity].
  destruct (C10_only_positive_delays_are_averaged deliveries_example)
    as [Hsame _].
  - apply (bool_decide_unpack _). vm_compute. exact I.
  - apply (bool_decide_unpack _). vm_compute. exact I.
  - apply (bool_decide_unpack _). vm_compute. exact I.
  - exact Hsame.
Defined.

(** ** What [load_data] of [sample1.py] does to one record *)

Lemma convert_dates_cons col cols df :
  NoDup (index df) -> col ∈ columns df ->
  Sample1.convert_dates (col :: cols) df
  = Sample1.convert_dates cols
      (if bool_decide (col = "deliveryDate")
       then assign col (fun r => to_datetime strptime_ymd (cell r col))
              (assign col (fun r => to_datetime strptime_dmy (cell r col)) df)
       else assign col (fun r => to_datetime strptime_dmy (cell r col)) df).
Proof.
  intros Hnd Hc. cbn [Sample1.convert_dates].
  rewrite update_column by done. rewrite bind_Ok.
  case_bool_decide; [|by rewrite bind_Ok].
  rewrite update_column; [by rewrite bind_Ok|by rewrite index_assign|].
  apply elem_of_columns_assign. by left.
Qed.

Lemma sample1_load_data_body_ok w header records :
  fs w !! "orders_dataset.csv" = Some (Csv header records) ->
  date_columns_present header ->
  Sample1.load_data_body w
  = Ok {| columns := sample1_columns header;
          rows := imap (fun i r => (i, sample1_load_row (now w) r)) records |}.
Proof.
  intros Hfile (Ho & Hd & Hb & Hc).
  unfold Sample1.load_data_body, read_csv. rewrite Hfile, bind_Ok.
  set (df0 := {| columns := header;
                 rows := imap (fun i r => (i, r)) records |}).
  assert (Hnd : NoDup (index df0)) by apply NoDup_index_imap.
  assert (Hcols : columns df0 = header) by reflexivity.
  unfold Sample1.date_columns.
  rewrite convert_dates_cons by first [frame_nodup | frame_cols].
  rewrite (bool_decide_eq_false_2 ("orderDate" = "deliveryDate")) by discriminate.
  rewrite convert_dates_cons by first [frame_nodup | frame_cols].
  rewrite (bool_decide_eq_true_2 ("deliveryDate" = "deliveryDate")) by done.
  rewrite convert_dates_cons by first [frame_nodup | frame_cols].
  rewrite (bool_decide_eq_false_2 ("dateOfBirth" = "deliveryDate")) by discriminate.
  rewrite convert_dates_cons by first [frame_nodup | frame_cols].
  rewrite (bool_decide_eq_false_2 ("creationDate" = "deliveryDate")) by discriminate.
  change (Sample1.convert_dates [] ?d) with (Ok d). rewrite bind_Ok.
  do 3 load_step.
  rewrite update_column by first [frame_nodup | frame_cols].
  f_equal. subst df0.
  rewrite (assign_imap "orderDate" _ header (fun r => r)).
  rewrite !assign_imap.
  rewrite (add_column_present "orderDate" header Ho).
  rewrite !(add_column_present "deliveryDate" header Hd).
  rewrite (add_column_present "dateOfBirth" header Hb).
  rewrite (add_column_present "creationDate" header Hc).
  rewrite (add_column_present "delivery_delay" (add_column _ _))
    by (apply elem_of_add_column; by left).
  reflexivity.
Qed.

(** ** When the loaders fail *)










Ltac cells1 :=
  unfold sample1_load_row;
  repeat first
    [ rewrite cell_set_cell_eq
    | rewrite cell_set_cell_ne by discriminate ];
  try reflexivity.

Section Sample1LoadRow.
Variable today : Timestamp.
Variable r : gmap string Cell.

Let r' := sample1_load_row today r.

Lemma sample1_row_orderDate :
  cell r' "orderDate" = to_datetime strptime_dmy (cell r "orderDate").
Proof. subst r'. cells1. Qed.

Lemma sample1_row_deliveryDate :
  cell r' "deliveryDate"
  = to_datetime strptime_ymd (to_datetime strptime_dmy (cell r "deliveryDate")).
Proof. subst r'. cells1. Qed.

Lemma sample1_row_dateOfBirth :
  cell r' "dateOfBirth" = to_datetime strptime_dmy (cell r "dateOfBirth").
Proof. subst r'. cells1. Qed.

Lemma sample1_row_creationDate :
  cell r' "creationDate" = to_datetime strptime_dmy (cell r "creationDate").
Proof. subst r'. cells1. Qed.

Lemma sample1_row_delivery_delay :
  cell r' "delivery_delay"
  = fillna (Str "Unknown")
      (dt_days (sub_datetime (cell r' "deliveryDate") (cell r' "orderDate"))).
Proof. subst r'. cells1. Qed.

Lemma sample1_row_customer_age :
  cell r' "customer_age" = calculate_age today (cell r' "dateOfBirth").
Proof. subst r'. cells1. Qed.
End Sample1LoadRow.



(** ** The delivery delay *)

Lemma to_datetime_date_or_null parse c : date_or_null (to_datetime parse c).
Proof.
  unfold date_or_null. destruct c; cbn [to_datetime]; eauto.
  destruct (parse s); eauto.
Qed.


Lemma In_imap_rows (f : gmap string Cell -> gmap string Cell)
    (records : list (gmap string Cell)) i r' :
  In (i, r') (imap (fun i r => (i, f r)) records) ->
  exists r, records !! i = Some r /\ r' = f r.
Proof.
  intros Hin. apply list_elem_of_In, elem_of_lookup_imap in Hin.
  destruct Hin as (j & r & Heq & Hr). injection Heq as -> ->. eauto.
Qed.

(** ** The age of loaded records *)

Lemma to_datetime_infer_date_or_null infer_datetime c :
  date_or_null (to_datetime_infer infer_datetime c).
Proof.
  unfold date_or_null, to_datetime_infer. destruct (infer_datetime c); eauto.
Qed.

(** In [main.py] and in [sample1.py] the age of every loaded record is
    null exactly when its date of birth is, and the birthday-aware
    difference of the years otherwise. *)
Lemma loaded_customer_age infer_datetime w header records :
  fs w !! "orders_dataset.csv" = Some (Csv header records) ->
  date_columns_present header ->
  exists df df1,
    Main.load_data_try infer_datetime w = Ok df /\
    Sample1.load_data_body w = Ok df1 /\
    forall i r, In (i, r) (rows df) \/ In (i, r) (rows df1) ->
      (cell r "customer_age" = NaN <-> cell r "dateOfBirth" = NaN) /\
      forall b, cell r "dateOfBirth" = Date b ->
        cell r "customer_age"
        = Int (year (now w) - year b -
               (if tuple_ltb (month (now w), day (now w)) (month b, day b)
                then 1 else 0)).
Proof.
  intros Hfile Hcols. eexists _, _.
  split; [by apply main_load_data_try_ok|].
  split; [by apply sample1_load_data_body_ok|].
  cbn [rows].
  assert (Hage : forall r : gmap string Cell,
            date_or_null (cell r "dateOfBirth") ->
            cell r "customer_age" = calculate_age (now w) (cell r "dateOfBirth") ->
            (cell r "customer_age" = NaN <-> cell r "dateOfBirth" = NaN) /\
            forall b, cell r "dateOfBirth" = Date b ->
              cell r "customer_age"
              = Int (year (now w) - year b -
                     (if tuple_ltb (month (now w), day (now w)) (month b, day b)
                      then 1 else 0))).
  { intros r Hdob ->. split; [by apply calculate_age_null|]. by intros b ->. }
  intros i r' [Hin|Hin]; apply In_imap_rows in Hin as (r & _ & ->); apply Hage.
  - rewrite main_row_dateOfBirth. apply to_datetime_infer_date_or_null.
  - apply main_row_customer_age.
  - rewrite sample1_row_dateOfBirth. apply to_datetime_date_or_null.
  - apply sample1_row_customer_age.
Qed.

(** ** The date formats *)

Example strptime_dmy_ex : strptime_dmy "10-01-2024" = Some (mkTimestamp 2024 1 10).
Proof. reflexivity. Qed.
Example strptime_ymd_ex : strptime_ymd "2024-01-15" = Some (mkTimestamp 2024 1 15).
Proof. reflexivity. Qed.
Example strptime_dmy_iso : strptime_dmy "2024-01-15" = None.
Proof. reflexivity. Qed.
Example strptime_ymd_feb : strptime_ymd "2023-02-29" = None.
Proof. reflexivity. Qed.
Example toordinal_ex : toordinal (mkTimestamp 2024 1 15) - toordinal (mkTimestamp 2024 1 10) = 5.
Proof. reflexivity. Qed.
Example toordinal_py : toordinal (mkTimestamp 2024 6 15) = 739052.
Proof. reflexivity. Qed.
Example strftime_ex : strftime_ymd (mkTimestamp 2024 1 15) = "2024-01-15".
Proof. reflexivity. Qed.

(** The characters that [strftime] writes are digits, and none is the
    separator. *)
Lemma digit_char_spec n :
  0 <= n <= 9 ->
  is_digit (digit_char n) = true /\ digit_val (digit_char n) = n /\
  Ascii.eqb (digit_char n) "-"%char = false.
Proof.
  intros Hn. rewrite <- (Z2Nat.id n) by lia.
  assert (Hk : (Z.to_nat n < 10)%nat) by lia.
  revert Hk. generalize (Z.to_nat n) as k. intros k Hk.
  do 10 (destruct k as [|k]; [by vm_compute|]). lia.
Qed.

Lemma valid_date_calendar d : valid_date d = true -> calendar_date d = true.
Proof. unfold valid_date. rewrite andb_true_iff. tauto. Qed.

Lemma calendar_date_bounds d :
  calendar_date d = true ->
  1 <= year d <= 9999 /\ 1 <= month d <= 12 /\ 1 <= day d <= 31.
Proof.
  unfold calendar_date. rewrite !andb_true_iff, !Z.leb_le.
  intros (((((Hy1 & Hy2) & Hm1) & Hm2) & Hd1) & Hd2).
  assert (Hdim : days_in_month (year d) (month d) <= 31).
  { unfold days_in_month.
    repeat match goal with |- context [if ?b then _ else _] => destruct b end;
      lia. }
  lia.
Qed.

Ltac digits_of d Hb :=
  destruct (digit_char_spec (year d / 1000)) as (? & ? & ?);
    [Z.div_mod_to_equations; lia|];
  destruct (digit_char_spec (year d / 100 mod 10)) as (? & ? & ?);
    [Z.div_mod_to_equations; lia|];
  destruct (digit_char_spec (year d / 10 mod 10)) as (? & ? & ?);
    [Z.div_mod_to_equations; lia|];
  destruct (digit_char_spec (year d mod 10)) as (? & ? & ?);
    [Z.div_mod_to_equations; lia|];
  destruct (digit_char_spec (month d / 10)) as (? & ? & ?);
    [Z.div_mod_to_equations; lia|];
  destruct (digit_char_spec (month d mod 10)) as (? & ? & ?);
    [Z.div_mod_to_equations; lia|];
  destruct (digit_char_spec (day d / 10)) as (? & ? & ?);
    [Z.div_mod_to_equations; lia|];
  destruct (digit_char_spec (day d mod 10)) as (? & ? & ?);
    [Z.div_mod_to_equations; lia|].

Ltac rewrite_digits :=
  repeat match goal with
         | H : Ascii.eqb (digit_char _) _ = false |- _ => rewrite !H; clear H
         | H : is_digit (digit_char _) = true |- _ => rewrite !H; clear H
         | H : digit_val (digit_char _) = _ |- _ => rewrite !H; clear H
         end.

Lemma valid_date_bounds d :
  valid_date d = true ->
  1 <= year d <= 9999 /\ 1 <= month d <= 12 /\ 1 <= day d <= 31.
Proof. intros Hvalid. by apply calendar_date_bounds, valid_date_calendar. Qed.

Lemma checked_calendar d y m dd :
  calendar_date d = true -> y = year d -> m = month d -> dd = day d ->
  checked y m dd = read_back d.
Proof.
  intros Hcal -> -> ->. unfold checked, read_back, valid_date. destruct d as [y m dd].
  cbn [year month day]. by rewrite Hcal.
Qed.

Lemma read_back_valid d : valid_date d = true -> read_back d = Some d.
Proof.
  unfold valid_date, read_back. rewrite andb_true_iff. by intros [_ ->].
Qed.

(** The first and the last day that a timestamp holds, and the days
    next to them. *)
Example strptime_bounds :
  strptime_ymd "1677-09-21" = None /\
  strptime_ymd "1677-09-22" = Some (mkTimestamp 1677 9 22) /\
  strptime_ymd "2262-04-11" = Some (mkTimestamp 2262 4 11) /\
  strptime_ymd "2262-04-12" = None /\
  strptime_dmy "01-01-2500" = None.
Proof. repeat split. Qed.

(** Each format reads back what it writes, and reads nothing that the
    other format writes. *)
Lemma strptime_ymd_strftime_ymd d :
  calendar_date d = true -> strptime_ymd (strftime_ymd d) = read_back d.
Proof.
  intros Hvalid. pose proof (calendar_date_bounds d Hvalid) as Hb.
  digits_of d Hb.
  unfold strptime_ymd, strftime_ymd, four_digits, two_digits.
  cbv [String.append]. cbn [split_dash]. rewrite_digits.
  cbn [Ascii.eqb Bool.eqb].
  unfold directive_Y, directive_dm, digits.
  cbn [String.length Nat.eqb Nat.leb digits_acc]. rewrite_digits.
  cbv beta iota. apply checked_calendar; [done|..]; Z.div_mod_to_equations; lia.
Qed.

Lemma strptime_dmy_strftime_dmy d :
  calendar_date d = true -> strptime_dmy (strftime_dmy d) = read_back d.
Proof.
  intros Hvalid. pose proof (calendar_date_bounds d Hvalid) as Hb.
  digits_of d Hb.
  unfold strptime_dmy, strftime_dmy, four_digits, two_digits.
  cbv [String.append]. cbn [split_dash]. rewrite_digits.
  cbn [Ascii.eqb Bool.eqb].
  unfold directive_Y, directive_dm, digits.
  cbn [String.length Nat.eqb Nat.leb digits_acc]. rewrite_digits.
  cbv beta iota. apply checked_calendar; [done|..]; Z.div_mod_to_equations; lia.
Qed.

Lemma strptime_dmy_strftime_ymd d :
  calendar_date d = true -> strptime_dmy (strftime_ymd d) = None.
Proof.
  intros Hvalid. pose proof (calendar_date_bounds d Hvalid) as Hb.
  digits_of d Hb.
  unfold strptime_dmy, strftime_ymd, four_digits, two_digits.
  cbv [String.append]. cbn [split_dash]. rewrite_digits.
  cbn [Ascii.eqb Bool.eqb].
  reflexivity.
Qed.

Lemma strptime_ymd_strftime_dmy d :
  calendar_date d = true -> strptime_ymd (strftime_dmy d) = None.
Proof.
  intros Hvalid. pose proof (calendar_date_bounds d Hvalid) as Hb.
  digits_of d Hb.
  unfold strptime_ymd, strftime_dmy, four_digits, two_digits.
  cbv [String.append]. cbn [split_dash]. rewrite_digits.
  cbn [Ascii.eqb Bool.eqb].
  reflexivity.
Qed.

(** C7 (the code departs from it in [sample1.py]): a delivery date given
    as year-month-day is read by [main.py] as that date, and by
    [sample1.py] as a null: there the column is first converted with the
    day-month-year format, which turns the string into a null before the
    year-month-day format is tried. This holds for every date of the
    calendar and every file with the date columns; a date that a
    timestamp of pandas does not hold (before 22 September 1677 or after
    11 April 2262) is a null in [main.py] too. *)
Theorem C7_sample1_reads_iso_delivery_date_as_null
    (infer_datetime : Cell -> option Timestamp) (w : World)
    (header : list string) (records : list (gmap string Cell))
    (d : Timestamp) :
  calendar_date d = true ->
  fs w !! "orders_dataset.csv" = Some (Csv header records) ->
  date_columns_present header ->
  exists df df1,
    Main.load_data_try infer_datetime w = Ok df /\
    Sample1.load_data_body w = Ok df1 /\
    forall (i : nat) r,
      records !! i = Some r ->
      cell r "deliveryDate" = Str (strftime_ymd d) ->
      exists r' r1,
        rows df !! i = Some (i, r') /\
        rows df1 !! i = Some (i, r1) /\
        cell r' "deliveryDate" = (if in_bounds d then Date d else NaN) /\
        (valid_date d = true -> cell r' "deliveryDate" = Date d) /\
        cell r1 "deliveryDate" = NaN.
Proof.
  intros Hcal Hfile Hcols. eexists _, _.
  split; [by apply main_load_data_try_ok|].
  split; [by apply sample1_load_data_body_ok|].
  intros i r Hr Hraw. eexists _, _. cbn [rows].
  rewrite !list_lookup_imap, Hr.
  split; [reflexivity|]. split; [reflexivity|].
  rewrite main_row_deliveryDate, sample1_row_deliveryDate, Hraw.
  cbn [to_datetime].
  rewrite strptime_ymd_strftime_ymd, strptime_dmy_strftime_ymd by done.
  unfold read_back, valid_date. rewrite Hcal. cbn [andb].
  split; [by destruct (in_bounds d)|]. split; [by intros ->|done].
Qed.

(** On the file of [dates_only_world]: the delivery date "2024-01-15" is
    2024-01-15 in [main.py] and null in [sample1.py]; the order date
    "10-01-2024" is 2024-01-10 in both, and the creation date that is no
    date is null in both. *)
Lemma C7_iso_delivery_date_witness :
  exists df r df1 r1,
    Main.load_data_try (fun _ => None) dates_only_world = Ok df /\
    rows df = [(0%nat, r)] /\
    cell r "deliveryDate" = Date (mkTimestamp 2024 1 15) /\
    cell r "orderDate" = Date (mkTimestamp 2024 1 10) /\
    cell r "creationDate" = NaN /\
    Sample1.load_data_body dates_only_world = Ok df1 /\
    rows df1 = [(0%nat, r1)] /\
    cell r1 "deliveryDate" = NaN /\
    cell r1 "orderDate" = Date (mkTimestamp 2024 1 10) /\
    cell r1 "creationDate" = NaN.
Proof.
  assert (Hfile : fs dates_only_world !! "orders_dataset.csv"
                  = Some (Csv dates_only_header [dates_only_record]))
    by (vm_compute; reflexivity).
  assert (Hcols : date_columns_present dates_only_header).
  { unfold date_columns_present.
    repeat split; apply (bool_decide_unpack _); vm_compute; exact I. }
  destruct (C7_sample1_reads_iso_delivery_date_as_null
              (fun _ => None) dates_only_world dates_only_header
              [dates_only_record] (mkTimestamp 2024 1 15)
              eq_refl Hfile Hcols)
    as (df & df1 & Hdf & Hdf1 & Hrow).
  destruct (Hrow 0%nat dates_only_record eq_refl eq_refl)
    as (r' & r1 & Hr' & Hr1 & _ & Hmain & Hsample1).
  rewrite (main_load_data_try_ok _ _ _ _ Hfile Hcols) in Hdf.
  rewrite (sample1_load_data_body_ok _ _ _ Hfile Hcols) in Hdf1.
  injection Hdf as <-. injection Hdf1 as <-.
  cbn [rows imap] in Hr', Hr1. injection Hr' as <-. injection Hr1 as <-.
  eexists _, _, _, _.
  split; [exact (main_load_data_try_ok _ _ _ _ Hfile Hcols)|].
  split; [reflexivity|].
  split; [exact (Hmain eq_refl)|].
  split; [rewrite main_row_orderDate; vm_compute; reflexivity|].
  split; [rewrite main_row_creationDate; vm_compute; reflexivity|].
  split; [exact (sample1_load_data_body_ok _ _ _ Hfile Hcols)|].
  split; [reflexivity|].
  split; [exact Hsample1|].
  split; [rewrite sample1_row_orderDate; vm_compute; reflexivity|].
  rewrite sample1_row_creationDate; vm_compute; reflexivity.
Defined.

(** ** Loading twice *)









(** * Further properties *)

(** ** Distinct values and counts *)

Lemma In_unique_from seen vals v :
  In v (unique_from seen vals) <-> In v vals /\ ~ In v seen.
Proof.
  revert seen. induction vals as [|x vals IH]; intros seen; cbn [unique_from].
  - cbn. tauto.
  - case_bool_decide as Hx.
    + rewrite IH. apply list_elem_of_In in Hx. cbn [In]. split.
      * intros [Hin Hs]. tauto.
      * intros [[->|Hin] Hs]; tauto.
    + rewrite list_elem_of_In in Hx. cbn [In]. rewrite IH. cbn [In].
      destruct (decide (x = v)) as [->|Hne]; tauto.
Qed.

Lemma NoDup_unique_from seen vals : NoDup (unique_from seen vals).
Proof.
  revert seen. induction vals as [|x vals IH]; intros seen; cbn [unique_from].
  - constructor.
  - case_bool_decide as Hx; [apply IH|].
    apply NoDup_cons. split; [|apply IH].
    rewrite list_elem_of_In, In_unique_from. cbn [In]. tauto.
Qed.

Lemma In_unique s v : In v (unique s) <-> In v (map snd s).
Proof. unfold unique. rewrite In_unique_from. cbn. tauto. Qed.

Lemma NoDup_unique s : NoDup (unique s).
Proof. apply NoDup_unique_from. Qed.

Lemma sum_counts_Permutation {A} (l l' : list (A * nat)) :
  l ≡ₚ l' -> sum_counts l = sum_counts l'.
Proof.
  unfold sum_counts. induction 1; cbn [fold_right] in *; [done | lia | lia | congruence].
Qed.

Lemma count_value_cons s i x v :
  count_value ((i, x) :: s) v
  = ((if bool_decide (x = v) then 1 else 0) + count_value s v)%nat.
Proof.
  unfold count_value. cbn [List.filter snd]. by case_bool_decide.
Qed.

Lemma sum_counts_indicator (x : Cell) (ks : list Cell) :
  NoDup ks ->
  sum_counts (map (fun k => (k, if bool_decide (x = k) then 1%nat else 0%nat)) ks)
  = if bool_decide (x ∈ ks) then 1%nat else 0%nat.
Proof.
  induction ks as [|k ks IH]; intros Hnd.
  - cbn. by rewrite bool_decide_eq_false_2 by apply not_elem_of_nil.
  - apply NoDup_cons in Hnd as [Hk Hnd]. cbn [map sum_counts fold_right snd].
    fold (sum_counts (map (fun k => (k, if bool_decide (x = k) then 1%nat else 0%nat)) ks)).
    rewrite IH by done.
    destruct (decide (x = k)) as [->|Hne].
    + rewrite (bool_decide_eq_true_2 (k = k)) by done.
      rewrite (bool_decide_eq_false_2 (k ∈ ks)) by done.
      by rewrite (bool_decide_eq_true_2 (k ∈ k :: ks)) by left.
    + rewrite (bool_decide_eq_false_2 (x = k)) by done.
      rewrite (bool_decide_ext (x ∈ k :: ks) (x ∈ ks)); [done|].
      rewrite elem_of_cons. tauto.
Qed.

Lemma sum_counts_plus {A} (f g : A -> nat) (ks : list A) :
  sum_counts (map (fun k => (k, (f k + g k)%nat)) ks)
  = (sum_counts (map (fun k => (k, f k)) ks) + sum_counts (map (fun k => (k, g k)) ks))%nat.
Proof.
  unfold sum_counts. induction ks as [|k ks IH]; [done|].
  cbn [map fold_right snd] in *. lia.
Qed.

(** The counts of distinct values add up to the number of rows that hold
    one of them. *)
Lemma sum_counts_count_value s (ks : list Cell) :
  NoDup ks ->
  sum_counts (map (fun k => (k, count_value s k)) ks)
  = length (List.filter (fun iv => bool_decide (iv.2 ∈ ks)) s).
Proof.
  intros Hnd. induction s as [|[i x] s IH].
  - cbn [List.filter length]. induction ks as [|k ks IHk]; [done|].
    apply NoDup_cons in Hnd as [_ Hnd]. cbn [map sum_counts fold_right snd].
    fold (sum_counts (map (fun k => (k, count_value [] k)) ks)). by rewrite IHk.
  - rewrite (map_ext _ (fun k => (k, ((if bool_decide (x = k) then 1 else 0)
                                       + count_value s k)%nat))).
    2:{ intros k. by rewrite count_value_cons. }
    rewrite (sum_counts_plus (fun k => if bool_decide (x = k) then 1%nat else 0%nat)
               (count_value s)).
    rewrite IH, sum_counts_indicator by done.
    cbn [List.filter snd]. case_bool_decide; cbn [length]; lia.
Qed.

Lemma In_dropna (s : Series Cell) iv : In iv (dropna s) <-> In iv s /\ iv.2 <> NaN.
Proof.
  unfold dropna. rewrite filter_In. destruct iv as [i [ | | | | | | ]]; cbn; intuition congruence.
Qed.

Lemma count_value_dropna s v : v <> NaN -> count_value (dropna s) v = count_value s v.
Proof.
  intros Hv. unfold count_value, dropna. induction s as [|[i x] s IH]; [done|].
  cbn [List.filter snd]. destruct (decide (x = NaN)) as [->|Hx].
  - cbn [isnull negb]. by rewrite bool_decide_eq_false_2 by congruence.
  - replace (negb (isnull x)) with true by (by destruct x).
    cbn [List.filter snd]. case_bool_decide; cbn [length]; congruence.
Qed.

Lemma count_value_pos s v : In v (map snd s) -> (1 <= count_value s v)%nat.
Proof.
  intros Hin. unfold count_value. induction s as [|[i x] s IH]; [destruct Hin|].
  cbn [List.filter snd]. case_bool_decide as Hx; cbn [length]; [lia|].
  apply IH. destruct Hin as [Hin|Hin]; [cbn in Hin; congruence|done].
Qed.

(** What [value_counts] gives on any column. *)
Lemma value_counts_of_spec s :
  Sorted more_rows (value_counts_of s) /\
  NoDup (map fst (value_counts_of s)) /\
  (forall k, In k (map fst (value_counts_of s)) <-> k <> NaN /\ In k (map snd s)) /\
  (forall k n, In (k, n) (value_counts_of s) ->
               n = count_value s k /\ (1 <= n)%nat) /\
  sum_counts (value_counts_of s) = length (dropna s).
Proof.
  unfold value_counts_of.
  set (pairs := map (fun v => (v, count_value s v)) (unique (dropna s))).
  assert (Hperm : merge_sort more_rows pairs ≡ₚ pairs) by apply merge_sort_Permutation.
  assert (Hfst : map fst pairs = unique (dropna s)).
  { unfold pairs. rewrite List.map_map. cbn. apply map_id. }
  assert (Hkeys : forall k, In k (unique (dropna s)) <-> k <> NaN /\ In k (map snd s)).
  { intros k. rewrite In_unique, !in_map_iff. split.
    - intros ([i x] & <- & Hin). apply In_dropna in Hin as [Hin Hx].
      split; [done|]. by exists (i, x).
    - intros (Hk & [i x] & <- & Hin). exists (i, x). split; [done|].
      apply In_dropna. done. }
  split; [apply Sorted_merge_sort; apply _|].
  split.
  { rewrite (Permutation_map fst Hperm), Hfst. apply NoDup_unique. }
  split.
  { intros k. rewrite <- Hkeys, <- Hfst.
    split; apply Permutation_in; [|symmetry]; apply Permutation_map, Hperm. }
  split.
  { intros k n Hin. apply (Permutation_in _ Hperm) in Hin.
    unfold pairs in Hin. apply in_map_iff in Hin as (v & [= <- <-] & Hv).
    split; [done|]. apply count_value_pos. by apply Hkeys. }
  rewrite (sum_counts_Permutation _ _ Hperm). unfold pairs.
  rewrite sum_counts_count_value by apply NoDup_unique.
  unfold dropna at 2. f_equal. apply filter_ext_in. intros [i x] Hin.
  cbn [snd]. destruct (decide (x = NaN)) as [->|Hx].
  - cbn. apply bool_decide_eq_false_2. rewrite list_elem_of_In, Hkeys. tauto.
  - transitivity true; [|by destruct x].
    apply bool_decide_eq_true_2. rewrite list_elem_of_In, Hkeys. split; [done|].
    apply in_map_iff. by exists (i, x).
Qed.

Lemma count_value_derived df c k :
  count_value (derived df (fun r => cell r c)) k = length (rows_where c k df).
Proof.
  unfold count_value, derived, rows_where.
  induction (rows df) as [|[i r] rs IH]; [done|].
  cbn [map List.filter fst snd]. case_bool_decide; cbn [length]; by rewrite IH.
Qed.

Lemma dropna_derived df c :
  length (dropna (derived df (fun r => cell r c))) = length (rows_with c df).
Proof.
  unfold dropna, derived, rows_with.
  induction (rows df) as [|[i r] rs IH]; [done|].
  cbn [map List.filter fst snd]. destruct (isnull (cell r c)); cbn [negb length]; by rewrite IH.
Qed.

Lemma In_derived_values df c k :
  In k (map snd (derived df (fun r => cell r c)))
  <-> exists i r, In (i, r) (rows df) /\ cell r c = k.
Proof.
  unfold derived. rewrite List.map_map, in_map_iff. cbn [snd]. split.
  - intros ([i r] & <- & Hin). by exists i, r.
  - intros (i & r & Hin & <-). by exists (i, r).
Qed.

Lemma filter_all {A} (p : A -> bool) (l : list A) :
  (forall x, In x l -> p x = true) -> List.filter p l = l.
Proof.
  induction l as [|x l IH]; intros Hall; [done|].
  cbn [List.filter]. rewrite (Hall x) by (by left). f_equal. apply IH.
  intros y Hy. apply Hall. by right.
Qed.

Lemma value_counts_of_column df c counts :
  counts = value_counts_of (derived df (fun r => cell r c)) ->
  Sorted more_rows counts /\
  NoDup (map fst counts) /\
  (forall k n, In (k, n) counts <->
     k <> NaN /\ n = length (rows_where c k df) /\ (1 <= n)%nat) /\
  sum_counts counts = length (rows_with c df).
Proof.
  intros ->.
  destruct (value_counts_of_spec (derived df (fun r => cell r c)))
    as (Hsorted & Hnd & Hkeys & Hn & Htotal).
  split; [done|]. split; [done|]. split.
  - intros k n. split.
    + intros Hin. destruct (Hn k n Hin) as [Hcount Hpos].
      assert (Hk : In k (map fst (value_counts_of (derived df (fun r => cell r c)))))
        by (apply in_map_iff; by exists (k, n)).
      apply Hkeys in Hk as [Hk _]. rewrite count_value_derived in Hcount. done.
    + intros (Hk & -> & Hpos).
      assert (Hin : In k (map fst (value_counts_of (derived df (fun r => cell r c))))).
      { apply Hkeys. split; [done|]. apply In_derived_values.
        unfold rows_where in Hpos.
        destruct (List.filter _ (rows df)) as [|[i r] rest] eqn:Hf; [cbn in Hpos; lia|].
        assert (Hir : In (i, r) (List.filter
                  (fun ir => bool_decide (cell ir.2 c = k)) (rows df)))
          by (rewrite Hf; by left).
        apply filter_In in Hir as [Hir Hcell]. exists i, r. split; [done|].
        by apply bool_decide_eq_true in Hcell. }
      apply in_map_iff in Hin as ([k' n] & Hk' & Hin). cbn in Hk'. subst k'.
      destruct (Hn k n Hin) as [-> _]. by rewrite count_value_derived in Hin.
  - by rewrite Htotal, dropna_derived.
Qed.

(** X11: [color_orders] and [size_orders] list each colour (size) of
    the rows once, the most frequent first, with the number of its rows,
    which is at least one; a null is not listed, and the counts add up
    to the number of rows that have a colour (size), so to the total of
    orders when none is null. *)
Theorem color_and_size_orders_count_the_rows (df : DataFrame) :
  "color" ∈ columns df -> "size" ∈ columns df ->
  exists color_orders size_orders,
    Main.color_orders df = Ok color_orders /\
    Main.size_orders df = Ok size_orders /\
    Sorted more_rows color_orders /\ Sorted more_rows size_orders /\
    NoDup (map fst color_orders) /\ NoDup (map fst size_orders) /\
    (forall k n, In (k, n) color_orders <->
       k <> NaN /\ n = length (rows_where "color" k df) /\ (1 <= n)%nat) /\
    (forall k n, In (k, n) size_orders <->
       k <> NaN /\ n = length (rows_where "size" k df) /\ (1 <= n)%nat) /\
    sum_counts color_orders = length (rows_with "color" df) /\
    sum_counts size_orders = length (rows_with "size" df) /\
    ((forall i r, In (i, r) (rows df) -> cell r "color" <> NaN) ->
     sum_counts color_orders = Main.total_orders df) /\
    ((forall i r, In (i, r) (rows df) -> cell r "size" <> NaN) ->
     sum_counts size_orders = Main.total_orders df).
Proof.
  intros Hc Hs. unfold Main.color_orders, Main.size_orders.
  rewrite (getitem_column df "color") by done.
  rewrite (getitem_column df "size") by done. rewrite !bind_Ok.
  eexists _, _. split; [reflexivity|]. split; [reflexivity|].
  destruct (value_counts_of_column df "color" _ eq_refl) as (Hs1 & Hn1 & Hk1 & Ht1).
  destruct (value_counts_of_column df "size" _ eq_refl) as (Hs2 & Hn2 & Hk2 & Ht2).
  repeat (split; [done|]).
  split; intros Hfull; [rewrite Ht1|rewrite Ht2];
    unfold rows_with, Main.total_orders; f_equal; apply filter_all;
    intros [i r] Hin; cbn [snd]; specialize (Hfull i r Hin);
    by destruct (cell r _).
Qed.

Lemma color_and_size_orders_witness :
  exists color_orders size_orders,
    Main.color_orders orders_example = Ok color_orders /\
    Main.size_orders orders_example = Ok size_orders /\
    sum_counts color_orders = 3%nat /\ sum_counts size_orders = 3%nat.
Proof.
  assert (Hc : "color" ∈ columns orders_example)
    by (apply (bool_decide_unpack _); vm_compute; exact I).
  assert (Hs : "size" ∈ columns orders_example)
    by (apply (bool_decide_unpack _); vm_compute; exact I).
  destruct (color_and_size_orders_count_the_rows orders_example Hc Hs)
    as (co & so & H1 & H2 & _ & _ & _ & _ & _ & _ & H3 & H4 & _).
  exists co, so. split; [exact H1|]. split; [exact H2|].
  split; [rewrite H3|rewrite H4]; vm_compute; reflexivity.
Defined.

(** ** The order of group keys *)

Lemma Sorted_group_keys keys : Sorted cell_le (group_keys keys).
Proof. unfold group_keys. apply Sorted_merge_sort. apply _. Qed.

(** ** Group sizes *)

Lemma groupby_size_rows df c :
  NoDup (index df) -> c ∈ columns df ->
  groupby_size df c
  = Ok (map (fun k => (k, length (rows_where c k df)))
          (group_keys (map (fun ir => cell ir.2 c) (rows df)))).
Proof.
  intros Hnd Hc. unfold groupby_size.
  rewrite getitem_column, bind_Ok by done.
  rewrite (groupby_derived df df) by done. rewrite bind_Ok.
  unfold mret, result_ret. f_equal. unfold groups.
  rewrite List.map_map. cbn [fst snd].
  replace (map fst (keyed_rows (fun r => cell r c) c df))
    with (map (fun ir : nat * gmap string Cell => cell ir.2 c) (rows df))
    by (unfold keyed_rows; by rewrite List.map_map).
  apply map_ext. intros k. f_equal.
  rewrite group_values, length_map. reflexivity.
Qed.

Lemma length_remove_dups_le {A} `{EqDecision A} (l : list A) :
  (length (remove_dups l) <= length l)%nat.
Proof.
  induction l as [|x l IH]; [done|]. cbn [remove_dups].
  destruct (decide_rel elem_of x l); cbn [length]; lia.
Qed.

Lemma length_group_keys_le keys : (length (group_keys keys) <= length keys)%nat.
Proof.
  unfold group_keys.
  rewrite (Permutation_length (merge_sort_Permutation _ _)).
  etransitivity; [apply length_remove_dups_le|]. apply List.filter_length_le.
Qed.

Lemma length_filter_derived {A} (p : A -> bool) df (g : gmap string Cell -> A) :
  length (List.filter (fun iv => p iv.2) (derived df g))
  = length (List.filter (fun ir => p (g ir.2)) (rows df)).
Proof.
  unfold derived. induction (rows df) as [|[i r] rs IH]; [done|].
  cbn [map List.filter fst snd]. destruct (p (g r)); cbn [length]; by rewrite IH.
Qed.

Lemma sum_counts_group_sizes df c :
  sum_counts (map (fun k => (k, length (rows_where c k df)))
           (group_keys (map (fun ir => cell ir.2 c) (rows df))))
  = length (rows_with c df).
Proof.
  rewrite (map_ext _ (fun k => (k, count_value (derived df (fun r => cell r c)) k)))
    by (intros k; by rewrite count_value_derived).
  rewrite sum_counts_count_value by apply NoDup_group_keys.
  pose proof (length_filter_derived
                (fun v : Cell => bool_decide (v ∈ group_keys
                                   (map (fun ir => cell ir.2 c) (rows df))))
                df (fun r => cell r c)) as Hlen.
  cbn beta in Hlen. rewrite Hlen. clear Hlen.
  unfold rows_with. f_equal. apply filter_ext_in. intros [i r] Hin. cbn [snd].
  destruct (decide (cell r c = NaN)) as [Hnull|Hval].
  - rewrite Hnull. cbn. apply bool_decide_eq_false_2.
    rewrite list_elem_of_In, In_group_keys. tauto.
  - transitivity true; [|by destruct (cell r c)].
    apply bool_decide_eq_true_2. rewrite list_elem_of_In, In_group_keys.
    split; [|done]. apply in_map_iff. by exists (i, r).
Qed.

(** X15: [df_forecast] has one entry for each distinct order date of
    the rows, in ascending order, with the number of orders of that date,
    which is at least one; orders without a date are left out, the counts
    add up to the number of dated orders, and the forecast is attempted
    only when the frame has more than 30 rows. *)
Theorem df_forecast_counts_the_orders_of_each_date (df : DataFrame) :
  NoDup (index df) -> "orderDate" ∈ columns df ->
  exists df_forecast,
    Sample02.df_forecast df = Ok df_forecast /\
    Sorted cell_le (map fst df_forecast) /\
    NoDup (map fst df_forecast) /\
    (forall k n, In (k, n) df_forecast <->
       k <> NaN /\ n = length (rows_where "orderDate" k df) /\ (1 <= n)%nat) /\
    sum_counts df_forecast = length (rows_with "orderDate" df) /\
    (Sample02.enough_data df_forecast = true -> (30 < length (rows df))%nat).
Proof.
  intros Hnd Hc. unfold Sample02.df_forecast.
  rewrite groupby_size_rows by done. eexists. split; [reflexivity|].
  set (dates := map (fun ir : nat * gmap string Cell => cell ir.2 "orderDate") (rows df)).
  assert (Hfst : map fst (map (fun k => (k, length (rows_where "orderDate" k df)))
                            (group_keys dates)) = group_keys dates).
  { rewrite List.map_map. cbn [fst]. apply map_id. }
  rewrite Hfst.
  split; [apply Sorted_group_keys|]. split; [apply NoDup_group_keys|].
  split; [|split].
  - intros k n. rewrite in_map_iff. split.
    + intros (k' & Heq & Hin). injection Heq as -> <-.
      apply In_group_keys in Hin as [Hin Hk].
      split; [done|]. split; [done|].
      apply in_map_iff in Hin as ([i r] & Hcell & Hin). cbn [snd] in Hcell.
      unfold rows_where.
      assert (Hir : In (i, r) (List.filter
                (fun ir => bool_decide (cell ir.2 "orderDate" = k)) (rows df))).
      { apply filter_In. split; [done|]. by apply bool_decide_eq_true_2. }
      destruct (List.filter _ (rows df)); [destruct Hir|cbn [length]; lia].
    + intros (Hk & -> & Hpos). exists k. split; [done|].
      apply In_group_keys. split; [|done]. unfold rows_where in Hpos.
      destruct (List.filter _ (rows df)) as [|[i r] rest] eqn:Hf; [cbn in Hpos; lia|].
      assert (Hir : In (i, r) (List.filter
                (fun ir => bool_decide (cell ir.2 "orderDate" = k)) (rows df)))
        by (rewrite Hf; by left).
      apply filter_In in Hir as [Hir Hcell]. apply bool_decide_eq_true in Hcell.
      apply in_map_iff. by exists (i, r).
  - apply sum_counts_group_sizes.
  - unfold Sample02.enough_data. intros Hlen. apply Nat.ltb_lt in Hlen.
    rewrite length_map in Hlen.
    pose proof (length_group_keys_le dates) as Hle.
    unfold dates in Hle at 2. rewrite length_map in Hle. lia.
Qed.

Lemma df_forecast_witness :
  exists df_forecast,
    Sample02.df_forecast deliveries_example = Ok df_forecast /\
    sum_counts df_forecast = 4%nat /\
    Sample02.enough_data df_forecast = false.
Proof.
  assert (Hnd : NoDup (index deliveries_example))
    by (apply (bool_decide_unpack _); vm_compute; exact I).
  assert (Hc : "orderDate" ∈ columns deliveries_example)
    by (apply (bool_decide_unpack _); vm_compute; exact I).
  destruct (df_forecast_counts_the_orders_of_each_date deliveries_example Hnd Hc)
    as (fc & H1 & _ & _ & _ & H2 & H3).
  exists fc. split; [exact H1|]. split; [rewrite H2; vm_compute; reflexivity|].
  destruct (Sample02.enough_data fc); [|reflexivity].
  specialize (H3 eq_refl). vm_compute in H3. lia.
Defined.

(** ** The order of strings *)

Lemma ascii_compare_refl a : Ascii.compare a a = Eq.
Proof. unfold Ascii.compare. apply N.compare_refl. Qed.

Lemma string_compare_refl s : String.compare s s = Eq.
Proof. induction s as [|a s IH]; [done|]. cbn. by rewrite ascii_compare_refl. Qed.

Lemma string_leb_refl s : String.leb s s = true.
Proof. by destruct (String.leb_total s s). Qed.

Lemma string_compare_Lt_trans s1 s2 s3 :
  String.compare s1 s2 = Lt -> String.compare s2 s3 = Lt -> String.compare s1 s3 = Lt.
Proof.
  revert s2 s3. induction s1 as [|a1 s1 IH]; intros [|a2 s2] [|a3 s3]; cbn; try done.
  unfold Ascii.compare.
  destruct (N.compare_spec (N_of_ascii a1) (N_of_ascii a2)) as [H12|H12|H12];
    destruct (N.compare_spec (N_of_ascii a2) (N_of_ascii a3)) as [H23|H23|H23];
    try done; intros Hc1 Hc2.
  - rewrite H12, H23, N.compare_refl. by apply (IH s2).
  - rewrite H12. by apply N.compare_lt_iff in H23 as ->.
  - rewrite <- H23. by apply N.compare_lt_iff in H12 as ->.
  - assert (H13 : (N_of_ascii a1 < N_of_ascii a3)%N) by lia.
    by apply N.compare_lt_iff in H13 as ->.
Qed.

Lemma string_leb_trans s1 s2 s3 :
  String.leb s1 s2 = true -> String.leb s2 s3 = true -> String.leb s1 s3 = true.
Proof.
  unfold String.leb.
  destruct (String.compare s1 s2) eqn:H12; try done;
    destruct (String.compare s2 s3) eqn:H23; try done; intros _ _.
  - apply String.compare_eq_iff in H12, H23. subst.
    by rewrite string_compare_refl.
  - apply String.compare_eq_iff in H12. subst. by rewrite H23.
  - apply String.compare_eq_iff in H23. subst. by rewrite H12.
  - by rewrite (string_compare_Lt_trans s1 s2 s3).
Qed.

(** ** The selections of the sidebar *)

Lemma isin_unique_column df c i r :
  In (i, r) (rows df) -> isin (unique (derived df (fun r => cell r c))) (cell r c) = true.
Proof.
  intros Hin. apply isin_In, In_unique, In_derived_values. by exists i, r.
Qed.

Lemma sample02_df_filtered_rows df states months colors sizes :
  NoDup (index df) -> filter_columns_present (columns df) ->
  Sample02.df_filtered df states months colors sizes
  = Ok (filter_rows (selected states months colors sizes) df).
Proof. exact (df_filtered_rows df states months colors sizes). Qed.

Lemma filter_rows_all p df :
  (forall i r, In (i, r) (rows df) -> p r = true) -> filter_rows p df = df.
Proof.
  intros Hall. destruct df as [cols rs]. unfold filter_rows. cbn [columns rows] in *.
  f_equal. apply filter_all. intros [i r] Hin. by apply (Hall i).
Qed.

(** X7: with the selections that [Sample02.py] starts with (every
    state, month, colour and size of the frame) the filter keeps the
    whole frame. *)
Theorem sample02_default_selection_keeps_every_row (df : DataFrame) :
  NoDup (index df) -> filter_columns_present (columns df) ->
  Sample02.df_filtered_default df = Ok df.
Proof.
  intros Hnd Hcols. pose proof Hcols as (Hs & Hm & Hc & Hz).
  unfold Sample02.df_filtered_default.
  rewrite (getitem_column df "state") by done. rewrite bind_Ok.
  rewrite (getitem_column df "order_year_month") by done. rewrite bind_Ok.
  rewrite (getitem_column df "color") by done. rewrite bind_Ok.
  rewrite (getitem_column df "size") by done. rewrite bind_Ok.
  rewrite sample02_df_filtered_rows by done. f_equal.
  apply filter_rows_all. intros i r Hin. unfold selected.
  by rewrite !(isin_unique_column df _ i r Hin).
Qed.

Lemma sample02_default_selection_witness :
  Sample02.df_filtered_default orders_example = Ok orders_example.
Proof.
  apply sample02_default_selection_keeps_every_row.
  - apply (bool_decide_unpack _). vm_compute. exact I.
  - unfold filter_columns_present. cbn [orders_example columns].
    repeat split; apply (bool_decide_unpack _); vm_compute; exact I.
Defined.

Lemma fold_larger_strings l acc :
  (forall x, In x l -> exists s, x = Str s) ->
  (acc = NaN \/ exists s, acc = Str s) ->
  (fold_left larger l acc = acc \/ In (fold_left larger l acc) l) /\
  (forall x, In x l -> cell_leb x (fold_left larger l acc) = true) /\
  (acc <> NaN -> cell_leb acc (fold_left larger l acc) = true).
Proof.
  revert acc. induction l as [|x l IH]; intros acc Hl Hacc.
  - cbn [fold_left]. split; [by left|]. split; [by intros x []|].
    intros Hne. destruct Hacc as [->|[s ->]]; [done|]. apply string_leb_refl.
  - cbn [fold_left]. destruct (Hl x) as [s ->]; [by left|].
    assert (Hl' : forall y, In y l -> exists s, y = Str s)
      by (intros y Hy; apply Hl; by right).
    assert (Hstep : exists m, larger acc (Str s) = Str m /\
                      String.leb s m = true /\
                      (larger acc (Str s) = Str s \/ larger acc (Str s) = acc) /\
                      (forall a, acc = Str a -> String.leb a m = true)).
    { destruct Hacc as [->|[a ->]].
      - exists s. cbn. split; [done|]. split; [apply string_leb_refl|].
        split; [by left|]. done.
      - unfold larger. cbn [isnull cell_leb].
        destruct (String.leb a s) eqn:Has.
        + exists s. split; [done|]. split; [apply string_leb_refl|].
          split; [by left|]. by intros ? [= <-].
        + exists a. split; [done|].
          split; [by destruct (String.leb_total a s) as [?|?]; [congruence|]|].
          split; [by right|]. intros ? [= <-]. apply string_leb_refl. }
    destruct Hstep as (m & Hm & Hsm & Hwhich & Haccm).
    destruct (IH (larger acc (Str s)) Hl') as (Hin & Hall & Hacc').
    { right. by exists m. }
    rewrite Hm in *.
    assert (Hmr : cell_leb (Str m) (fold_left larger l (Str m)) = true)
      by (by apply Hacc').
    split; [|split].
    + destruct Hin as [Hin|Hin]; [|right; by right].
      rewrite Hin. destruct Hwhich as [Hw|Hw]; [right; left; congruence|left; congruence].
    + intros y [<-|Hy]; [|by apply Hall].
      destruct (fold_left larger l (Str m)) as [|t| | | | |] eqn:Hr; try done.
      cbn [cell_leb] in *. by apply (string_leb_trans s m t).
    + intros Hne. destruct Hacc as [->|[a ->]]; [done|].
      destruct (fold_left larger l (Str m)) as [|t| | | | |] eqn:Hr; try done.
      cbn [cell_leb] in *. apply (string_leb_trans a m t); [by apply Haccm|done].
Qed.

(** The greatest value of a column of strings. *)
Lemma smax_strings df c :
  strings_in c df -> rows df <> [] ->
  exists latest,
    smax (derived df (fun r => cell r c)) = Str latest /\
    (exists i r, In (i, r) (rows df) /\ cell r c = Str latest) /\
    (forall i r s, In (i, r) (rows df) -> cell r c = Str s ->
                   String.leb s latest = true).
Proof.
  intros Hstr Hne. unfold smax.
  destruct (fold_larger_strings (map snd (derived df (fun r => cell r c))) NaN)
    as (Hin & Hall & _).
  - intros x Hx. apply In_derived_values in Hx as (i & r & Hir & <-). by apply (Hstr i).
  - by left.
  - assert (Hmem : In (fold_left larger (map snd (derived df (fun r => cell r c))) NaN)
                      (map snd (derived df (fun r => cell r c)))).
    { destruct Hin as [Hnull|Hin]; [|done].
      destruct (rows df) as [|[i r] rs] eqn:Hrows; [done|].
      specialize (Hall (cell r c)). rewrite Hnull in Hall.
      destruct (Hstr i r) as [s Hs]; [rewrite Hrows; by left|].
      rewrite Hs in Hall. cbn in Hall. exfalso.
      assert (In (Str s) (map snd (derived df (fun r => cell r c)))).
      { apply In_derived_values. exists i, r. rewrite Hrows. split; [by left|done]. }
      by specialize (Hall H). }
    destruct (proj1 (In_derived_values _ _ _) Hmem) as (i & r & Hir & Hcell).
    destruct (Hstr i r Hir) as [latest Hlatest].
    exists latest. split; [congruence|]. split; [by exists i, r|].
    intros j r' s Hj Hs.
    specialize (Hall (Str s)). rewrite <- Hcell, Hlatest in Hall. apply Hall.
    apply In_derived_values. by exists j, r'.
Qed.

Lemma main_df_filtered_default_rows df :
  NoDup (index df) -> filter_columns_present (columns df) ->
  Main.df_filtered_default df
  = Ok {| columns := columns df;
          rows := rows_where "order_year_month"
                    (smax (derived df (fun r => cell r "order_year_month"))) df |}.
Proof.
  intros Hnd Hcols. pose proof Hcols as (Hs & Hm & Hc & Hz).
  unfold Main.df_filtered_default, Main.default_states, Main.default_months,
    Main.default_colors, Main.default_sizes.
  rewrite (getitem_column df "state") by done. rewrite !bind_Ok.
  rewrite (getitem_column df "order_year_month") by done. rewrite !bind_Ok.
  rewrite (getitem_column df "color") by done. rewrite !bind_Ok.
  rewrite (getitem_column df "size") by done. rewrite !bind_Ok.
  rewrite df_filtered_rows by done. f_equal. unfold filter_rows, rows_where. f_equal.
  apply filter_ext_in. intros [i r] Hin. cbn [snd]. unfold selected.
  rewrite !(isin_unique_column df _ i r Hin). cbn [andb]. rewrite !andb_true_r.
  unfold isin. apply bool_decide_ext. rewrite list_elem_of_singleton. done.
Qed.

(** X8: with the selections that [main.py] starts with, the filter
    keeps exactly the rows of one month, the greatest [order_year_month]
    of the frame in the order of strings; the first view is empty only
    when the frame is. *)
Theorem main_default_selection_is_the_greatest_month (df : DataFrame) :
  NoDup (index df) -> filter_columns_present (columns df) ->
  strings_in "order_year_month" df ->
  exists view,
    Main.df_filtered_default df = Ok view /\
    columns view = columns df /\
    (rows df = [] -> rows view = []) /\
    (rows df <> [] ->
     exists latest,
       Main.default_months df = Ok [Str latest] /\
       rows view = rows_where "order_year_month" (Str latest) df /\
       rows view <> [] /\
       forall i r s, In (i, r) (rows df) -> cell r "order_year_month" = Str s ->
                     String.leb s latest = true).
Proof.
  intros Hnd Hcols Hstr. rewrite main_df_filtered_default_rows by done.
  eexists. split; [reflexivity|]. cbn [columns rows]. split; [done|]. split.
  - intros Hrows. unfold rows_where. by rewrite Hrows.
  - intros Hne. destruct (smax_strings df "order_year_month" Hstr Hne)
      as (latest & Hmax & (i & r & Hin & Hcell) & Hle).
    exists latest. rewrite Hmax. split; [|split; [done|split; [|done]]].
    + unfold Main.default_months. destruct Hcols as (_ & Hm & _).
      rewrite getitem_column, bind_Ok by done. by rewrite Hmax.
    + unfold rows_where. intros Hnil.
      assert (Hir : In (i, r) (List.filter
                (fun ir => bool_decide (cell ir.2 "order_year_month" = Str latest))
                (rows df))).
      { apply filter_In. split; [done|]. by apply bool_decide_eq_true_2. }
      by rewrite Hnil in Hir.
Qed.

Lemma main_default_selection_witness :
  exists view,
    Main.df_filtered_default orders_example = Ok view /\
    columns view = columns orders_example.
Proof.
  assert (Hnd : NoDup (index orders_example))
    by (apply (bool_decide_unpack _); vm_compute; exact I).
  assert (Hcols : filter_columns_present (columns orders_example)).
  { unfold filter_columns_present. cbn [orders_example columns].
    repeat split; apply (bool_decide_unpack _); vm_compute; exact I. }
  assert (Hstr : strings_in "order_year_month" orders_example).
  { intros i r [Heq|[Heq|[Heq|[]]]]; injection Heq as <- <-;
      exists "2024-01"; vm_compute; reflexivity. }
  destruct (main_default_selection_is_the_greatest_month orders_example Hnd Hcols Hstr)
    as (view & H1 & H2 & _).
  exists view. split; [exact H1|exact H2].
Defined.

(** ** The month of a loaded order *)

Lemma digit_char_before_N n :
  0 <= n <= 9 -> Ascii.compare (digit_char n) "N" = Lt.
Proof.
  intros Hn. rewrite <- (Z2Nat.id n) by lia.
  assert (Hk : (Z.to_nat n < 10)%nat) by lia.
  revert Hk. generalize (Z.to_nat n) as k. intros k Hk.
  do 10 (destruct k as [|k]; [by vm_compute|]). lia.
Qed.

Lemma year_month_before_NaT d :
  valid_date d = true ->
  String.leb (year_month d) "NaT" = true /\ year_month d <> "NaT"%string.
Proof.
  intros Hv. apply valid_date_bounds in Hv as (Hy & _ & _).
  assert (Hc : Ascii.compare (digit_char (year d / 1000)) "N" = Lt).
  { apply digit_char_before_N. Z.div_mod_to_equations. lia. }
  unfold year_month, four_digits. cbv [String.append]. split.
  - unfold String.leb. cbn [String.compare]. by rewrite Hc.
  - discriminate.
Qed.

Lemma strptime_dmy_valid s d : strptime_dmy s = Some d -> valid_date d = true.
Proof.
  unfold strptime_dmy.
  destruct (split_dash s) as [|fd [|fm [|fy [|? ?]]]]; try done.
  destruct (directive_dm fd), (directive_dm fm), (directive_Y fy); try done.
  unfold checked. destruct (valid_date _) eqn:Hv; [|done]. by intros [= <-].
Qed.

Lemma strptime_ymd_valid s d : strptime_ymd s = Some d -> valid_date d = true.
Proof.
  unfold strptime_ymd.
  destruct (split_dash s) as [|fy [|fm [|fd [|? ?]]]]; try done.
  destruct (directive_Y fy), (directive_dm fm), (directive_dm fd); try done.
  unfold checked. destruct (valid_date _) eqn:Hv; [|done]. by intros [= <-].
Qed.

(** A date parsed from a cell of the file is a calendar date. *)
Lemma to_datetime_valid parse c d :
  (forall s d, parse s = Some d -> valid_date d = true) ->
  csv_value c = true -> to_datetime parse c = Date d -> valid_date d = true.
Proof.
  intros Hparse Hcsv. destruct c as [|s| | | | |]; try done. cbn.
  destruct (parse s) as [d'|] eqn:Hs; [|done]. intros [= <-]. by apply (Hparse s).
Qed.

Lemma NoDup_index_loaded (f : gmap string Cell -> gmap string Cell)
    (records : list (gmap string Cell)) :
  NoDup (map fst (imap (fun i r => (i, f r)) records)).
Proof.
  change (map fst ?l) with (fst <$> l).
  rewrite fmap_imap. rewrite (imap_ext _ (fun i _ => i)) by done.
  rewrite imap_seq_0, list_fmap_id. apply NoDup_seq.
Qed.

Lemma In_imap_record (f : gmap string Cell -> gmap string Cell)
    (records : list (gmap string Cell)) (i : nat) r :
  records !! i = Some r -> In (i, f r) (imap (fun i r => (i, f r)) records).
Proof.
  intros Hr. apply list_elem_of_In, (list_elem_of_lookup_2 _ i).
  by rewrite list_lookup_imap, Hr.
Qed.

Lemma filter_columns_loaded header :
  "state" ∈ header -> "color" ∈ header -> "size" ∈ header ->
  filter_columns_present (main_columns header).
Proof.
  intros Hs Hc Hz. unfold filter_columns_present, main_columns.
  rewrite !elem_of_add_column. tauto.
Qed.

(** X9: when the order date of some record of the file is not read,
    the month that [main.py] selects at first is "NaT", and the first
    view holds exactly the orders without a date. *)
Theorem main_opens_on_the_orders_without_a_date
    (infer_datetime : Cell -> option Timestamp) (w : World)
    (header : list string) (records : list (gmap string Cell)) :
  fs w !! "orders_dataset.csv" = Some (Csv header records) ->
  date_columns_present header ->
  "state" ∈ header -> "color" ∈ header -> "size" ∈ header ->
  (forall (i : nat) r, records !! i = Some r ->
                       csv_value (cell r "orderDate") = true) ->
  (exists (i : nat) r, records !! i = Some r /\
                       to_datetime strptime_dmy (cell r "orderDate") = NaN) ->
  exists df view,
    Main.load_data_try infer_datetime w = Ok df /\
    Main.default_months df = Ok [Str "NaT"] /\
    Main.df_filtered_default df = Ok view /\
    forall i r, In (i, r) (rows view) <->
                In (i, r) (rows df) /\ cell r "orderDate" = NaN.
Proof.
  intros Hfile Hdates Hs Hc Hz Hcsv (i0 & r0 & Hr0 & Hnull).
  rewrite (main_load_data_try_ok _ _ _ _ Hfile Hdates).
  set (df := {| columns := main_columns header;
                rows := imap (fun i r =>
                          (i, main_load_row infer_datetime (now w) header r))
                          records |}).
  assert (Hnd : NoDup (index df)) by apply NoDup_index_loaded.
  assert (Hcols : filter_columns_present (columns df))
    by (by apply filter_columns_loaded).
  assert (Hmonth : forall i r, In (i, r) (rows df) ->
            (cell r "orderDate" = NaN /\ cell r "order_year_month" = Str "NaT") \/
            (exists d, cell r "orderDate" = Date d /\ valid_date d = true /\
                       cell r "order_year_month" = Str (year_month d))).
  { intros i r Hin. apply In_imap_rows in Hin as (r1 & Hr1 & ->).
    rewrite main_row_order_year_month, main_row_orderDate.
    destruct (to_datetime_date_or_null strptime_dmy (cell r1 "orderDate"))
      as [Hd|[d Hd]]; rewrite Hd.
    - by left.
    - right. exists d. split; [done|]. split; [|done].
      apply (to_datetime_valid strptime_dmy (cell r1 "orderDate"));
        [apply strptime_dmy_valid|by apply (Hcsv i)|done]. }
  assert (Hstr : strings_in "order_year_month" df).
  { intros i r Hin. destruct (Hmonth i r Hin) as [[_ Hm]|(d & _ & _ & Hm)]; eauto. }
  assert (Hne : rows df <> []).
  { intros Hnil. pose proof (In_imap_record (main_load_row infer_datetime (now w) header)
                               records i0 r0 Hr0) as Hin.
    change (In (i0, main_load_row infer_datetime (now w) header r0) (rows df)) in Hin.
    by rewrite Hnil in Hin. }
  destruct (smax_strings df "order_year_month" Hstr Hne)
    as (latest & Hmax & (i & r & Hin & Hcell) & Hle).
  assert (Hlatest : latest = "NaT"%string).
  { apply String.leb_antisym.
    - destruct (Hmonth i r Hin) as [[_ Hm]|(d & _ & Hv & Hm)];
        rewrite Hm in Hcell; injection Hcell as <-.
      + apply string_leb_refl.
      + by apply year_month_before_NaT.
    - apply (Hle i0 (main_load_row infer_datetime (now w) header r0)).
      + by apply (In_imap_record (main_load_row infer_datetime (now w) header)).
      + by rewrite main_row_order_year_month, main_row_orderDate, Hnull. }
  subst latest. exists df. eexists. split; [reflexivity|]. split; [|split].
  - unfold Main.default_months. destruct Hcols as (_ & Hm & _).
    rewrite getitem_column, bind_Ok by done. by rewrite Hmax.
  - by apply main_df_filtered_default_rows.
  - intros j r'. cbn [rows]. rewrite Hmax. unfold rows_where.
    rewrite filter_In. cbn [snd]. rewrite bool_decide_eq_true.
    split; intros [Hj Hm]; (split; [done|]);
      destruct (Hmonth j r' Hj) as [[Ho Hm']|(d & Ho & Hv & Hm')]; try done.
    + rewrite Hm' in Hm. injection Hm as Hm.
      by apply year_month_before_NaT in Hv as [_ Hv].
    + congruence.
Qed.

Lemma main_opens_on_the_orders_without_a_date_witness :
  exists df view,
    Main.load_data_try (fun _ => None) two_orders_world = Ok df /\
    Main.default_months df = Ok [Str "NaT"] /\
    Main.df_filtered_default df = Ok view.
Proof.
  assert (Hfile : fs two_orders_world !! "orders_dataset.csv"
                  = Some (Csv two_orders_header two_orders_records))
    by reflexivity.
  assert (Hdates : date_columns_present two_orders_header)
    by (apply (bool_decide_unpack _); vm_compute; exact I).
  assert (Hs : "state" ∈ two_orders_header)
    by (apply (bool_decide_unpack _); vm_compute; exact I).
  assert (Hc : "color" ∈ two_orders_header)
    by (apply (bool_decide_unpack _); vm_compute; exact I).
  assert (Hz : "size" ∈ two_orders_header)
    by (apply (bool_decide_unpack _); vm_compute; exact I).
  assert (Hcsv : forall (i : nat) r, two_orders_records !! i = Some r ->
                                     csv_value (cell r "orderDate") = true).
  { intros [|[|i]] r Hr; cbn in Hr; [| |discriminate];
      injection Hr as <-; vm_compute; reflexivity. }
  assert (Hnull : exists (i : nat) r, two_orders_records !! i = Some r /\
                    to_datetime strptime_dmy (cell r "orderDate") = NaN).
  { exists 1%nat. eexists. split; [reflexivity|]. vm_compute. reflexivity. }
  destruct (main_opens_on_the_orders_without_a_date (fun _ => None) two_orders_world
              two_orders_header two_orders_records Hfile Hdates Hs Hc Hz Hcsv Hnull)
    as (df & view & H1 & H2 & H3 & _).
  exists df, view. split; [exact H1|]. split; [exact H2|exact H3].
Defined.

(** ** The colours, sizes and states of loaded records *)

(** X3: [load_data] of [main.py] replaces a missing colour, size or
    state by "Unknown" and leaves the other ones as they are, so that no
    such cell is null after the load; a column of the three that the
    file does not have is not added. *)
Theorem main_load_fills_color_size_and_state
    (infer_datetime : Cell -> option Timestamp) (w : World)
    (header : list string) (records : list (gmap string Cell)) :
  fs w !! "orders_dataset.csv" = Some (Csv header records) ->
  date_columns_present header ->
  exists df,
    Main.load_data_try infer_datetime w = Ok df /\
    forall c, c = "color"%string \/ c = "size"%string \/ c = "state"%string ->
      (c ∈ columns df <-> c ∈ header) /\
      forall (i : nat) r, records !! i = Some r ->
        exists r',
          rows df !! i = Some (i, r') /\
          (c ∈ header ->
           cell r' c = fillna (Str "Unknown") (cell r c) /\ cell r' c <> NaN) /\
          (c ∉ header -> cell r' c = cell r c).
Proof.
  intros Hfile Hdates. rewrite (main_load_data_try_ok _ _ _ _ Hfile Hdates).
  eexists. split; [reflexivity|]. cbn [columns rows]. intros c Hc. split.
  - unfold main_columns. rewrite !elem_of_add_column.
    split; [|tauto]. intros [-> | [-> | [-> | ?]]]; [| | |done];
      destruct Hc as [?|[?|?]]; discriminate.
  - intros i r Hr. eexists. rewrite list_lookup_imap, Hr. split; [reflexivity|].
    assert (Hcell : cell (main_load_row infer_datetime (now w) header r) c
                    = if bool_decide (c ∈ header)
                      then fillna (Str "Unknown") (cell r c) else cell r c).
    { unfold main_load_row. destruct Hc as [-> | [-> | ->]].
      - rewrite !cell_fill_row_ne by discriminate.
        rewrite (cell_fill_row_eq header ("color", Str "Unknown")). cbn [fst snd].
        by rewrite !cell_set_cell_ne by discriminate.
      - rewrite cell_fill_row_ne by discriminate.
        rewrite (cell_fill_row_eq header ("size", Str "Unknown")). cbn [fst snd].
        rewrite cell_fill_row_ne by discriminate.
        by rewrite !cell_set_cell_ne by discriminate.
      - rewrite (cell_fill_row_eq header ("state", Str "Unknown")). cbn [fst snd].
        rewrite !cell_fill_row_ne by discriminate.
        by rewrite !cell_set_cell_ne by discriminate. }
    rewrite Hcell. split.
    + intros Hin. rewrite bool_decide_eq_true_2 by done. split; [done|].
      unfold fillna. by destruct (cell r c).
    + intros Hout. by rewrite bool_decide_eq_false_2.
Qed.

Lemma main_load_fills_witness :
  exists df r',
    Main.load_data_try (fun _ => None) two_orders_world = Ok df /\
    rows df !! 1%nat = Some (1%nat, r') /\
    cell r' "color" = Str "Unknown".
Proof.
  assert (Hfile : fs two_orders_world !! "orders_dataset.csv"
                  = Some (Csv two_orders_header two_orders_records))
    by reflexivity.
  assert (Hdates : date_columns_present two_orders_header)
    by (apply (bool_decide_unpack _); vm_compute; exact I).
  destruct (main_load_fills_color_size_and_state (fun _ => None) two_orders_world
              two_orders_header two_orders_records Hfile Hdates) as (df & Hdf & Hfill).
  destruct (Hfill "color"%string (or_introl eq_refl)) as [_ Hrow].
  destruct (Hrow 1%nat _ eq_refl) as (r' & Hr' & Hin & _).
  exists df, r'. split; [exact Hdf|]. split; [exact Hr'|].
  destruct Hin as [Hcell _].
  - apply (bool_decide_unpack _). vm_compute. exact I.
  - rewrite Hcell. vm_compute. reflexivity.
Defined.

(** ** What [load_data] of [Sample02.py] does to one record *)

Lemma main_load_row_dated infer_datetime today header r :
  main_load_row infer_datetime today header r
  = fill_row header ("state", Str "Unknown")
      (fill_row header ("size", Str "Unknown")
         (fill_row header ("color", Str "Unknown")
            (set_cell "customer_age"
               (fun r => calculate_age today (cell r "dateOfBirth"))
               (dated_row infer_datetime r)))).
Proof. reflexivity. Qed.

Lemma apply_derived f df (g : gmap string Cell -> Cell) (h : gmap string Cell -> Cell) :
  (forall i r, In (i, r) (rows df) -> f (g r) = Ok (h r)) ->
  Sample02.apply f (derived df g) = Ok (derived df h).
Proof.
  unfold derived. induction (rows df) as [|[i r] rs IH]; intros Hall; [done|].
  cbn [map Sample02.apply fst snd]. rewrite (Hall i r) by (by left). rewrite bind_Ok.
  rewrite IH by (intros j r' Hj; apply (Hall j); by right). by rewrite bind_Ok.
Qed.

Lemma sample02_customer_age today c :
  date_or_null c -> Sample02.customer_age today c = Ok (year_difference today c).
Proof. by intros [->|[d ->]]. Qed.

Lemma dated_row_dateOfBirth infer_datetime r :
  cell (dated_row infer_datetime r) "dateOfBirth"
  = to_datetime_infer infer_datetime (cell r "dateOfBirth").
Proof.
  unfold dated_row.
  rewrite !cell_set_cell_ne by discriminate. rewrite cell_set_cell_eq.
  by rewrite !cell_set_cell_ne by discriminate.
Qed.

Lemma sample02_load_data_body_ok infer_datetime w header records :
  fs w !! "orders_dataset.csv" = Some (Csv header records) ->
  date_columns_present header ->
  Sample02.load_data_body infer_datetime w
  = Ok {| columns := main_columns header;
          rows := imap (fun i r =>
                          (i, sample02_load_row infer_datetime (now w) header r))
                       records |}.
Proof.
  intros Hfile (Ho & Hd & Hb & Hc).
  unfold Sample02.load_data_body, read_csv. rewrite Hfile, bind_Ok.
  set (df0 := {| columns := header;
                 rows := imap (fun i r => (i, r)) records |}).
  assert (Hnd : NoDup (index df0)) by apply NoDup_index_imap.
  assert (Hcols : columns df0 = header) by reflexivity.
  do 6 load_step.
  rewrite getitem_column by frame_cols. rewrite bind_Ok.
  clear Hnd Hcols. subst df0.
  rewrite (assign_imap "orderDate" _ header (fun r => r)).
  rewrite !assign_imap.
  rewrite (add_column_present "orderDate" header Ho).
  rewrite (add_column_present "deliveryDate" header Hd).
  rewrite (add_column_present "dateOfBirth" header Hb).
  rewrite (add_column_present "creationDate" header Hc).
  fold (dated_row infer_datetime).
  set (df6 := {| columns := add_column "delivery_delay"
                              (add_column "order_year_month" header);
                 rows := imap (fun i r => (i, dated_row infer_datetime r)) records |}).
  rewrite (apply_derived _ df6 _
             (fun r => year_difference (now w) (cell r "dateOfBirth"))).
  2:{ intros i r Hin. apply In_imap_rows in Hin as (r1 & _ & ->).
      apply sample02_customer_age. rewrite dated_row_dateOfBirth.
      apply to_datetime_infer_date_or_null. }
  rewrite bind_Ok.
  assert (Hnd : NoDup (index df6)) by apply NoDup_index_loaded.
  rewrite setitem_derived by done. rewrite bind_Ok.
  rewrite fillna_dict_fill_columns by (by rewrite index_assign).
  unfold mret, result_ret. f_equal. cbn [fold_left]. subst df6.
  rewrite !assign_imap, !fill_column_imap.
  fold (main_columns header). f_equal.
  apply imap_ext. intros i r _. f_equal.
  unfold sample02_load_row.
  rewrite !(fill_row_columns (main_columns header) header); [reflexivity|..];
    unfold main_columns; rewrite !elem_of_add_column; cbn [fst];
    (split; [intros [?|[?|[?|?]]]; [discriminate..|done] | tauto]).
Qed.

Lemma fill_row_agree header cv (a b : gmap string Cell) c0 :
  cv.1 <> c0 ->
  (forall c, c <> c0 -> cell a c = cell b c) ->
  forall c, c <> c0 -> cell (fill_row header cv a) c = cell (fill_row header cv b) c.
Proof.
  intros Hcv Hagree c Hc. unfold fill_row. case_bool_decide; [|by apply Hagree].
  rewrite !cell_insert. destruct (decide (cv.1 = c)); [|by apply Hagree].
  by rewrite (Hagree cv.1).
Qed.



(** X5: [Sample02.py] loads every record as [main.py] does, except for
    the age: a missing birth date gives no age in both, and for a birth
    date [Sample02.py] gives the difference of the years where [main.py]
    takes one off before the birthday. *)
Theorem sample02_loads_what_main_loads_but_the_age
    (infer_datetime : Cell -> option Timestamp) (w : World)
    (header : list string) (records : list (gmap string Cell)) :
  fs w !! "orders_dataset.csv" = Some (Csv header records) ->
  date_columns_present header ->
  exists df df2,
    Main.load_data_try infer_datetime w = Ok df /\
    Sample02.load_data_body infer_datetime w = Ok df2 /\
    columns df2 = columns df /\
    forall (i : nat) r, records !! i = Some r ->
      exists r1 r2,
        rows df !! i = Some (i, r1) /\
        rows df2 !! i = Some (i, r2) /\
        (forall c, c <> "customer_age"%string -> cell r2 c = cell r1 c) /\
        (cell r1 "dateOfBirth" = NaN ->
         cell r1 "customer_age" = NaN /\ cell r2 "customer_age" = NaN) /\
        (forall b, cell r1 "dateOfBirth" = Date b ->
           cell r2 "customer_age" = Int (year (now w) - year b) /\
           cell r1 "customer_age"
           = Int (year (now w) - year b -
                  (if tuple_ltb (month (now w), day (now w)) (month b, day b)
                   then 1 else 0))).
Proof.
  intros Hfile Hdates.
  rewrite (main_load_data_try_ok _ _ _ _ Hfile Hdates).
  rewrite (sample02_load_data_body_ok _ _ _ _ Hfile Hdates).
  eexists _, _. split; [reflexivity|]. split; [reflexivity|]. split; [reflexivity|].
  cbn [rows]. intros i r Hr. eexists _, _. rewrite !list_lookup_imap, Hr.
  split; [reflexivity|]. split; [reflexivity|].
  assert (Hdob : forall today, cell (main_load_row infer_datetime today header r)
                                 "dateOfBirth"
                               = cell (dated_row infer_datetime r) "dateOfBirth").
  { intros today. by rewrite main_row_dateOfBirth, dated_row_dateOfBirth. }
  assert (Hage1 : cell (main_load_row infer_datetime (now w) header r) "customer_age"
                  = calculate_age (now w)
                      (cell (dated_row infer_datetime r) "dateOfBirth")).
  { by rewrite main_row_customer_age, Hdob. }
  assert (Hage2 : cell (sample02_load_row infer_datetime (now w) header r)
                    "customer_age"
                  = year_difference (now w)
                      (cell (dated_row infer_datetime r) "dateOfBirth")).
  { unfold sample02_load_row. rewrite !cell_fill_row_ne by discriminate.
    by rewrite cell_set_cell_eq. }
  split; [|split].
  - rewrite main_load_row_dated. unfold sample02_load_row.
    do 3 (apply fill_row_agree; [discriminate|]).
    intros c Hc. by rewrite !cell_set_cell_ne by done.
  - rewrite Hage1, Hage2, Hdob. by intros ->.
  - intros b. rewrite Hage1, Hage2, Hdob. by intros ->.
Qed.

Lemma sample02_loads_witness :
  exists df df2,
    Main.load_data_try (fun _ => None) two_orders_world = Ok df /\
    Sample02.load_data_body (fun _ => None) two_orders_world = Ok df2 /\
    columns df2 = columns df.
Proof.
  assert (Hfile : fs two_orders_world !! "orders_dataset.csv"
                  = Some (Csv two_orders_header two_orders_records))
    by reflexivity.
  assert (Hdates : date_columns_present two_orders_header)
    by (apply (bool_decide_unpack _); vm_compute; exact I).
  destruct (sample02_loads_what_main_loads_but_the_age
              (fun _ => None) two_orders_world
              two_orders_header two_orders_records Hfile Hdates)
    as (df & df2 & Hdf & Hdf2 & Hcols & _).
  exists df, df2. split; [exact Hdf|]. split; [exact Hdf2|exact Hcols].
Defined.

(** ** The delivery delay in the three scripts *)





(** ** The rows of the prediction model *)

Lemma check_columns_present cols df :
  (forall c, In c cols -> c ∈ columns df) -> check_columns cols df = Ok tt.
Proof.
  induction cols as [|c cols IH]; intros Hall; [done|].
  cbn [check_columns]. rewrite getitem_column by (apply Hall; by left).
  rewrite bind_Ok. apply IH. intros c' Hc'. apply Hall. by right.
Qed.

Lemma dropna_subset_rows cols df :
  (forall c, In c cols -> c ∈ columns df) ->
  dropna_subset cols df
  = Ok (filter_rows (fun r => forallb (fun c => negb (isnull (cell r c))) cols) df).
Proof.
  intros Hall. unfold dropna_subset. by rewrite check_columns_present, bind_Ok.
Qed.

Lemma sample02_row_same infer_datetime today header r c :
  c <> "customer_age"%string ->
  cell (sample02_load_row infer_datetime today header r) c
  = cell (main_load_row infer_datetime today header r) c.
Proof.
  revert c. rewrite main_load_row_dated. unfold sample02_load_row.
  do 3 (apply fill_row_agree; [discriminate|]).
  intros c Hc. by rewrite !cell_set_cell_ne by done.
Qed.

Lemma sample02_row_customer_age infer_datetime today header r :
  cell (sample02_load_row infer_datetime today header r) "customer_age"
  = year_difference today
      (cell (sample02_load_row infer_datetime today header r) "dateOfBirth").
Proof.
  rewrite (sample02_row_same _ _ _ _ "dateOfBirth") by discriminate.
  rewrite main_row_dateOfBirth, <- dated_row_dateOfBirth.
  unfold sample02_load_row. rewrite !cell_fill_row_ne by discriminate.
  by rewrite cell_set_cell_eq.
Qed.

(** The cells of a record loaded by [Sample02.py]. *)
Lemma sample02_row_cells infer_datetime today header r :
  let r' := sample02_load_row infer_datetime today header r in
  date_or_null (cell r' "orderDate") /\
  date_or_null (cell r' "deliveryDate") /\
  date_or_null (cell r' "dateOfBirth") /\
  cell r' "delivery_delay"
  = dt_days (sub_datetime (cell r' "deliveryDate") (cell r' "orderDate")) /\
  cell r' "customer_age" = year_difference today (cell r' "dateOfBirth").
Proof.
  intros r'. subst r'.
  rewrite (sample02_row_same _ _ _ _ "orderDate") by discriminate.
  rewrite (sample02_row_same _ _ _ _ "deliveryDate") by discriminate.
  rewrite (sample02_row_same _ _ _ _ "delivery_delay") by discriminate.
  rewrite sample02_row_customer_age.
  rewrite (sample02_row_same _ _ _ _ "dateOfBirth") by discriminate.
  rewrite main_row_delivery_delay.
  rewrite main_row_orderDate, main_row_deliveryDate, main_row_dateOfBirth.
  split; [apply to_datetime_date_or_null|].
  split; [apply to_datetime_date_or_null|].
  split; [apply to_datetime_infer_date_or_null|]. done.
Qed.

(** X16: the rows that reach the return prediction of [Sample02.py] are
    the filtered rows with a price, a return flag and the three dates
    (order, delivery, birth) read. *)
Theorem df_model_keeps_the_orders_with_all_their_dates
    (infer_datetime : Cell -> option Timestamp) (w : World)
    (header : list string) (records : list (gmap string Cell))
    (states months colors sizes : list Cell) :
  fs w !! "orders_dataset.csv" = Some (Csv header records) ->
  date_columns_present header ->
  "state" ∈ header -> "color" ∈ header -> "size" ∈ header ->
  "price" ∈ header -> "returnShipment" ∈ header ->
  exists df df_filtered df_model,
    Sample02.load_data_body infer_datetime w = Ok df /\
    Sample02.df_filtered df states months colors sizes = Ok df_filtered /\
    Sample02.df_model df_filtered = Ok df_model /\
    columns df_model = columns df /\
    forall i r, In (i, r) (rows df_model) <->
      In (i, r) (rows df_filtered) /\
      cell r "price" <> NaN /\ cell r "returnShipment" <> NaN /\
      exists o d b, cell r "orderDate" = Date o /\
                    cell r "deliveryDate" = Date d /\
                    cell r "dateOfBirth" = Date b.
Proof.
  intros Hfile Hdates Hs Hc Hz Hp Hr.
  rewrite (sample02_load_data_body_ok _ _ _ _ Hfile Hdates).
  set (df := {| columns := main_columns header;
                rows := imap (fun i r =>
                          (i, sample02_load_row infer_datetime (now w) header r))
                          records |}).
  assert (Hnd : NoDup (index df)) by apply NoDup_index_loaded.
  assert (Hcols : filter_columns_present (columns df))
    by (by apply filter_columns_loaded).
  exists df, (filter_rows (selected states months colors sizes) df).
  eexists. split; [reflexivity|].
  split; [by apply sample02_df_filtered_rows|].
  split.
  { unfold Sample02.df_model. apply dropna_subset_rows.
    cbn [columns filter_rows df]. unfold main_columns.
    intros c [<-|[<-|[<-|[<-|[]]]]]; rewrite !elem_of_add_column; tauto. }
  split; [reflexivity|].
  intros i r. cbn [rows filter_rows columns]. rewrite filter_In. cbn [snd].
  split.
  - intros [Hin Hfull]. split; [done|].
    apply filter_In in Hin as [Hin _]. cbn [rows df] in Hin.
    apply In_imap_rows in Hin as (r0 & _ & ->).
    destruct (sample02_row_cells infer_datetime (now w) header r0)
      as (Ho & Hd & Hb & Hdelay & Hage).
    cbn [Sample02.features app forallb] in Hfull.
    rewrite !andb_true_iff, !negb_true_iff in Hfull.
    destruct Hfull as (Hprice & Hdel & Hag & Hret & _).
    split; [by intros Heq; rewrite Heq in Hprice|].
    split; [by intros Heq; rewrite Heq in Hret|].
    rewrite Hdelay in Hdel. rewrite Hage in Hag.
    destruct Ho as [Ho|[o Ho]], Hd as [Hd|[d Hd]], Hb as [Hb|[b Hb]];
      rewrite ?Ho, ?Hd, ?Hb in *; try discriminate.
    by exists o, d, b.
  - intros (Hin & Hprice & Hret & o & d & b & Ho & Hd & Hb). split; [done|].
    apply filter_In in Hin as [Hin _]. cbn [rows df] in Hin.
    apply In_imap_rows in Hin as (r0 & _ & ->).
    destruct (sample02_row_cells infer_datetime (now w) header r0)
      as (_ & _ & _ & Hdelay & Hage).
    cbn [Sample02.features app forallb].
    rewrite Hdelay, Hage, Ho, Hd, Hb. cbn [sub_datetime dt_days year_difference isnull negb].
    rewrite !andb_true_r.
    apply andb_true_iff. split; apply negb_true_iff.
    + by destruct (cell _ "price").
    + by destruct (cell _ "returnShipment").
Qed.

Lemma df_model_witness :
  exists df df_filtered df_model,
    Sample02.load_data_body (fun _ => None) two_orders_world = Ok df /\
    Sample02.df_filtered df [Str "DE"] [Str "2024-01"] [Str "red"] [Str "m"]
    = Ok df_filtered /\
    Sample02.df_model df_filtered = Ok df_model /\
    columns df_model = columns df.
Proof.
  assert (Hfile : fs two_orders_world !! "orders_dataset.csv"
                  = Some (Csv two_orders_header two_orders_records))
    by reflexivity.
  assert (Hdates : date_columns_present two_orders_header)
    by (apply (bool_decide_unpack _); vm_compute; exact I).
  assert (Hin : forall c, bool_decide (c ∈ two_orders_header) = true ->
                          c ∈ two_orders_header)
    by (intros c; apply bool_decide_eq_true_1).
  destruct (df_model_keeps_the_orders_with_all_their_dates
              (fun _ => None) two_orders_world two_orders_header two_orders_records
              [Str "DE"] [Str "2024-01"] [Str "red"] [Str "m"] Hfile Hdates
              (Hin "state"%string eq_refl) (Hin "color"%string eq_refl)
              (Hin "size"%string eq_refl) (Hin "price"%string eq_refl)
              (Hin "returnShipment"%string eq_refl))
    as (df & view & model & H1 & H2 & H3 & H4 & _).
  exists df, view, model. split; [exact H1|]. split; [exact H2|].
  split; [exact H3|exact H4].
Defined.

(** ** The filter of [sample1.py] *)

Lemma sample1_df_filtered_rows df states months :
  NoDup (index df) -> "state" ∈ columns df -> "order_year_month" ∈ columns df ->
  Sample1.df_filtered df states months = Ok (filter_rows (selected1 states months) df).
Proof.
  intros Hnd Hs Hm. unfold Sample1.df_filtered.
  rewrite (getitem_column df "state") by done. rewrite bind_Ok.
  rewrite (getitem_column df "order_year_month") by done. rewrite bind_Ok.
  rewrite !smap_derived, szip_derived by done.
  unfold mret, result_ret. f_equal. by rewrite getitem_mask_derived.
Qed.

Lemma sample1_row_state today r :
  cell (sample1_load_row today r) "state" = cell r "state".
Proof. cells1. Qed.

Lemma sample1_columns_loaded header c :
  c ∈ header -> c ∈ sample1_columns header.
Proof. intros Hc. unfold sample1_columns. rewrite !elem_of_add_column. tauto. Qed.

(** X10: in [sample1.py] the states offered are the distinct states of
    the file without the null, and whatever states among them and
    whatever months are selected, an order whose state is missing in the
    file is in no view. *)
Theorem sample1_never_shows_an_order_without_state
    (w : World) (header : list string) (records : list (gmap string Cell)) :
  fs w !! "orders_dataset.csv" = Some (Csv header records) ->
  date_columns_present header -> "state" ∈ header ->
  exists df options,
    Sample1.load_data_body w = Ok df /\
    Sample1.default_states df = Ok options /\
    NoDup options /\
    (forall k, In k options <->
       k <> NaN /\ exists (i : nat) r, records !! i = Some r /\ cell r "state" = k) /\
    forall selected_states selected_months,
      (forall k, In k selected_states -> In k options) ->
      exists view,
        Sample1.df_filtered df selected_states selected_months = Ok view /\
        forall (i : nat) r, records !! i = Some r -> cell r "state" = NaN ->
                            forall r', ~ In (i, r') (rows view).
Proof.
  intros Hfile Hdates Hs.
  rewrite (sample1_load_data_body_ok _ _ _ Hfile Hdates).
  set (df := {| columns := sample1_columns header;
                rows := imap (fun i r => (i, sample1_load_row (now w) r)) records |}).
  assert (Hnd : NoDup (index df)) by apply NoDup_index_loaded.
  assert (Hstate : "state" ∈ columns df) by (by apply sample1_columns_loaded).
  assert (Hmonth : "order_year_month" ∈ columns df).
  { cbn [columns df]. unfold sample1_columns. rewrite elem_of_add_column. by left. }
  exists df. eexists. split; [reflexivity|].
  unfold Sample1.default_states. rewrite getitem_column, bind_Ok by done.
  split; [reflexivity|]. split; [apply NoDup_unique|].
  assert (Hopt : forall k,
            In k (unique (dropna (derived df (fun r => cell r "state")))) <->
            k <> NaN /\ exists (i : nat) r, records !! i = Some r /\ cell r "state" = k).
  { intros k. rewrite In_unique, in_map_iff. split.
    - intros ([i v] & <- & Hin). apply In_dropna in Hin as [Hin Hv].
      split; [done|]. unfold derived in Hin. apply in_map_iff in Hin as ([j r'] & Heq & Hin).
      injection Heq as -> <-. cbn [rows df] in Hin.
      apply In_imap_rows in Hin as (r & Hr & ->). exists i, r. split; [done|].
      cbn [snd]. by rewrite sample1_row_state.
    - intros (Hk & i & r & Hr & <-). exists (i, cell r "state"). split; [done|].
      apply In_dropna. split; [|done]. unfold derived. apply in_map_iff.
      exists (i, sample1_load_row (now w) r). cbn [fst snd].
      rewrite sample1_row_state. split; [done|].
      by apply (In_imap_record (sample1_load_row (now w))). }
  split; [exact Hopt|].
  intros states months Hsub. rewrite sample1_df_filtered_rows by done.
  eexists. split; [reflexivity|].
  intros i r Hr Hnull r' Hin. cbn [rows filter_rows] in Hin.
  apply filter_In in Hin as [Hin Hsel]. cbn [rows df] in Hin.
  apply In_imap_rows in Hin as (r0 & Hr0 & ->).
  assert (r0 = r) by congruence. subst r0.
  cbn [snd] in Hsel. unfold selected1 in Hsel. apply andb_true_iff in Hsel as [Hsel _].
  rewrite sample1_row_state, Hnull in Hsel. apply isin_In in Hsel.
  apply Hsub, Hopt in Hsel as [Hne _]. done.
Qed.

Lemma sample1_without_state_witness :
  exists df options,
    Sample1.load_data_body two_orders_world = Ok df /\
    Sample1.default_states df = Ok options /\
    NoDup options.
Proof.
  assert (Hfile : fs two_orders_world !! "orders_dataset.csv"
                  = Some (Csv two_orders_header two_orders_records))
    by reflexivity.
  assert (Hdates : date_columns_present two_orders_header)
    by (apply (bool_decide_unpack _); vm_compute; exact I).
  assert (Hs : "state" ∈ two_orders_header)
    by (apply (bool_decide_unpack _); vm_compute; exact I).
  destruct (sample1_never_shows_an_order_without_state two_orders_world
              two_orders_header two_orders_records Hfile Hdates Hs)
    as (df & options & H1 & H2 & H3 & _).
  exists df, options. split; [exact H1|]. split; [exact H2|exact H3].
Defined.
(** [a] is an earlier day than [b]. *)
Definition before (a b : Timestamp) : Prop :=
  year a < year b \/
  (year a = year b /\
   (month a < month b \/ (month a = month b /\ day a < day b))).

Lemma days_in_month_bounds y m : 28 <= days_in_month y m <= 31.
Proof.
  unfold days_in_month.
  repeat match goal with |- context [if ?b then _ else _] => destruct b end; lia.
Qed.

Lemma days_before_month_aux_mono y (n k : nat) :
  days_before_month_aux y n <= days_before_month_aux y (n + k).
Proof.
  induction k as [|k IH]; [by rewrite Nat.add_0_r|].
  rewrite Nat.add_succ_r. cbn [days_before_month_aux].
  pose proof (days_in_month_bounds y (Z.of_nat (S (n + k)))). lia.
Qed.

Lemma days_before_month_mono y a b :
  1 <= a <= b -> days_before_month y a <= days_before_month y b.
Proof.
  intros Hab. unfold days_before_month.
  replace (Z.to_nat (b - 1)) with (Z.to_nat (a - 1) + Z.to_nat (b - a))%nat by lia.
  apply days_before_month_aux_mono.
Qed.

Lemma days_before_month_succ y m :
  1 <= m -> days_before_month y (m + 1) = days_before_month y m + days_in_month y m.
Proof.
  intros Hm. unfold days_before_month.
  replace (Z.to_nat (m + 1 - 1)) with (S (Z.to_nat (m - 1))) by lia.
  cbn [days_before_month_aux]. do 2 f_equal. lia.
Qed.

Lemma days_before_month_13 y :
  days_before_month y 13 = 365 + (if is_leap y then 1 else 0).
Proof.
  unfold days_before_month. change (Z.to_nat (13 - 1)) with 12%nat.
  cbn [days_before_month_aux]. unfold days_in_month. cbn.
  destruct (is_leap y); reflexivity.
Qed.

Lemma days_before_year_succ y :
  days_before_year (y + 1) = days_before_year y + 365 + (if is_leap y then 1 else 0).
Proof.
  unfold days_before_year, is_leap. cbv zeta.
  replace (y + 1 - 1) with y by lia.
  destruct (y mod 4 =? 0) eqn:H4; destruct (y mod 100 =? 0) eqn:H100;
    destruct (y mod 400 =? 0) eqn:H400; cbn [andb orb negb];
    rewrite ?Z.eqb_eq, ?Z.eqb_neq in *; Z.div_mod_to_equations; lia.
Qed.

Lemma days_before_year_mono a b : a <= b -> days_before_year a <= days_before_year b.
Proof.
  intros Hab. unfold days_before_year. cbv zeta. Z.div_mod_to_equations. lia.
Qed.

Lemma valid_date_fields d :
  valid_date d = true ->
  1 <= year d /\ 1 <= month d <= 12 /\ 1 <= day d <= days_in_month (year d) (month d).
Proof.
  intros Hvalid. apply valid_date_calendar in Hvalid. revert Hvalid.
  unfold calendar_date. rewrite !andb_true_iff, !Z.leb_le. lia.
Qed.

Lemma days_before_month_0 y : days_before_month y 1 = 0.
Proof. reflexivity. Qed.

(** The day number grows with the calendar. *)
Lemma toordinal_before a b :
  valid_date a = true -> valid_date b = true -> before a b ->
  toordinal a < toordinal b.
Proof.
  intros Ha Hb Hab.
  apply valid_date_fields in Ha as (Hya & Hma & Hda).
  apply valid_date_fields in Hb as (Hyb & Hmb & Hdb).
  unfold toordinal.
  assert (Hin_year : forall y m, 1 <= m <= 12 ->
            0 <= days_before_month y m /\
            days_before_month y m + days_in_month y m
            <= 365 + (if is_leap y then 1 else 0)).
  { intros y m Hm. split.
    - rewrite <- (days_before_month_0 y). apply days_before_month_mono. lia.
    - rewrite <- days_before_month_succ, <- days_before_month_13 by lia.
      apply days_before_month_mono. lia. }
  destruct (Hin_year (year a) (month a) Hma) as [Ha0 Ha1].
  destruct (Hin_year (year b) (month b) Hmb) as [Hb0 Hb1].
  destruct Hab as [Hy|[Hy [Hm|[Hm Hd]]]].
  - pose proof (days_before_year_succ (year a)) as Hsucc.
    pose proof (days_before_year_mono (year a + 1) (year b) ltac:(lia)). lia.
  - rewrite Hy in *.
    pose proof (days_before_month_succ (year b) (month a) ltac:(lia)).
    pose proof (days_before_month_mono (year b) (month a + 1) (month b) ltac:(lia)).
    lia.
  - rewrite Hy, Hm. lia.
Qed.

Lemma before_cases a b : before a b \/ a = b \/ before b a.
Proof.
  destruct a as [ya ma da], b as [yb mb db]. unfold before. cbn [year month day].
  destruct (Z.lt_total ya yb) as [?|[->|?]]; [tauto| |tauto].
  destruct (Z.lt_total ma mb) as [?|[->|?]]; [tauto| |tauto].
  destruct (Z.lt_total da db) as [?|[->|?]]; tauto.
Qed.

Lemma before_irrefl a b : before a b -> a <> b.
Proof. intros Hab ->. unfold before in Hab. lia. Qed.

Lemma toordinal_order a b :
  valid_date a = true -> valid_date b = true ->
  (toordinal a < toordinal b <-> before a b) /\
  (toordinal a = toordinal b <-> a = b).
Proof.
  intros Ha Hb.
  destruct (before_cases a b) as [Hab|[->|Hba]].
  - pose proof (toordinal_before a b Ha Hb Hab). apply before_irrefl in Hab as Hne.
    split; split; intros; first [done | lia | congruence].
  - split; split; intros H; first [done | lia | idtac].
    unfold before in H. lia.
  - pose proof (toordinal_before b a Hb Ha Hba). apply before_irrefl in Hba as Hne.
    split; split; intros H'; first [lia | congruence | idtac].
    unfold before in *. lia.
Qed.

(** X6: for an order loaded by [main.py] or [Sample02.py] with both
    dates, read from the text of the file, the delay is positive exactly
    when the delivery is on a later day than the order, zero when it is
    on the same day and negative when it is earlier; the order counts as
    late exactly when it was delivered on a later day. *)
Theorem delay_sign_follows_the_calendar
    (infer_datetime : Cell -> option Timestamp) (w : World)
    (header : list string) (records : list (gmap string Cell)) :
  fs w !! "orders_dataset.csv" = Some (Csv header records) ->
  date_columns_present header ->
  (forall (i : nat) r, records !! i = Some r ->
     csv_value (cell r "orderDate") = true /\
     csv_value (cell r "deliveryDate") = true) ->
  exists df df2,
    Main.load_data_try infer_datetime w = Ok df /\
    Sample02.load_data_body infer_datetime w = Ok df2 /\
    forall i r o d,
      In (i, r) (rows df) \/ In (i, r) (rows df2) ->
      cell r "orderDate" = Date o -> cell r "deliveryDate" = Date d ->
      exists n,
        cell r "delivery_delay" = Int n /\
        (0 < n <-> before o d) /\
        (n = 0 <-> o = d) /\
        (n < 0 <-> before d o) /\
        (late r = true <-> before o d).
Proof.
  intros Hfile Hdates Hcsv.
  rewrite (main_load_data_try_ok _ _ _ _ Hfile Hdates).
  rewrite (sample02_load_data_body_ok _ _ _ _ Hfile Hdates).
  eexists _, _. split; [reflexivity|]. split; [reflexivity|].
  cbn [rows]. intros i r o d Hin Ho Hd.
  assert (Hrow : exists r0, records !! i = Some r0 /\
            cell r "orderDate" = to_datetime strptime_dmy (cell r0 "orderDate") /\
            cell r "deliveryDate" = to_datetime strptime_ymd (cell r0 "deliveryDate") /\
            cell r "delivery_delay"
            = dt_days (sub_datetime (cell r "deliveryDate") (cell r "orderDate"))).
  { destruct Hin as [Hin|Hin]; apply In_imap_rows in Hin as (r0 & Hr0 & ->);
      exists r0; (split; [done|]).
    - by rewrite main_row_delivery_delay, main_row_orderDate, main_row_deliveryDate.
    - rewrite !sample02_row_same by discriminate.
      by rewrite main_row_delivery_delay, main_row_orderDate, main_row_deliveryDate. }
  destruct Hrow as (r0 & Hr0 & Ho0 & Hd0 & Hdelay).
  destruct (Hcsv i r0 Hr0) as [Hco Hcd].
  assert (Hvo : valid_date o = true).
  { apply (to_datetime_valid strptime_dmy (cell r0 "orderDate"));
      [apply strptime_dmy_valid|done|congruence]. }
  assert (Hvd : valid_date d = true).
  { apply (to_datetime_valid strptime_ymd (cell r0 "deliveryDate"));
      [apply strptime_ymd_valid|done|congruence]. }
  exists (toordinal d - toordinal o).
  rewrite Hdelay, Ho, Hd. split; [reflexivity|].
  destruct (toordinal_order o d Hvo Hvd) as [Hlt Heq].
  destruct (toordinal_order d o Hvd Hvo) as [Hgt _].
  split; [rewrite <- Hlt; lia|]. split; [rewrite <- Heq; lia|].
  split; [rewrite <- Hgt; lia|].
  unfold late. rewrite Hdelay, Ho, Hd. cbn [sub_datetime dt_days gt0].
  rewrite Z.ltb_lt, <- Hlt. lia.
Qed.

Lemma delay_sign_witness :
  exists df df2,
    Main.load_data_try (fun _ => None) two_orders_world = Ok df /\
    Sample02.load_data_body (fun _ => None) two_orders_world = Ok df2.
Proof.
  assert (Hfile : fs two_orders_world !! "orders_dataset.csv"
                  = Some (Csv two_orders_header two_orders_records))
    by reflexivity.
  assert (Hdates : date_columns_present two_orders_header)
    by (apply (bool_decide_unpack _); vm_compute; exact I).
  assert (Hcsv : forall (i : nat) r, two_orders_records !! i = Some r ->
                   csv_value (cell r "orderDate") = true /\
                   csv_value (cell r "deliveryDate") = true).
  { intros [|[|i]] r Hr; cbn in Hr; [| |discriminate];
      injection Hr as <-; vm_compute; split; reflexivity. }
  destruct (delay_sign_follows_the_calendar (fun _ => None) two_orders_world
              two_orders_header two_orders_records Hfile Hdates Hcsv)
    as (df & df2 & H1 & H2 & _).
  exists df, df2. split; [exact H1|exact H2].
Defined.

(** ** The format of the order date *)

Lemma sample1_row_order_year_month today r :
  cell (sample1_load_row today r) "order_year_month"
  = Sample1.to_period_M (to_datetime strptime_dmy (cell r "orderDate")).
Proof. cells1. Qed.

(** X2: in the three scripts an order date written day-month-year is
    read, when it is a date that a timestamp of pandas holds, and gives
    the month of the order; written year-month-day, or naming a day
    before 22 September 1677 or after 11 April 2262, it becomes a null,
    the month of the order is "NaT" (a null period in [sample1.py]) and
    the delay is null ("Unknown" in [sample1.py]). *)
Theorem order_date_is_read_day_first_only
    (infer_datetime : Cell -> option Timestamp) (w : World)
    (header : list string) (records : list (gmap string Cell))
    (d : Timestamp) :
  calendar_date d = true ->
  fs w !! "orders_dataset.csv" = Some (Csv header records) ->
  date_columns_present header ->
  exists df df1 df2,
    Main.load_data_try infer_datetime w = Ok df /\
    Sample1.load_data_body w = Ok df1 /\
    Sample02.load_data_body infer_datetime w = Ok df2 /\
    forall (i : nat) r, records !! i = Some r ->
      exists r' r1 r2,
        rows df !! i = Some (i, r') /\
        rows df1 !! i = Some (i, r1) /\
        rows df2 !! i = Some (i, r2) /\
        (cell r "orderDate" = Str (strftime_dmy d) -> in_bounds d = true ->
         cell r' "orderDate" = Date d /\ cell r1 "orderDate" = Date d /\
         cell r2 "orderDate" = Date d /\
         cell r' "order_year_month" = Str (year_month d) /\
         cell r2 "order_year_month" = Str (year_month d) /\
         cell r1 "order_year_month" = Period (year d) (month d)) /\
        (cell r "orderDate" = Str (strftime_ymd d) \/
         (cell r "orderDate" = Str (strftime_dmy d) /\ in_bounds d = false) ->
         cell r' "orderDate" = NaN /\ cell r1 "orderDate" = NaN /\
         cell r2 "orderDate" = NaN /\
         cell r' "order_year_month" = Str "NaT" /\
         cell r2 "order_year_month" = Str "NaT" /\
         cell r1 "order_year_month" = NaN /\
         cell r' "delivery_delay" = NaN /\
         cell r2 "delivery_delay" = NaN /\
         cell r1 "delivery_delay" = Str "Unknown").
Proof.
  intros Hv Hfile Hdates.
  rewrite (main_load_data_try_ok _ _ _ _ Hfile Hdates).
  rewrite (sample1_load_data_body_ok _ _ _ Hfile Hdates).
  rewrite (sample02_load_data_body_ok _ _ _ _ Hfile Hdates).
  eexists _, _, _. do 3 (split; [reflexivity|]).
  cbn [rows]. intros i r Hr. eexists _, _, _. rewrite !list_lookup_imap, Hr.
  do 3 (split; [reflexivity|]).
  rewrite !sample02_row_same by discriminate.
  rewrite main_row_delivery_delay, main_row_order_year_month, main_row_orderDate.
  rewrite sample1_row_delivery_delay, sample1_row_order_year_month,
    sample1_row_orderDate.
  split.
  - intros -> Hin. cbn [to_datetime].
    rewrite strptime_dmy_strftime_dmy by done. unfold read_back. by rewrite Hin.
  - intros [-> | [-> Hout]]; cbn [to_datetime].
    + rewrite strptime_dmy_strftime_ymd by done. cbn.
      repeat split; by destruct (cell _ "deliveryDate").
    + rewrite strptime_dmy_strftime_dmy by done. unfold read_back. rewrite Hout.
      cbn. repeat split; by destruct (cell _ "deliveryDate").
Qed.

Lemma order_date_witness :
  exists df df1 df2,
    Main.load_data_try (fun _ => None) two_orders_world = Ok df /\
    Sample1.load_data_body two_orders_world = Ok df1 /\
    Sample02.load_data_body (fun _ => None) two_orders_world = Ok df2.
Proof.
  assert (Hfile : fs two_orders_world !! "orders_dataset.csv"
                  = Some (Csv two_orders_header two_orders_records))
    by reflexivity.
  assert (Hdates : date_columns_present two_orders_header)
    by (apply (bool_decide_unpack _); vm_compute; exact I).
  destruct (order_date_is_read_day_first_only (fun _ => None) two_orders_world
              two_orders_header two_orders_records (mkTimestamp 2024 1 11)
              eq_refl Hfile Hdates)
    as (df & df1 & df2 & H1 & H2 & H3 & _).
  exists df, df1, df2. split; [exact H1|]. split; [exact H2|exact H3].
Defined.

(** ** The nearest float64 *)

Lemma round_half_even_floor q :
  round_half_even q = Qfloor q \/ round_half_even q = Qfloor q + 1.
Proof.
  unfold round_half_even. destruct (_ ?= _)%Q; [destruct (Z.even _)|..]; tauto.
Qed.

Lemma round_half_even_ge (n : Z) q :
  (inject_Z n <= q)%Q -> n <= round_half_even q.
Proof.
  intros Hn. apply Qfloor_resp_le in Hn. rewrite Qfloor_Z in Hn.
  destruct (round_half_even_floor q) as [-> | ->]; lia.
Qed.

Lemma round_half_even_le (n : Z) q :
  (q <= inject_Z n)%Q -> round_half_even q <= n.
Proof.
  intros Hn. pose proof (Qfloor_resp_le _ _ Hn) as Hf. rewrite Qfloor_Z in Hf.
  destruct (Z.eq_dec (Qfloor q) n) as [Heq|Hne].
  - unfold round_half_even.
    assert (Hlt : (q - inject_Z (Qfloor q) < 1 # 2)%Q).
    { rewrite Heq. apply Qle_lt_trans with 0%Q; [|reflexivity].
      apply (Qplus_le_l _ _ (inject_Z n)). ring_simplify. exact Hn. }
    rewrite (proj1 (Qlt_alt _ _) Hlt). lia.
  - destruct (round_half_even_floor q) as [-> | ->]; lia.
Qed.

Lemma Qpower2_pos e : (0 < 2 ^ e)%Q.
Proof. by apply Qpower_0_lt. Qed.

Lemma Qpower2_inject (n : Z) : 0 <= n -> (inject_Z (2 ^ n) == 2 ^ n)%Q.
Proof. intros Hn. by rewrite Zpower_Qpower. Qed.

(** The exponent of a positive number that is no subnormal puts its
    mantissa at [2^52] or above. *)
Lemma exponent_lower (a : Q) :
  (0 < a)%Q -> -1074 < exponent a -> (2 ^ (52 + exponent a) <= a)%Q.
Proof.
  intros Ha. unfold exponent.
  set (e0 := Z.log2 (Qnum a) - Z.log2 (Z.pos (Qden a)) - 52).
  destruct (Qle_bool (2 ^ (e0 + 52)) a) eqn:Htest; intros He.
  - rewrite Z.max_l by lia. apply Qle_bool_iff in Htest.
    by replace (52 + e0) with (e0 + 52) by lia.
  - rewrite Z.max_l by lia. clear Htest He.
    destruct a as [n d]. cbn [Qnum Qden] in e0.
    assert (Hn : 0 < n) by (unfold Qlt in Ha; cbn in Ha; lia).
    destruct (Z.log2_spec n Hn) as [Hn1 _].
    destruct (Z.log2_spec (Z.pos d) (Pos2Z.is_pos d)) as [_ Hd2].
    pose proof (Z.log2_nonneg n) as Hl1.
    pose proof (Z.log2_nonneg (Z.pos d)) as Hl2.
    rewrite (Qmake_Qdiv n d). apply Qle_shift_div_l; [reflexivity|].
    apply Qle_trans with (2 ^ (52 + (e0 - 1)) * inject_Z (2 ^ Z.succ (Z.log2 (Z.pos d))))%Q.
    + apply Qmult_le_l; [apply Qpower2_pos|]. rewrite <- Zle_Qle. lia.
    + rewrite Qpower2_inject by lia. rewrite <- Qpower_plus by done.
      replace (52 + (e0 - 1) + Z.succ (Z.log2 (Z.pos d))) with (Z.log2 n)
        by (unfold e0; lia).
      rewrite <- Qpower2_inject by lia. by rewrite <- Zle_Qle.
Qed.

Lemma nearest_value (x : Q) :
  (nearest x == inject_Z (round_half_even (x / 2 ^ exponent x)) * 2 ^ exponent x)%Q.
Proof. apply Qred_correct. Qed.

(** Rounding does not cross a whole number that a float64 holds. *)
Lemma nearest_ge (k : Z) (x : Q) :
  1 <= k <= 2 ^ 53 -> (inject_Z k <= x)%Q -> (inject_Z k <= nearest x)%Q.
Proof.
  intros Hk Hx.
  assert (Hpos : (0 < x)%Q).
  { apply Qlt_le_trans with (inject_Z k); [|done]. rewrite <- (Zlt_Qlt 0). lia. }
  rewrite nearest_value.
  set (e := exponent x). pose proof (Qpower2_pos e) as He.
  destruct (Z.le_gt_cases e 0) as [Hneg|Hgt].
  - assert (Hke : (inject_Z (k * 2 ^ (- e)) == inject_Z k / 2 ^ e)%Q).
    { rewrite inject_Z_mult, Qpower2_inject by lia. rewrite Qpower_opp.
      unfold Qdiv. reflexivity. }
    apply Qle_trans with (inject_Z (k * 2 ^ (- e)) * 2 ^ e)%Q.
    + rewrite Hke. unfold Qdiv. rewrite <- Qmult_assoc, (Qmult_comm (/ _)).
      rewrite Qmult_inv_r, Qmult_1_r; [apply Qle_refl|].
      intros H0. rewrite H0 in He. discriminate.
    + apply Qmult_le_compat_r; [|by apply Qlt_le_weak].
      rewrite <- Zle_Qle. apply round_half_even_ge. rewrite Hke.
      unfold Qdiv. apply Qmult_le_compat_r; [done|].
      apply Qlt_le_weak, Qinv_lt_0_compat, He.
  - pose proof (exponent_lower x Hpos ltac:(fold e; lia)) as Hlow. fold e in Hlow.
    assert (Hm : 2 ^ 52 <= round_half_even (x / 2 ^ e)).
    { apply round_half_even_ge. apply Qle_shift_div_l; [done|].
      rewrite Qpower2_inject by lia. rewrite <- Qpower_plus by done. exact Hlow. }
    apply Qle_trans with (inject_Z (2 ^ 52) * 2 ^ e)%Q.
    + apply Qle_trans with (inject_Z (2 ^ 52) * inject_Z 2)%Q.
      * rewrite <- inject_Z_mult, <- Zle_Qle. lia.
      * apply Qmult_le_l; [reflexivity|].
        change (inject_Z 2) with (2 ^ 1)%Q.
        apply Qpower_le_compat_l; [lia|discriminate].
    + apply Qmult_le_compat_r; [|by apply Qlt_le_weak].
      by rewrite <- Zle_Qle.
Qed.

Lemma nearest_nonneg (x : Q) : (0 <= x)%Q -> (0 <= nearest x)%Q.
Proof.
  intros Hx. rewrite nearest_value.
  pose proof (Qpower2_pos (exponent x)) as He.
  apply Qmult_le_0_compat; [|by apply Qlt_le_weak].
  rewrite <- (Zle_Qle 0). apply round_half_even_ge.
  apply Qle_shift_div_l; [done|]. by rewrite Qmult_0_l.
Qed.

Lemma nearest_le (k : Z) (x : Q) :
  0 <= k <= 2 ^ 53 -> (0 <= x)%Q -> (x <= inject_Z k)%Q ->
  (nearest x <= inject_Z k)%Q.
Proof.
  intros Hk H0 Hx. rewrite nearest_value.
  set (e := exponent x). pose proof (Qpower2_pos e) as He.
  assert (Hne : ~ (2 ^ e == 0)%Q) by (intros H; rewrite H in He; discriminate).
  destruct (Z.le_gt_cases e 0) as [Hneg|Hgt].
  - assert (Hke : (inject_Z (k * 2 ^ (- e)) == inject_Z k / 2 ^ e)%Q).
    { rewrite inject_Z_mult, Qpower2_inject by lia. rewrite Qpower_opp.
      unfold Qdiv. reflexivity. }
    apply Qle_trans with (inject_Z (k * 2 ^ (- e)) * 2 ^ e)%Q.
    + apply Qmult_le_compat_r; [|by apply Qlt_le_weak].
      rewrite <- Zle_Qle. apply round_half_even_le. rewrite Hke.
      unfold Qdiv. apply Qmult_le_compat_r; [done|].
      apply Qlt_le_weak, Qinv_lt_0_compat, He.
    + rewrite Hke. unfold Qdiv. rewrite <- Qmult_assoc, (Qmult_comm (/ _)).
      rewrite Qmult_inv_r, Qmult_1_r by done. apply Qle_refl.
  - assert (Hpos : (0 < x)%Q).
    { destruct (Qlt_le_dec 0 x) as [|Hle]; [done|].
      assert (Hx0 : (x == 0)%Q) by (by apply Qle_antisym).
      exfalso. unfold e, exponent in Hgt.
      destruct x as [n d]. unfold Qeq in Hx0. cbn in Hx0.
      assert (n = 0) by lia. subst n. cbn [Qnum Qden] in Hgt.
      rewrite Z.log2_nonpos in Hgt by lia.
      pose proof (Z.log2_nonneg (Z.pos d)).
      destruct (Qle_bool _ _) in Hgt; lia. }
    pose proof (exponent_lower x Hpos ltac:(fold e; lia)) as Hlow. fold e in Hlow.
    assert (He1 : e = 1).
    { assert (Hle : (2 ^ (52 + e) <= 2 ^ 53)%Q).
      { apply Qle_trans with x; [done|]. apply Qle_trans with (inject_Z k); [done|].
        rewrite <- Qpower2_inject by lia. rewrite <- Zle_Qle. lia. }
      apply Qpower_le_compat_l_inv in Hle; [lia|reflexivity]. }
    rewrite He1 in *.
    apply Qle_trans with (inject_Z (2 ^ 52) * 2 ^ 1)%Q.
    + apply Qmult_le_compat_r; [|discriminate].
      rewrite <- Zle_Qle. apply round_half_even_le.
      apply Qle_shift_div_r; [reflexivity|].
      apply Qle_trans with (inject_Z k); [done|].
      change (inject_Z (2 ^ 52) * 2 ^ 1)%Q with (inject_Z (2 ^ 52) * inject_Z 2)%Q.
      rewrite <- inject_Z_mult, <- Zle_Qle. lia.
    + change (inject_Z (2 ^ 52) * 2 ^ 1)%Q with (inject_Z (2 ^ 52) * inject_Z 2)%Q.
      rewrite <- inject_Z_mult, <- Zle_Qle.
      assert (2 ^ 53 <= k); [|lia].
      rewrite Zle_Qle. apply Qle_trans with x; [|done].
      rewrite Qpower2_inject by lia. exact Hlow.
Qed.

(** [float64] of equal numbers is the same float. *)
Lemma float64_proper (x y : Q) : (x == y)%Q -> float64 x = float64 y.
Proof. intros Hxy. unfold float64. by rewrite (Qred_complete x y Hxy). Qed.

Lemma float64_nonneg_nearest (x : Q) :
  (0 <= x)%Q -> float64 x = nearest (Qred x).
Proof.
  intros Hx. unfold float64.
  rewrite (proj2 (Qle_bool_iff 0 (Qred x))); [done|]. by rewrite Qred_correct.
Qed.

Lemma float64_ge (k : Z) (x : Q) :
  1 <= k <= 2 ^ 53 -> (inject_Z k <= x)%Q -> (inject_Z k <= float64 x)%Q.
Proof.
  intros Hk Hx. rewrite float64_nonneg_nearest.
  - apply nearest_ge; [done|]. by rewrite Qred_correct.
  - apply Qle_trans with (inject_Z k); [|done]. rewrite <- (Zle_Qle 0). lia.
Qed.

Lemma float64_nonneg (x : Q) : (0 <= x)%Q -> (0 <= float64 x)%Q.
Proof.
  intros Hx. rewrite float64_nonneg_nearest by done.
  apply nearest_nonneg. by rewrite Qred_correct.
Qed.

Lemma float64_le (k : Z) (x : Q) :
  0 <= k <= 2 ^ 53 -> (0 <= x)%Q -> (x <= inject_Z k)%Q ->
  (float64 x <= inject_Z k)%Q.
Proof.
  intros Hk H0 Hx. rewrite float64_nonneg_nearest by done.
  apply nearest_le; [done|by rewrite Qred_correct..].
Qed.

Example float64_ex1 : float64 (29 # 100) = 5224175567749775 # 18014398509481984.
Proof. by vm_compute. Qed.

Example float64_ex2 :
  float64 (float64 (29 # 100) * 100) = 8162774324609023 # 281474976710656.
Proof. by vm_compute. Qed.

Example float64_ex3 : float64 (float64 (1 # 2) * 100) = 50%Q.
Proof. by vm_compute. Qed.

Example float64_ex4 :
  float64 (- (1 # 3)) = (- (6004799503160661 # 18014398509481984))%Q.
Proof. by vm_compute. Qed.

(** ** Means of whole numbers *)

Lemma numbers_ints vals :
  (forall v, In v vals -> int_or_null v = true) ->
  numbers vals = Ok (map inject_Z (ints vals)).
Proof.
  induction vals as [|v vals IH]; intros Hall; [done|].
  assert (Hv := Hall v (or_introl eq_refl)).
  destruct v as [| |z| | | |]; try discriminate; cbn [numbers ints map].
  - apply IH. intros v' Hv'. apply Hall. by right.
  - rewrite IH by (intros v' Hv'; apply Hall; by right). by rewrite bind_Ok.
Qed.

Lemma Qsum_inject_Z zs : (Qsum (map inject_Z zs) == inject_Z (Zsum zs))%Q.
Proof.
  induction zs as [|z zs IH]; [done|].
  cbn [map Qsum Zsum fold_right]. fold (Qsum (map inject_Z zs)). fold (Zsum zs).
  by rewrite IH, inject_Z_plus.
Qed.

Lemma mean_ints vals :
  (forall v, In v vals -> int_or_null v = true) ->
  mean vals
  = Ok (match ints vals with
        | [] => NaN
        | _ => Float (float64 (inject_Z (Zsum (ints vals))
                               / inject_Z (Z.of_nat (length (ints vals)))))
        end).
Proof.
  intros Hall. unfold mean. rewrite numbers_ints, bind_Ok by done.
  unfold mret, result_ret. f_equal.
  destruct (ints vals) as [|z zs] eqn:Hz; [done|]. rewrite <- Hz.
  assert (Hne : map inject_Z (ints vals) <> []) by (by rewrite Hz).
  destruct (map inject_Z (ints vals)) as [|q qs] eqn:Hq; [done|]. rewrite <- Hq.
  f_equal. apply float64_proper. by rewrite Qsum_inject_Z, length_map.
Qed.

Lemma length_ints vals :
  (forall v, In v vals -> int_or_null v = true) ->
  length (ints vals) = length (List.filter (fun v => negb (isnull v)) vals).
Proof.
  induction vals as [|v vals IH]; intros Hall; [done|].
  assert (Hv := Hall v (or_introl eq_refl)).
  assert (IH' := IH (fun v' Hv' => Hall v' (or_intror Hv'))).
  destruct v; try discriminate; cbn [ints List.filter isnull negb length]; lia.
Qed.

Lemma Zsum_flags vals :
  (forall v, In v vals -> return_flag v = true) ->
  Zsum (ints vals)
  = Z.of_nat (length (List.filter (fun v => bool_decide (v = Int 1)) vals)).
Proof.
  induction vals as [|v vals IH]; intros Hall; [done|].
  assert (Hv := Hall v (or_introl eq_refl)).
  assert (IH' := IH (fun v' Hv' => Hall v' (or_intror Hv'))).
  destruct v as [| |z| | | |]; try discriminate; cbn [ints List.filter].
  - by rewrite bool_decide_eq_false_2.
  - cbn [Zsum fold_right]. fold (Zsum (ints vals)). rewrite IH'.
    cbn in Hv. apply orb_true_iff in Hv as [Hz|Hz]; apply Z.eqb_eq in Hz; subst z.
    + by rewrite bool_decide_eq_false_2.
    + rewrite bool_decide_eq_true_2 by done. cbn [length]. lia.
Qed.

Lemma Zsum_at_least lo zs :
  Forall (fun z => lo <= z) zs -> lo * Z.of_nat (length zs) <= Zsum zs.
Proof.
  induction 1 as [|z zs Hz _ IH]; [cbn; lia|].
  cbn [length Zsum fold_right]. fold (Zsum zs). lia.
Qed.

Lemma return_flag_int_or_null c : return_flag c = true -> int_or_null c = true.
Proof. by destruct c. Qed.

(** ** The return rate *)

Lemma length_filter_map {A B} (f : A -> B) (p : B -> bool) (l : list A) :
  length (List.filter p (map f l)) = length (List.filter (fun x => p (f x)) l).
Proof.
  induction l as [|x l IH]; [done|]. cbn [map List.filter].
  destruct (p (f x)); cbn [length]; by rewrite IH.
Qed.

Lemma Sorted_agg_keys f keyed res :
  agg f (groups keyed) = Ok res -> map fst res = group_keys (map fst keyed).
Proof.
  intros Hres. rewrite <- map_fst_groups.
  apply (Forall2_map_fst _ _ _ (agg_Ok _ _ _ Hres)). by intros x y [? _].
Qed.

Lemma returned_le_known df k : (returned_in df k <= known_in df k)%nat.
Proof.
  unfold returned_in, known_in.
  induction (rows_of_state df k) as [|[i r] rs IH]; [done|].
  cbn [List.filter snd]. case_bool_decide as Hone.
  - rewrite Hone. cbn [isnull negb length]. lia.
  - destruct (negb _); cbn [length]; lia.
Qed.

(** X12: when every return flag is 0, 1 or missing, the return rate of
    a state is null when no order of the state has a flag, and else the
    float64 nearest to 100 times the float64 nearest to the number of
    its returned orders over the number of its orders with a flag: a
    number from 0 to 100. So 29 returned orders out of 100 give
    28.999999999999996. The states come in ascending order. *)
Theorem return_rate_is_the_share_of_returned_orders (df : DataFrame) :
  NoDup (index df) -> "state" ∈ columns df -> "returnShipment" ∈ columns df ->
  (forall i r, In (i, r) (rows df) -> return_flag (cell r "returnShipment") = true) ->
  (exists rates,
     Main.return_rate_by_state df = Ok rates /\
     Sorted cell_le (map fst rates) /\
     forall k v, In (k, v) rates ->
       (known_in df k = 0%nat -> v = NaN) /\
       (known_in df k <> 0%nat ->
        v = Float (float64 (float64 (inject_Z (Z.of_nat (returned_in df k))
                                     / inject_Z (Z.of_nat (known_in df k)))
                            * 100))) /\
       (forall q, v = Float q -> (0 <= q <= 100)%Q)) /\
  float64 (float64 (inject_Z 29 / inject_Z 100) * 100)
  = 8162774324609023 # 281474976710656.
Proof.
  intros Hnd Hs Hr Hflags. split; [|by vm_compute].
  rewrite return_rate_by_state_rows by done.
  set (keyed := keyed_rows (fun r => cell r "state") "returnShipment" df).
  assert (Hvals : forall k v,
            In v (map (fun ir => cell ir.2 "returnShipment") (rows_of_state df k)) ->
            return_flag v = true).
  { intros k v Hv. apply in_map_iff in Hv as ([i r] & <- & Hin).
    apply filter_In in Hin as [Hin _]. by apply (Hflags i r). }
  assert (Hgroup : forall g, In g (groups keyed) ->
            g.2 = map (fun ir => cell ir.2 "returnShipment") (rows_of_state df g.1)).
  { intros g Hg. rewrite (In_groups keyed g Hg). subst keyed.
    by rewrite group_values. }
  destruct (agg_total mean (groups keyed)) as [means Hmeans].
  { intros g Hg. rewrite (Hgroup g Hg), mean_ints; [by eexists|].
    intros v Hv. by apply return_flag_int_or_null, (Hvals g.1). }
  rewrite Hmeans, bind_Ok. eexists. split; [reflexivity|]. split.
  { rewrite List.map_map. rewrite (map_ext _ fst) by done.
    rewrite (Sorted_agg_keys _ _ _ Hmeans). apply Sorted_group_keys. }
  intros k v Hin. apply in_map_iff in Hin as ([k' m] & Heq & Hin).
  cbn [fst snd] in Heq. injection Heq as -> <-.
  destruct (Forall2_In_r _ _ _ _ (agg_Ok _ _ _ Hmeans) Hin) as (g & Hg & Hk & Hm).
  cbn [fst snd] in Hk, Hm. rewrite (Hgroup g Hg), <- Hk in Hm.
  set (vals := map (fun ir => cell ir.2 "returnShipment") (rows_of_state df k)) in *.
  assert (Hint : forall v, In v vals -> int_or_null v = true).
  { intros v Hv. by apply return_flag_int_or_null, (Hvals k). }
  rewrite (mean_ints vals Hint) in Hm. injection Hm as <-.
  assert (Hknown : length (ints vals) = known_in df k).
  { rewrite (length_ints vals Hint). unfold vals, known_in.
    by rewrite length_filter_map. }
  assert (Hret : Zsum (ints vals) = Z.of_nat (returned_in df k)).
  { rewrite (Zsum_flags vals (Hvals k)). unfold vals, returned_in.
    by rewrite length_filter_map. }
  pose proof (returned_le_known df k) as Hle.
  destruct (ints vals) as [|z zs] eqn:Hz.
  - cbn [length] in Hknown. split; [done|]. split; [by rewrite <- Hknown|]. done.
  - assert (Hpos : known_in df k <> 0%nat) by (rewrite <- Hknown; discriminate).
    rewrite Hret, Hknown. clear Hz Hret Hknown.
    split; [done|]. cbn [times]. split; [done|]. intros q [= <-].
    set (share := (inject_Z (Z.of_nat (returned_in df k))
                   / inject_Z (Z.of_nat (known_in df k)))%Q).
    assert (Hn : (0 < inject_Z (Z.of_nat (known_in df k)))%Q)
      by (rewrite <- (Zlt_Qlt 0); lia).
    assert (Hshare : (0 <= share <= 1)%Q).
    { unfold share. split.
      - apply Qle_shift_div_l; [done|]. rewrite Qmult_0_l, <- (Zle_Qle 0). lia.
      - apply Qle_shift_div_r; [done|]. rewrite Qmult_1_l, <- Zle_Qle. lia. }
    assert (Hfl : (0 <= float64 share <= 1)%Q).
    { split; [apply float64_nonneg, Hshare|].
      apply (float64_le 1); [lia|apply Hshare..]. }
    split.
    + apply float64_nonneg. apply Qmult_le_0_compat; [apply Hfl|discriminate].
    + apply (float64_le 100); [lia| |].
      * apply Qmult_le_0_compat; [apply Hfl|discriminate].
      * change (inject_Z 100) with (1 * 100)%Q.
        apply Qmult_le_compat_r; [apply Hfl|discriminate].
Qed.

Lemma return_rate_witness :
  exists rates,
    Main.return_rate_by_state orders_example = Ok rates /\
    Sorted cell_le (map fst rates).
Proof.
  assert (Hnd : NoDup (index orders_example))
    by (apply (bool_decide_unpack _); vm_compute; exact I).
  assert (Hs : "state" ∈ columns orders_example)
    by (apply (bool_decide_unpack _); vm_compute; exact I).
  assert (Hr : "returnShipment" ∈ columns orders_example)
    by (apply (bool_decide_unpack _); vm_compute; exact I).
  assert (Hflags : forall i r, In (i, r) (rows orders_example) ->
                     return_flag (cell r "returnShipment") = true).
  { intros i r [Heq|[Heq|[Heq|[]]]]; injection Heq as <- <-; vm_compute; reflexivity. }
  destruct (return_rate_is_the_share_of_returned_orders orders_example Hnd Hs Hr Hflags)
    as ((rates & H1 & H2 & _) & _).
  exists rates. split; [exact H1|exact H2].
Defined.

(** ** The average delay *)

Lemma ints_late vals :
  (forall v, In v vals -> int_or_null v = true /\ gt0 v = true) ->
  Forall (fun z => 1 <= z) (ints vals) /\ length (ints vals) = length vals.
Proof.
  induction vals as [|v vals IH]; intros Hall; [by split|].
  destruct (Hall v (or_introl eq_refl)) as [Hi Hg].
  destruct (IH (fun v' Hv' => Hall v' (or_intror Hv'))) as [IH1 IH2].
  destruct v as [| |z| | | |]; try discriminate. cbn [ints length].
  split; [|by rewrite IH2]. constructor; [|done]. cbn in Hg. apply Z.ltb_lt in Hg. lia.
Qed.

(** X13: when every delay is a whole number or missing,
    [delivery_performance] succeeds and has one entry for each month in
    which an order delivered late was placed, in ascending order; each
    average is at least one day; [Sample02.py] computes the same
    averages, or nothing when no order is late. *)
Theorem delivery_performance_averages_the_late_orders (df : DataFrame) :
  NoDup (index df) -> "delivery_delay" ∈ columns df -> "orderDate" ∈ columns df ->
  (forall i r, In (i, r) (rows df) -> int_or_null (cell r "delivery_delay") = true) ->
  exists averages,
    Main.delivery_performance df = Ok averages /\
    Sample02.delays df
    = Ok (if bool_decide (rows (filter_rows late df) = []) then None
          else Some averages) /\
    Sorted cell_le (map fst averages) /\
    NoDup (map fst averages) /\
    (forall k, In k (map fst averages) <->
       k <> NaN /\
       exists i r, In (i, r) (rows df) /\ late r = true /\ order_month r = k) /\
    forall k v, In (k, v) averages -> exists q, v = Float q /\ (1 <= q)%Q.
Proof.
  intros Hnd Hd Ho Hints.
  rewrite delivery_performance_rows, sample02_delays_rows by done.
  set (keyed := keyed_rows order_month "delivery_delay" (filter_rows late df)).
  assert (Hgroup : forall g, In g (groups keyed) ->
            g.2 = map (fun ir => cell ir.2 "delivery_delay")
                    (List.filter (fun ir => bool_decide (order_month ir.2 = g.1))
                       (rows (filter_rows late df)))).
  { intros g Hg. rewrite (In_groups keyed g Hg). subst keyed.
    by rewrite group_values. }
  assert (Hlate : forall g v, In g (groups keyed) -> In v g.2 ->
            int_or_null v = true /\ gt0 v = true).
  { intros g v Hg Hv. rewrite (Hgroup g Hg) in Hv.
    apply in_map_iff in Hv as ([i r] & <- & Hin).
    apply filter_In in Hin as [Hin _]. cbn [filter_rows rows] in Hin.
    apply filter_In in Hin as [Hin Hl]. split; [by apply (Hints i r)|done]. }
  destruct (agg_total mean (groups keyed)) as [averages Havg].
  { intros g Hg. rewrite mean_ints; [by eexists|].
    intros v Hv. by apply (Hlate g v Hg). }
  rewrite Havg, bind_Ok. exists averages. split; [done|].
  split; [by case_bool_decide|].
  pose proof (Sorted_agg_keys _ _ _ Havg) as Hkeys. rewrite Hkeys.
  split; [apply Sorted_group_keys|]. split; [apply NoDup_group_keys|]. split.
  - intros k. rewrite In_group_keys. subst keyed. unfold keyed_rows.
    rewrite List.map_map. cbn [fst filter_rows rows]. rewrite in_map_iff. split.
    + intros [([i r] & <- & Hin) Hk]. apply filter_In in Hin as [Hin Hl].
      split; [done|]. by exists i, r.
    + intros [Hk (i & r & Hin & Hl & <-)]. split; [|done]. exists (i, r).
      split; [done|]. by apply filter_In.
  - intros k v Hin.
    destruct (Forall2_In_r _ _ _ _ (agg_Ok _ _ _ Havg) Hin) as (g & Hg & Hk & Hm).
    cbn [fst snd] in Hk, Hm.
    assert (Hall : forall v, In v g.2 -> int_or_null v = true /\ gt0 v = true)
      by (intros v' Hv'; by apply (Hlate g)).
    rewrite mean_ints in Hm by (intros v' Hv'; by apply Hall). injection Hm as <-.
    destruct (ints_late g.2 Hall) as [Hone Hlen].
    assert (Hne : g.2 <> []).
    { assert (Hkey : In g.1 (group_keys (map fst keyed))).
      { rewrite <- map_fst_groups. apply in_map_iff. by exists g. }
      apply In_group_keys in Hkey as [Hkey _].
      apply in_map_iff in Hkey as ([k0 v0] & Hk0 & Hkv). cbn [fst] in Hk0.
      rewrite (In_groups keyed g Hg). intros Hnil.
      assert (Hmem : In v0 (map snd (List.filter
                (fun kv => bool_decide (kv.1 = g.1)) keyed))).
      { apply in_map_iff. exists (k0, v0). split; [done|].
        apply filter_In. split; [done|]. by apply bool_decide_eq_true_2. }
      by rewrite Hnil in Hmem. }
    destruct (ints g.2) as [|z zs] eqn:Hz.
    { cbn [length] in Hlen. destruct g.2; [done|discriminate]. }
    rewrite <- Hz in *. eexists. split; [reflexivity|].
    assert (Hn : (0 < inject_Z (Z.of_nat (length (ints g.2))))%Q).
    { rewrite <- (Zlt_Qlt 0). rewrite Hz. cbn [length]. lia. }
    apply (float64_ge 1); [lia|].
    apply Qle_shift_div_l; [done|]. rewrite Qmult_1_l, <- Zle_Qle.
    pose proof (Zsum_at_least 1 (ints g.2) Hone). lia.
Qed.

Lemma delivery_performance_witness :
  exists averages,
    Main.delivery_performance deliveries_example = Ok averages /\
    NoDup (map fst averages).
Proof.
  assert (Hnd : NoDup (index deliveries_example))
    by (apply (bool_decide_unpack _); vm_compute; exact I).
  assert (Hd : "delivery_delay" ∈ columns deliveries_example)
    by (apply (bool_decide_unpack _); vm_compute; exact I).
  assert (Ho : "orderDate" ∈ columns deliveries_example)
    by (apply (bool_decide_unpack _); vm_compute; exact I).
  assert (Hints : forall i r, In (i, r) (rows deliveries_example) ->
                    int_or_null (cell r "delivery_delay") = true).
  { intros i r [Heq|[Heq|[Heq|[Heq|[]]]]]; injection Heq as <- <-;
      vm_compute; reflexivity. }
  destruct (delivery_performance_averages_the_late_orders deliveries_example
              Hnd Hd Ho Hints) as (averages & H1 & _ & _ & H2 & _).
  exists averages. split; [exact H1|exact H2].
Defined.

(** ** The age groups of all rows *)

Lemma cut_left_closed_range bins labels x :
  cut_left_closed bins labels x = NaN \/
  exists label, In label labels /\ cut_left_closed bins labels x = Str label.
Proof.
  revert labels. induction bins as [|lo bins IH]; intros labels; [by left|].
  destruct bins as [|hi rest]; [by left|].
  destruct labels as [|label labels]; [by left|].
  cbn [cut_left_closed].
  destruct (Qle_bool (inject_Z lo) x && negb (Qle_bool (inject_Z hi) x)).
  - right. exists label. split; [by left|done].
  - destruct (IH labels) as [Hnull|(l & Hl & Hcut)]; [by left|].
    right. exists l. split; [by right|done].
Qed.

Lemma age_group_range c :
  Main.age_group c = NaN \/
  exists label, In label (["Unknown"] ++ Main.age_labels) /\
                Main.age_group c = Str label.
Proof.
  unfold Main.age_group, pd_cut.
  destruct (fillna (Int (-1)) c); try (by left); apply cut_left_closed_range.
Qed.

Lemma sum_counts_value_counts categories s :
  NoDup categories ->
  sum_counts (value_counts categories s)
  = length (List.filter (fun iv => bool_decide (iv.2 ∈ map Str categories)) s).
Proof.
  intros Hnd. unfold value_counts.
  rewrite (sum_counts_Permutation _ _ (merge_sort_Permutation _ _)).
  rewrite <- sum_counts_count_value.
  2:{ assert (Hinj : Inj (=) (=) Str) by (by intros a b [= ->]).
      by apply (NoDup_fmap_2 Str). }
  unfold sum_counts. induction categories as [|c cs IH]; [done|].
  apply NoDup_cons in Hnd as [_ Hnd]. cbn [map fold_right snd].
  by rewrite IH.
Qed.

(** X14: [age_distribution] lists the five age groups whatever the rows
    are, the most frequent first, each with the number of its rows; the
    counts add up to the number of rows that have a group, which is every
    row when each age is missing or from -1 to 99. *)
Theorem age_distribution_counts_the_ages_in_range (df : DataFrame) :
  NoDup (index df) -> "customer_age" ∈ columns df ->
  exists df' age_distribution,
    Main.age_distribution df = Ok (df', age_distribution) /\
    Sample1.age_distribution df = Ok (df', age_distribution) /\
    Sorted more_frequent age_distribution /\
    map fst age_distribution ≡ₚ ["Unknown"; "18-30"; "31-45"; "46-60"; "60+"] /\
    (forall label n, In (label, n) age_distribution ->
       n = length (List.filter
                     (fun ir => bool_decide
                                  (Main.age_group (cell ir.2 "customer_age") = Str label))
                     (rows df))) /\
    sum_counts age_distribution
    = length (List.filter
                (fun ir => negb (isnull (Main.age_group (cell ir.2 "customer_age"))))
                (rows df)) /\
    ((forall i r, In (i, r) (rows df) ->
        age_between (-1) 99 (cell r "customer_age") = true) ->
     sum_counts age_distribution = Main.total_orders df).
Proof.
  intros Hnd Hc. rewrite sample1_age_distribution, age_distribution_rows by done.
  eexists _, _. split; [reflexivity|]. split; [reflexivity|].
  set (s := derived df (fun r => Main.age_group (cell r "customer_age"))).
  assert (Hperm : value_counts (["Unknown"] ++ Main.age_labels) s
                  ≡ₚ map (fun label => (label, count_label s label))
                       (["Unknown"] ++ Main.age_labels))
    by apply merge_sort_Permutation.
  assert (Htotal : sum_counts (value_counts (["Unknown"] ++ Main.age_labels) s)
                   = length (List.filter
                       (fun ir => negb (isnull (Main.age_group
                                                  (cell ir.2 "customer_age"))))
                       (rows df))).
  { rewrite sum_counts_value_counts
      by (apply (bool_decide_unpack _); vm_compute; exact I).
    pose proof (length_filter_derived
                  (fun v : Cell => bool_decide
                     (v ∈ map Str (["Unknown"] ++ Main.age_labels)))
                  df (fun r => Main.age_group (cell r "customer_age"))) as Hlen.
    cbn beta in Hlen. subst s. rewrite Hlen. clear Hlen. f_equal.
    apply filter_ext. intros [i r]. cbn [snd].
    destruct (age_group_range (cell r "customer_age")) as [Hn|(l & Hl & Hg)].
    - rewrite Hn. cbn [isnull negb]. apply bool_decide_eq_false_2.
      rewrite list_elem_of_In, in_map_iff. by intros (? & ? & _).
    - rewrite Hg. cbn [isnull negb]. apply bool_decide_eq_true_2.
      rewrite list_elem_of_In, in_map_iff. by exists l. }
  split; [apply Sorted_merge_sort; apply _|]. split; [|split; [|split]].
  - rewrite (Permutation_map fst Hperm), List.map_map. cbn [fst]. by rewrite map_id.
  - intros label n Hin. apply (Permutation_in _ Hperm) in Hin.
    apply in_map_iff in Hin as (l & Heq & _). injection Heq as -> <-.
    unfold count_label.
    pose proof (length_filter_derived
                  (fun v : Cell => bool_decide (v = Str label))
                  df (fun r => Main.age_group (cell r "customer_age"))) as Hlen.
    exact Hlen.
  - exact Htotal.
  - intros Hrange. rewrite Htotal. unfold Main.total_orders. f_equal.
    apply filter_all. intros [i r] Hin. cbn [snd].
    specialize (Hrange i r Hin).
    destruct (cell r "customer_age") as [| |z| | | |]; try discriminate.
    + by rewrite age_group_NaN.
    + cbn in Hrange. apply andb_true_iff in Hrange as [H1 H2].
      apply Z.leb_le in H1, H2. rewrite age_group_Int.
      repeat match goal with
             | |- context [?a <? ?b] => destruct (Z.ltb_spec a b); try lia
             end; done.
Qed.

Lemma age_distribution_witness :
  exists df' age_distribution,
    Main.age_distribution customers_example = Ok (df', age_distribution) /\
    sum_counts age_distribution = 2%nat.
Proof.
  assert (Hnd : NoDup (index customers_example))
    by (apply (bool_decide_unpack _); vm_compute; exact I).
  assert (Hc : "customer_age" ∈ columns customers_example)
    by (apply (bool_decide_unpack _); vm_compute; exact I).
  destruct (age_distribution_counts_the_ages_in_range customers_example Hnd Hc)
    as (df' & counts & H1 & _ & _ & _ & _ & H2 & _).
  exists df', counts. split; [exact H1|]. rewrite H2. vm_compute. reflexivity.
Defined.

(** ** The table of orders *)

Lemma between_number lo hi c :
  number_or_null c = true ->
  between lo hi c = Ok (within lo hi c).
Proof. by destruct c. Qed.

Lemma between_text lo hi c :
  number_or_null c = false -> between lo hi c = Raise TypeError.
Proof. by destruct c. Qed.

Lemma within_number lo hi c :
  within lo hi c = true <-> exists p, number c = Some p /\ (lo <= p <= hi)%Q.
Proof.
  unfold within. destruct (number c) as [p|].
  - rewrite andb_true_iff, !Qle_bool_iff. split; [by exists p|].
    by intros (p' & [= <-] & Hp).
  - split; [discriminate|by intros (p & ? & _)].
Qed.

Lemma try_smap_derived {A} (f : Cell -> result A) df
    (g : gmap string Cell -> Cell) (h : gmap string Cell -> A) :
  (forall i r, In (i, r) (rows df) -> f (g r) = Ok (h r)) ->
  try_smap f (derived df g) = Ok (derived df h).
Proof.
  unfold derived. induction (rows df) as [|[i r] rs IH]; intros Hall; [done|].
  cbn [map try_smap fst snd]. rewrite (Hall i r) by (by left). rewrite bind_Ok.
  rewrite IH by (intros j r' Hj; apply (Hall j); by right). by rewrite bind_Ok.
Qed.

Lemma try_smap_raise {A} (f : Cell -> result A) df
    (g : gmap string Cell -> Cell) e :
  (forall i r, In (i, r) (rows df) -> (exists b, f (g r) = Ok b) \/ f (g r) = Raise e) ->
  (exists i r, In (i, r) (rows df) /\ f (g r) = Raise e) ->
  try_smap f (derived df g) = Raise e.
Proof.
  unfold derived. induction (rows df) as [|[i r] rs IH]; intros Hall (j & r' & Hin & Hr).
  - destruct Hin.
  - cbn [map try_smap fst snd].
    destruct (Hall i r (or_introl eq_refl)) as [[b Hb]|He];
      [|by rewrite He, bind_Raise].
    rewrite Hb, bind_Ok. rewrite IH; [by rewrite bind_Raise| |].
    + intros k r'' Hk. apply (Hall k). by right.
    + destruct Hin as [Heq|Hin]; [|by exists j, r'].
      injection Heq as -> ->. congruence.
Qed.

(** X17: [df_table] of [sample1.py], on the rows whose prices are
    numbers or missing, keeps the rows whose price is a number between
    the two bounds, both included, and, when only returns are asked
    for, whose return flag is 1; the column of the return flags is read
    only in that case and its absence is then a [KeyError]. A price that
    is a text is a [TypeError], whether returns are asked for or not and
    before the return flags are looked at. Crossed bounds give an empty
    table. *)
Theorem df_table_shows_the_prices_in_range
    (df : DataFrame) (min_price max_price : Q) :
  NoDup (index df) -> "price" ∈ columns df ->
  ((exists i r, In (i, r) (rows df) /\ number_or_null (cell r "price") = false) ->
   forall returns_only,
     Sample1.df_table df min_price max_price returns_only = Raise TypeError) /\
  ((forall i r, In (i, r) (rows df) -> number_or_null (cell r "price") = true) ->
   (exists view,
      Sample1.df_table df min_price max_price false = Ok view /\
      columns view = columns df /\
      forall i r, In (i, r) (rows view) <->
        In (i, r) (rows df) /\
        exists p, number (cell r "price") = Some p /\
                  (min_price <= p <= max_price)%Q) /\
   ("returnShipment" ∉ columns df ->
    Sample1.df_table df min_price max_price true
    = Raise (KeyError "returnShipment")) /\
   ("returnShipment" ∈ columns df ->
    exists view,
      Sample1.df_table df min_price max_price true = Ok view /\
      columns view = columns df /\
      forall i r, In (i, r) (rows view) <->
        In (i, r) (rows df) /\
        (exists p, number (cell r "price") = Some p /\
                   (min_price <= p <= max_price)%Q) /\
        eq1 (cell r "returnShipment") = true)) /\
  (~ (min_price <= max_price)%Q ->
   forall returns_only view,
     Sample1.df_table df min_price max_price returns_only = Ok view ->
     rows view = []).
Proof.
  intros Hnd Hp.
  assert (Htext : (exists i r, In (i, r) (rows df) /\
                     number_or_null (cell r "price") = false) ->
            forall returns_only,
              Sample1.df_table df min_price max_price returns_only = Raise TypeError).
  { intros Hbad returns_only. unfold Sample1.df_table.
    rewrite (getitem_column df "price") by done. rewrite bind_Ok.
    rewrite (try_smap_raise _ df _ TypeError); [by rewrite bind_Raise| |].
    - intros i r _. destruct (number_or_null (cell r "price")) eqn:Hn.
      + left. eexists. by apply between_number.
      + right. by apply between_text.
    - destruct Hbad as (i & r & Hin & Hn). exists i, r. split; [done|].
      by apply between_text. }
  assert (Hall : (forall i r, In (i, r) (rows df) ->
                    number_or_null (cell r "price") = true) ->
            Sample1.df_table df min_price max_price false
            = Ok (filter_rows (fun r => within min_price max_price
                                          (cell r "price")) df)).
  { intros Hnum. unfold Sample1.df_table.
    rewrite (getitem_column df "price") by done. rewrite bind_Ok.
    rewrite (try_smap_derived _ df _
               (fun r => within min_price max_price (cell r "price")))
      by (intros i r Hin; by apply between_number, (Hnum i)).
    rewrite !bind_Ok. unfold mret, result_ret. f_equal.
    by apply getitem_mask_derived. }
  assert (Hret : (forall i r, In (i, r) (rows df) ->
                    number_or_null (cell r "price") = true) ->
            "returnShipment" ∈ columns df ->
            Sample1.df_table df min_price max_price true
            = Ok (filter_rows (fun r => within min_price max_price (cell r "price")
                                        && eq1 (cell r "returnShipment")) df)).
  { intros Hnum Hr. unfold Sample1.df_table.
    rewrite (getitem_column df "price") by done. rewrite bind_Ok.
    rewrite (try_smap_derived _ df _
               (fun r => within min_price max_price (cell r "price")))
      by (intros i r Hin; by apply between_number, (Hnum i)).
    rewrite bind_Ok.
    rewrite (getitem_column df "returnShipment") by done. rewrite !bind_Ok.
    rewrite !smap_derived, szip_derived by done.
    unfold mret, result_ret. f_equal. by apply getitem_mask_derived. }
  assert (Hmiss : (forall i r, In (i, r) (rows df) ->
                     number_or_null (cell r "price") = true) ->
            "returnShipment" ∉ columns df ->
            Sample1.df_table df min_price max_price true
            = Raise (KeyError "returnShipment")).
  { intros Hnum Hr. unfold Sample1.df_table.
    rewrite (getitem_column df "price") by done. rewrite bind_Ok.
    rewrite (try_smap_derived _ df _
               (fun r => within min_price max_price (cell r "price")))
      by (intros i r Hin; by apply between_number, (Hnum i)).
    rewrite bind_Ok. rewrite getitem_missing by done. by rewrite !bind_Raise. }
  split; [exact Htext|]. split.
  - intros Hnum. split; [|split].
    + rewrite (Hall Hnum). eexists. split; [reflexivity|]. split; [reflexivity|].
      intros i r. cbn [filter_rows rows]. rewrite filter_In. cbn [snd].
      by rewrite within_number.
    + by apply Hmiss.
    + intros Hr. rewrite (Hret Hnum Hr). eexists. split; [reflexivity|].
      split; [reflexivity|]. intros i r. cbn [filter_rows rows].
      rewrite filter_In. cbn [snd]. rewrite andb_true_iff, within_number. tauto.
  - intros Hcross returns_only view Hview.
    assert (Hnone : forall c, within min_price max_price c = false).
    { intros c. destruct (within min_price max_price c) eqn:Hb; [|done].
      apply within_number in Hb as (p & _ & H1 & H2).
      destruct Hcross. by apply (Qle_trans _ p). }
    assert (Hnum : forall i r, In (i, r) (rows df) ->
                     number_or_null (cell r "price") = true).
    { intros i r Hin. destruct (number_or_null (cell r "price")) eqn:Hn; [done|].
      rewrite Htext in Hview by (by exists i, r). discriminate. }
    destruct returns_only.
    + destruct (decide ("returnShipment" ∈ columns df)) as [Hr|Hr].
      * rewrite (Hret Hnum Hr) in Hview. injection Hview as <-.
        cbn [filter_rows rows]. apply filter_none. intros [i r]. cbn [snd].
        by rewrite Hnone.
      * rewrite (Hmiss Hnum Hr) in Hview. discriminate.
    + rewrite (Hall Hnum) in Hview. injection Hview as <-.
      cbn [filter_rows rows]. apply filter_none. intros [i r]. cbn [snd].
      by rewrite Hnone.
Qed.

Lemma df_table_witness :
  exists view,
    Sample1.df_table priced_example 0 100 false = Ok view /\
    columns view = columns priced_example.
Proof.
  assert (Hnd : NoDup (index priced_example))
    by (apply (bool_decide_unpack _); vm_compute; exact I).
  assert (Hp : "price" ∈ columns priced_example)
    by (apply (bool_decide_unpack _); vm_compute; exact I).
  destruct (df_table_shows_the_prices_in_range priced_example 0 100 Hnd Hp)
    as (_ & Hnumbers & _).
  destruct Hnumbers as ((view & H1 & H2 & _) & _).
  { intros i r [Heq|[Heq|[]]]; injection Heq as <- <-; vm_compute; reflexivity. }
  exists view. split; [exact H1|exact H2].
Defined.

(** ** Every aggregation and its groups *)

Lemma agg_lists_the_groups f key c df res :
  agg f (groups (keyed_rows key c df)) = Ok res -> lists_the_groups key df res.
Proof.
  intros Hagg. pose proof (agg_Ok _ _ _ Hagg) as HF.
  assert (Hkeys : map fst res = group_keys (map fst (keyed_rows key c df))).
  { rewrite <- map_fst_groups. apply (Forall2_map_fst _ _ _ HF). by intros x y [? _]. }
  unfold lists_the_groups. rewrite Hkeys. split; [apply NoDup_group_keys|].
  intros k. rewrite In_group_keys. unfold keyed_rows.
  rewrite List.map_map. cbn [fst]. rewrite in_map_iff. split.
  - intros [([i r] & <- & Hin) Hk]. split; [done|]. by exists i, r.
  - intros [Hk (i & r & Hin & <-)]. split; [|done]. by exists (i, r).
Qed.

Lemma agg_values f key c df res k v :
  agg f (groups (keyed_rows key c df)) = Ok res -> In (k, v) res ->
  f (map (fun ir => cell ir.2 c)
       (List.filter (fun ir => bool_decide (key ir.2 = k)) (rows df))) = Ok v.
Proof.
  intros Hagg Hin.
  destruct (Forall2_In_r _ _ _ _ (agg_Ok _ _ _ Hagg) Hin) as (g & Hg & Hk & Hm).
  cbn [fst snd] in Hk, Hm.
  rewrite (In_groups _ g Hg), group_values in Hm. by rewrite <- Hk in Hm.
Qed.

Lemma agg_groups_total f key c df :
  (forall vals,
     (forall v, In v vals -> exists i r, In (i, r) (rows df) /\ v = cell r c) ->
     exists v, f vals = Ok v) ->
  exists res, agg f (groups (keyed_rows key c df)) = Ok res.
Proof.
  intros Hf. apply agg_total. intros g Hg. apply Hf. intros v Hv.
  rewrite (In_groups _ g Hg), group_values in Hv.
  apply in_map_iff in Hv as ([i r] & <- & Hin).
  apply List.filter_In in Hin as [Hin _]. by exists i, r.
Qed.

Lemma lists_the_groups_Permutation {A} key df (entries entries' : list (Cell * A)) :
  entries ≡ₚ entries' ->
  lists_the_groups key df entries -> lists_the_groups key df entries'.
Proof.
  intros Hperm [Hnd Hkeys].
  pose proof (Permutation_map fst Hperm) as Hfst. split.
  - by rewrite <- Hfst.
  - intros k. rewrite <- Hkeys. split; apply Permutation_in; [symmetry|]; exact Hfst.
Qed.

Lemma lists_the_groups_nil {A} key df (entries : list (Cell * A)) :
  lists_the_groups key df entries -> rows df = [] -> entries = [].
Proof.
  intros [_ Hkeys] Hrows. destruct entries as [|[k v] entries]; [done|].
  destruct (proj1 (Hkeys k)) as (_ & i & r & Hin & _); [by left|].
  rewrite Hrows in Hin. destruct Hin.
Qed.

Lemma counts_list_the_groups c df (counts : list (Cell * nat)) :
  NoDup (map fst counts) ->
  (forall k n, In (k, n) counts <->
     k <> NaN /\ n = length (rows_where c k df) /\ (1 <= n)%nat) ->
  lists_the_groups (fun r => cell r c) df counts.
Proof.
  intros Hnd Hcounts. split; [done|]. intros k. rewrite in_map_iff. split.
  - intros ([k' n] & <- & Hin). cbn [fst].
    apply Hcounts in Hin as (Hk & -> & Hpos). split; [done|].
    unfold rows_where in Hpos.
    destruct (List.filter _ (rows df)) as [|[i r] rest] eqn:Hf; [cbn in Hpos; lia|].
    assert (Hir : In (i, r) (List.filter
              (fun ir => bool_decide (cell ir.2 c = k')) (rows df)))
      by (rewrite Hf; by left).
    apply filter_In in Hir as [Hir Hcell]. apply bool_decide_eq_true in Hcell.
    by exists i, r.
  - intros (Hk & i & r & Hin & Hcell).
    exists (k, length (rows_where c k df)). split; [done|].
    apply Hcounts. split; [done|]. split; [done|].
    unfold rows_where.
    assert (Hir : In (i, r) (List.filter
              (fun ir => bool_decide (cell ir.2 c = k)) (rows df))).
    { apply filter_In. split; [done|]. by apply bool_decide_eq_true_2. }
    destruct (List.filter _ (rows df)); [destruct Hir|cbn [length]; lia].
Qed.

Lemma group_sizes_spec c df k n :
  In (k, n) (map (fun k => (k, length (rows_where c k df)))
               (group_keys (map (fun ir => cell ir.2 c) (rows df))))
  <-> k <> NaN /\ n = length (rows_where c k df) /\ (1 <= n)%nat.
Proof.
  rewrite in_map_iff. split.
  - intros (k' & Heq & Hin). injection Heq as -> <-.
    apply In_group_keys in Hin as [Hin Hk].
    split; [done|]. split; [done|].
    apply in_map_iff in Hin as ([i r] & Hcell & Hin). cbn [snd] in Hcell.
    unfold rows_where.
    assert (Hir : In (i, r) (List.filter
              (fun ir => bool_decide (cell ir.2 c = k)) (rows df))).
    { apply filter_In. split; [done|]. by apply bool_decide_eq_true_2. }
    destruct (List.filter _ (rows df)); [destruct Hir|cbn [length]; lia].
  - intros (Hk & -> & Hpos). exists k. split; [done|].
    apply In_group_keys. split; [|done]. unfold rows_where in Hpos.
    destruct (List.filter _ (rows df)) as [|[i r] rest] eqn:Hf; [cbn in Hpos; lia|].
    assert (Hir : In (i, r) (List.filter
              (fun ir => bool_decide (cell ir.2 c = k)) (rows df)))
      by (rewrite Hf; by left).
    apply filter_In in Hir as [Hir Hcell]. apply bool_decide_eq_true in Hcell.
    apply in_map_iff. by exists (i, r).
Qed.

Lemma manufacturer_revenue_rows fsum text_sum df :
  NoDup (index df) -> "manufacturerID" ∈ columns df -> "price" ∈ columns df ->
  Main.manufacturer_revenue fsum text_sum df
  = (sums ← agg (sum fsum text_sum (map (fun ir => cell ir.2 "price") (rows df)))
             (groups (keyed_rows (fun r => cell r "manufacturerID") "price" df));
     mret (sort_values_descending sums)).
Proof.
  intros Hnd Hm Hp. unfold Main.manufacturer_revenue.
  rewrite (getitem_column df "manufacturerID") by done. rewrite bind_Ok.
  rewrite groupby_derived by done. rewrite bind_Ok.
  rewrite (getitem_column df "price") by done. rewrite bind_Ok.
  unfold derived. by rewrite List.map_map.
Qed.

Lemma forallb_numbers vals :
  (exists qs, numbers vals = Ok qs) <->
  forall v, In v vals -> number_or_null v = true.
Proof.
  split; [|apply numbers_total].
  induction vals as [|v vals IH]; intros [qs Hqs] v' Hin; [destruct Hin|].
  cbn [numbers] in Hqs.
  destruct v; try discriminate;
    (destruct Hin as [<-|Hin]; [reflexivity|]);
    destruct (numbers vals) as [qs'|e] eqn:Hn; try discriminate;
    apply IH; eauto.
Qed.

Lemma sum_total fsum text_sum column vals :
  (forall v, In v column -> number_or_null v = true) ->
  (forall v, In v vals -> In v column) ->
  exists v, sum fsum text_sum column vals = Ok v.
Proof.
  intros Hcol Hsub. unfold sum. destruct (forallb whole column); [by eexists|].
  destruct (numbers_total column Hcol) as [qs ->].
  destruct (numbers_total vals) as [qs' ->]; [auto|].
  rewrite bind_Ok. by eexists.
Qed.

(** C5 (as stated, it fails): [age_distribution] lists age groups that
    no record of the collection has, with the count 0. *)
Lemma C5_absent_age_group_counterexample :
  ~ (forall df df' age_distribution,
       Main.age_distribution df = Ok (df', age_distribution) ->
       forall label n, In (label, n) age_distribution ->
         exists i r, In (i, r) (rows df) /\
                     Main.age_group (cell r "customer_age") = Str label).
Proof.
  intros Hclaim.
  destruct (Main.age_distribution customers_example) as [[df' counts]|e] eqn:Hage;
    [|vm_compute in Hage; discriminate].
  specialize (Hclaim customers_example df' counts Hage "60+" 0%nat).
  vm_compute in Hage. injection Hage as _ <-.
  destruct Hclaim as (i & r & Hin & Hgroup).
  - cbn. tauto.
  - destruct Hin as [Heq|[Heq|[Heq|[]]]]; injection Heq as <- <-;
      vm_compute in Hgroup; discriminate.
Qed.

(** C5 (as amended): on every filtered collection, the aggregations by
    group list one entry for each key that is present in the data and
    not null, and no entry for an absent key: the mean return rate by
    state and the mean delay by month of the late orders, the sum of the
    prices by manufacturer, and the counts of the orders by colour, by
    size and by order date. Each entry is the reduction of the values of
    its group: a mean is null, and never a division error, when the
    group has no number, and a count is at least one. An empty
    collection gives the empty mapping for all of these. The count of
    the age groups is the exception: it lists each of the five age
    groups, with the count 0 for a group that no record has. In the
    scenario of the specification the return rate is 50 for DE, with no
    entry for FR. *)
Theorem C5_aggregations_list_the_groups_present
    (fsum : list Q -> Q) (text_sum : list Cell -> result Cell) (df : DataFrame) :
  NoDup (index df) ->
  ("state" ∈ columns df -> "returnShipment" ∈ columns df ->
   (returns_are_numbers df ->
    exists rates, Main.return_rate_by_state df = Ok rates) /\
   (forall rates,
      Main.return_rate_by_state df = Ok rates ->
      lists_the_groups (fun r => cell r "state") df rates /\
      forall k v, In (k, v) rates ->
        exists m,
          mean (map (fun ir => cell ir.2 "returnShipment") (rows_of_state df k))
          = Ok m /\ v = times 100 m) /\
   (rows df = [] -> Main.return_rate_by_state df = Ok [])) /\
  ("delivery_delay" ∈ columns df -> "orderDate" ∈ columns df ->
   (numbers_in "delivery_delay" df ->
    exists averages, Main.delivery_performance df = Ok averages) /\
   (forall averages,
      Main.delivery_performance df = Ok averages ->
      lists_the_groups order_month (filter_rows late df) averages /\
      forall k v, In (k, v) averages ->
        mean (map (fun ir => cell ir.2 "delivery_delay")
                (List.filter (fun ir => bool_decide (order_month ir.2 = k))
                   (rows (filter_rows late df)))) = Ok v) /\
   (rows df = [] -> Main.delivery_performance df = Ok [])) /\
  ("manufacturerID" ∈ columns df -> "price" ∈ columns df ->
   (numbers_in "price" df ->
    exists revenue, Main.manufacturer_revenue fsum text_sum df = Ok revenue) /\
   (forall revenue,
      Main.manufacturer_revenue fsum text_sum df = Ok revenue ->
      lists_the_groups (fun r => cell r "manufacturerID") df revenue /\
      Sorted falling revenue /\
      forall k v, In (k, v) revenue ->
        sum fsum text_sum (map (fun ir => cell ir.2 "price") (rows df))
          (map (fun ir => cell ir.2 "price") (rows_where "manufacturerID" k df))
        = Ok v) /\
   (rows df = [] -> Main.manufacturer_revenue fsum text_sum df = Ok [])) /\
  (forall c orders,
     c ∈ columns df ->
     (c = "color" /\ Main.color_orders df = Ok orders) \/
     (c = "size" /\ Main.size_orders df = Ok orders) \/
     (c = "orderDate" /\ Sample02.df_forecast df = Ok orders) ->
     lists_the_groups (fun r => cell r c) df orders /\
     (forall k n, In (k, n) orders ->
        n = length (rows_where c k df) /\ (1 <= n)%nat) /\
     (rows df = [] -> orders = [])) /\
  ("color" ∈ columns df -> exists orders, Main.color_orders df = Ok orders) /\
  ("size" ∈ columns df -> exists orders, Main.size_orders df = Ok orders) /\
  ("orderDate" ∈ columns df -> exists orders, Sample02.df_forecast df = Ok orders) /\
  ("customer_age" ∈ columns df ->
   exists df' age_distribution,
     Main.age_distribution df = Ok (df', age_distribution) /\
     map fst age_distribution ≡ₚ ["Unknown"; "18-30"; "31-45"; "46-60"; "60+"] /\
     (forall label n, In (label, n) age_distribution ->
        n = rows_of_age_group label df) /\
     (rows df = [] ->
      forall label, In label ["Unknown"; "18-30"; "31-45"; "46-60"; "60+"] ->
                    In (label, 0%nat) age_distribution)) /\
  (exists df_de,
     Main.df_filtered orders_example
       [Str "DE"] [Str "2024-01"] [Str "red"] [Str "m"] = Ok df_de /\
     Main.return_rate_by_state df_de = Ok [(Str "DE", Float 50)]).
Proof.
  intros Hnd.
  split; [|split; [|split; [|split; [|split; [|split; [|split; [|split]]]]]]].
  - intros Hs Hr.
    destruct (return_rate_groups df Hnd Hs Hr) as (Htotal & Hgroups & Hempty & _).
    split; [exact Htotal|]. split; [|exact Hempty].
    intros rates Hrates. destruct (Hgroups rates Hrates) as (H1 & H2 & H3).
    split; [by split|exact H3].
  - intros Hd Ho. rewrite delivery_performance_rows by done.
    split; [|split].
    + intros Hnum. apply agg_groups_total. intros vals Hvals.
      apply mean_total. intros v Hv.
      destruct (Hvals v Hv) as (i & r & Hin & ->).
      cbn [filter_rows rows] in Hin. apply List.filter_In in Hin as [Hin _].
      by apply (Hnum i r).
    + intros averages Hok. split; [by apply agg_lists_the_groups in Hok|].
      intros k v Hin. by apply (agg_values _ _ _ _ _ _ _ Hok).
    + intros Hempty. unfold keyed_rows, filter_rows; cbn [rows].
      by rewrite Hempty.
  - intros Hm Hp. rewrite manufacturer_revenue_rows by done.
    split; [|split].
    + intros Hnum.
      destruct (agg_groups_total
                  (sum fsum text_sum (map (fun ir => cell ir.2 "price") (rows df)))
                  (fun r => cell r "manufacturerID") "price" df) as [sums Hsums].
      { intros vals Hvals. apply sum_total.
        - intros v Hv. apply in_map_iff in Hv as ([i r] & <- & Hin).
          by apply (Hnum i r).
        - intros v Hv. destruct (Hvals v Hv) as (i & r & Hin & ->).
          apply in_map_iff. by exists (i, r). }
      rewrite Hsums, bind_Ok. by eexists.
    + intros revenue Hrev.
      destruct (agg _ (groups _)) as [sums|e] eqn:Hsums;
        [|by rewrite bind_Raise in Hrev].
      rewrite bind_Ok in Hrev. injection Hrev as <-.
      assert (Hperm : sort_values_descending sums ≡ₚ sums)
        by apply merge_sort_Permutation.
      split; [|split].
      * apply (lists_the_groups_Permutation _ _ sums); [done|].
        by apply agg_lists_the_groups in Hsums.
      * apply Sorted_merge_sort. apply _.
      * intros k v Hin. apply (Permutation_in _ Hperm) in Hin.
        by apply (agg_values _ _ _ _ _ _ _ Hsums).
    + intros Hempty. unfold keyed_rows. by rewrite Hempty.
  - intros c orders Hc Hcases.
    assert (Hspec : NoDup (map fst orders) /\
              forall k n, In (k, n) orders <->
                k <> NaN /\ n = length (rows_where c k df) /\ (1 <= n)%nat).
    { destruct Hcases as [[-> Hok]|[[-> Hok]|[-> Hok]]].
      - unfold Main.color_orders in Hok.
        rewrite (getitem_column df "color"), bind_Ok in Hok by done.
        injection Hok as <-.
        by destruct (value_counts_of_column df "color" _ eq_refl) as (_ & ? & ? & _).
      - unfold Main.size_orders in Hok.
        rewrite (getitem_column df "size"), bind_Ok in Hok by done.
        injection Hok as <-.
        by destruct (value_counts_of_column df "size" _ eq_refl) as (_ & ? & ? & _).
      - unfold Sample02.df_forecast in Hok.
        rewrite groupby_size_rows in Hok by done. injection Hok as <-.
        split; [|apply group_sizes_spec].
        rewrite List.map_map. cbn [fst]. rewrite map_id. apply NoDup_group_keys. }
    destruct Hspec as [Hnd' Hcounts].
    pose proof (counts_list_the_groups c df orders Hnd' Hcounts) as Hgroups.
    split; [exact Hgroups|]. split.
    + intros k n Hin. by apply Hcounts in Hin as (_ & ? & ?).
    + by apply (lists_the_groups_nil _ _ _ Hgroups).
  - intros Hc. unfold Main.color_orders.
    rewrite (getitem_column df "color"), bind_Ok by done. by eexists.
  - intros Hc. unfold Main.size_orders.
    rewrite (getitem_column df "size"), bind_Ok by done. by eexists.
  - intros Hc. unfold Sample02.df_forecast.
    rewrite groupby_size_rows by done. by eexists.
  - intros Hc. rewrite age_distribution_rows by done.
    eexists _, _. split; [reflexivity|].
    set (s := derived df (fun r => Main.age_group (cell r "customer_age"))).
    assert (Hperm : value_counts (["Unknown"] ++ Main.age_labels) s
                    ≡ₚ map (fun label => (label, count_label s label))
                         (["Unknown"] ++ Main.age_labels))
      by apply merge_sort_Permutation.
    assert (Hcount : forall label, count_label s label = rows_of_age_group label df).
    { intros label. unfold count_label, rows_of_age_group.
      exact (length_filter_derived
               (fun v : Cell => bool_decide (v = Str label))
               df (fun r => Main.age_group (cell r "customer_age"))). }
    split; [|split].
    + rewrite (Permutation_map fst Hperm), List.map_map. cbn [fst].
      by rewrite map_id.
    + intros label n Hin. apply (Permutation_in _ Hperm) in Hin.
      apply in_map_iff in Hin as (l & Heq & _). injection Heq as -> <-.
      apply Hcount.
    + intros Hempty label Hlabel.
      apply (Permutation_in _ (Permutation_sym Hperm)).
      apply in_map_iff. exists label. split; [|exact Hlabel].
      rewrite Hcount. unfold rows_of_age_group. by rewrite Hempty.
  - by eexists.
Qed.

Lemma C5_aggregations_witness :
  (exists rates, Main.return_rate_by_state orders_example = Ok rates) /\
  (exists orders, Main.color_orders orders_example = Ok orders).
Proof.
  assert (Hnd : NoDup (index orders_example))
    by (apply (bool_decide_unpack _); vm_compute; exact I).
  destruct (C5_aggregations_list_the_groups_present
              (fun _ => 0%Q) (fun _ => Raise TypeError) orders_example Hnd)
    as (Hrate & _ & _ & _ & Hcolor & _).
  split.
  - destruct Hrate as (Htotal & _).
    + apply (bool_decide_unpack _). vm_compute. exact I.
    + apply (bool_decide_unpack _). vm_compute. exact I.
    + apply Htotal.
      intros i r [H|[H|[H|[]]]]; injection H as <- <-; reflexivity.
  - apply Hcolor. apply (bool_decide_unpack _). vm_compute. exact I.
Defined.
